(** * Movie recommender: a shallow embedding of [movie_recommender.py]

    The store of the program ([DataStore]) holds four Python dicts.  Python
    dicts iterate in insertion order and the program depends on it (the
    rating lists of [ratings_by_movie] are built by walking [user_ratings]),
    so a dict is an association list kept in insertion order.  The loaders
    and the queries run in a small state monad over the store.

    Rating values are binary64 floats in the program.  Every finite float is
    a rational number, so a rating is a [Q] compared with [Qeq]/[Qle] (the
    float comparisons [==] and [<=]).  The two library functions that
    produce floats, [float] and [statistics.fmean], are the methods of the
    class [PyFloat], together with the properties of them that the proofs
    use. *)

From Stdlib Require Import List String Ascii Bool ZArith QArith Qabs Lia.
From Stdlib Require Import Permutation Sorted Lqa OrderedTypeEx.
Import ListNotations.
Local Open Scope string_scope.
Local Open Scope list_scope.
Local Open Scope Z_scope.

Set Implicit Arguments.

(** ** Strings

    A Python [str] is held as its UTF-8 encoding, the encoding with which the
    loaders open their files: a [string] is the list of the bytes.  The
    delimiter [|] and the comment sign [#] are ASCII, and no byte of the
    encoding of another character is ASCII, so that searching and splitting
    on bytes is searching and splitting on characters; strings are equal
    when their encodings are, and the order of the encodings, byte by byte,
    is the order of the strings, character by character.  A list of bytes
    that is the encoding of no [str] stands for no value of the program: on
    a file that holds one, the reading of the lines raises
    [UnicodeDecodeError], which is not modelled. *)

(** The white space that [str.strip()] removes is the set of the characters
    for which [str.isspace()] holds: U+0009 to U+000D, U+001C to U+0020,
    and, on two or three bytes, U+0085, U+00A0, U+1680, U+2000 to U+200A,
    U+2028, U+2029, U+202F, U+205F and U+3000. *)
Definition is_space1 (a : ascii) : bool :=
  let x := N_of_ascii a in
  ((9 <=? x) && (x <=? 13) || (28 <=? x) && (x <=? 32))%N.

Definition is_space2 (a b : ascii) : bool :=
  let x := N_of_ascii a in
  let y := N_of_ascii b in
  ((x =? 194) && ((y =? 133) || (y =? 160)))%N.

Definition is_space3 (a b c : ascii) : bool :=
  let x := N_of_ascii a in
  let y := N_of_ascii b in
  let z := N_of_ascii c in
  ((x =? 225) && (y =? 154) && (z =? 128)
   || (x =? 226) && (y =? 128)
      && ((128 <=? z) && (z <=? 138) || (z =? 168) || (z =? 169) || (z =? 175))
   || (x =? 226) && (y =? 129) && (z =? 159)
   || (x =? 227) && (y =? 128) && (z =? 128))%N.

(** The string without the white space character that it starts with, if it
    starts with one. *)
Definition skip_space (s : string) : option string :=
  match s with
  | EmptyString => None
  | String a t =>
      if is_space1 a then Some t
      else
        match t with
        | EmptyString => None
        | String b t' =>
            if is_space2 a b then Some t'
            else
              match t' with
              | EmptyString => None
              | String c t'' => if is_space3 a b c then Some t'' else None
              end
        end
  end.

Definition is_empty (s : string) : bool :=
  match s with EmptyString => true | String _ _ => false end.

(** [s.lstrip()] *)
Fixpoint lstrip (s : string) : string :=
  match s with
  | EmptyString => EmptyString
  | String a t =>
      if is_space1 a then lstrip t
      else
        match t with
        | EmptyString => s
        | String b t' =>
            if is_space2 a b then lstrip t'
            else
              match t' with
              | EmptyString => s
              | String c t'' => if is_space3 a b c then lstrip t'' else s
              end
        end
  end.

(** The string is made of white space only. *)
Fixpoint all_space (s : string) : bool :=
  match s with
  | EmptyString => true
  | String a t =>
      if is_space1 a then all_space t
      else
        match t with
        | EmptyString => false
        | String b t' =>
            if is_space2 a b then all_space t'
            else
              match t' with
              | EmptyString => false
              | String c t'' => if is_space3 a b c then all_space t'' else false
              end
        end
  end.

(** [s.rstrip()]: the string is cut where what is left is white space
    only. *)
Fixpoint rstrip (s : string) : string :=
  match s with
  | EmptyString => EmptyString
  | String c t => if all_space s then EmptyString else String c (rstrip t)
  end.

(** [s.strip()] *)
Definition strip (s : string) : string := rstrip (lstrip s).

(** [c in s] *)
Fixpoint contains (c : ascii) (s : string) : bool :=
  match s with
  | EmptyString => false
  | String c' t => Ascii.eqb c' c || contains c t
  end.

(** [s.split(c, 1)[0]] *)
Fixpoint split1_head (c : ascii) (s : string) : string :=
  match s with
  | EmptyString => EmptyString
  | String c' t => if Ascii.eqb c' c then EmptyString else String c' (split1_head c t)
  end.

(** [s.split(c)] *)
Fixpoint split (c : ascii) (s : string) : list string :=
  match s with
  | EmptyString => [EmptyString]
  | String c' t =>
      if Ascii.eqb c' c then EmptyString :: split c t
      else match split c t with
           | p :: ps => String c' p :: ps
           | [] => [String c' EmptyString]
           end
  end.

Definition _strip_inline_comment (line : string) : string :=
  if contains "#" line then split1_head "#" line else line.

(** ** Dicts and sets *)

Definition dict (V : Type) := list (string * V).

Section Dict.
Variable V : Type.

(** [d.get(k)] *)
Fixpoint dict_get (k : string) (d : dict V) : option V :=
  match d with
  | [] => None
  | (k', v) :: t => if String.eqb k' k then Some v else dict_get k t
  end.

(** [d.get(k, dflt)] *)
Definition dict_get_or (k : string) (dflt : V) (d : dict V) : V :=
  match dict_get k d with Some v => v | None => dflt end.

(** [k in d] *)
Definition dict_mem (k : string) (d : dict V) : bool :=
  match dict_get k d with Some _ => true | None => false end.

(** [d[k] = v]: a key that is present keeps its place, a new one goes
    last. *)
Fixpoint dict_set (k : string) (v : V) (d : dict V) : dict V :=
  match d with
  | [] => [(k, v)]
  | (k', v') :: t =>
      if String.eqb k' k then (k, v) :: t else (k', v') :: dict_set k v t
  end.

(** [d.keys()], [d.values()] *)
Definition dict_keys (d : dict V) : list string := map fst d.
Definition dict_values (d : dict V) : list V := map snd d.
End Dict.

(** [x in l] for a list or a set of strings *)
Definition str_mem (x : string) (l : list string) : bool :=
  existsb (String.eqb x) l.

(** A Python [set] of strings: a list without repetition.  Python leaves the
    iteration order of a set unspecified; here it is the order of first
    insertion. *)
Definition set_add (x : string) (l : list string) : list string :=
  if str_mem x l then l else l ++ [x].

(** ** Floats *)

Definition Qsum (l : list Q) : Q := fold_right Qplus 0%Q l.

(** The arithmetic mean of the specification. *)
Definition Qmean (l : list Q) : Q :=
  (Qsum l / inject_Z (Z.of_nat (List.length l)))%Q.

(** The range test of the ratings loader, [0.0 <= rating <= 5.0]. *)
Definition in_range (q : Q) : Prop := (0 <= q /\ q <= 5)%Q.

Definition in_range_b (q : Q) : bool := Qle_bool 0 q && Qle_bool q 5.

(** [float_of_string s] is [float(s)]: [None] stands for a [ValueError] and
    for the results that are not finite ([nan], [inf]), which the range test
    that follows [float] in the loader rejects as well.

    [fmean] is [statistics.fmean] on a non-empty list: the exactly rounded
    sum ([math.fsum]) divided by the length.  It does not depend on the
    order of the list; rounding is monotone and 0 and 5 are floats, so the
    mean of values of [0, 5] stays there; and on such values it is within
    1e-6 of the exact mean. *)
Class PyFloat : Type := {
  float_of_string : string -> option Q;
  fmean : list Q -> Q;
  fmean_perm : forall l l', Permutation l l' -> fmean l = fmean l';
  fmean_range : forall l, l <> [] -> Forall in_range l -> in_range (fmean l);
  fmean_accurate : forall l, l <> [] -> Forall in_range l ->
    (Qabs (fmean l - Qmean l) <= 1 # 1000000)%Q
}.

(** ** The store *)

Record Movie : Type := {
  genre : string;
  movie_id : string;
  name : string
}.

Record DataStore : Type := {
  movies_by_name : dict Movie;
  movies_by_genre : dict (list string);
  ratings_by_movie : dict (list Q);
  user_ratings : dict (dict Q)
}.

(** [DataStore.__init__] *)
Definition init : DataStore :=
  {| movies_by_name := []; movies_by_genre := [];
     ratings_by_movie := []; user_ratings := [] |}.

Definition with_movies_by_name (f : dict Movie -> dict Movie) (s : DataStore) :=
  {| movies_by_name := f (movies_by_name s); movies_by_genre := movies_by_genre s;
     ratings_by_movie := ratings_by_movie s; user_ratings := user_ratings s |}.

Definition with_movies_by_genre (f : dict (list string) -> dict (list string))
    (s : DataStore) :=
  {| movies_by_name := movies_by_name s; movies_by_genre := f (movies_by_genre s);
     ratings_by_movie := ratings_by_movie s; user_ratings := user_ratings s |}.

Definition with_ratings_by_movie (f : dict (list Q) -> dict (list Q)) (s : DataStore) :=
  {| movies_by_name := movies_by_name s; movies_by_genre := movies_by_genre s;
     ratings_by_movie := f (ratings_by_movie s); user_ratings := user_ratings s |}.

Definition with_user_ratings (f : dict (dict Q) -> dict (dict Q)) (s : DataStore) :=
  {| movies_by_name := movies_by_name s; movies_by_genre := movies_by_genre s;
     ratings_by_movie := ratings_by_movie s; user_ratings := f (user_ratings s) |}.

(** ** The state monad of the program *)

Definition St (A : Type) : Type := DataStore -> A * DataStore.

Definition ret {A} (a : A) : St A := fun s => (a, s).

Definition bind {A B} (m : St A) (k : A -> St B) : St B :=
  fun s => let (a, s') := m s in k a s'.

(** Reading the store, and changing it. *)
Definition gets {A} (f : DataStore -> A) : St A := fun s => (f s, s).
Definition modify (f : DataStore -> DataStore) : St unit := fun s => (tt, f s).

Definition eval {A} (m : St A) (s : DataStore) : A := fst (m s).
Definition exec {A} (m : St A) (s : DataStore) : DataStore := snd (m s).

Declare Scope st_scope.
Delimit Scope st_scope with st.
Notation "x <- m ;; k" := (bind m (fun x => k))
  (at level 61, m at next level, right associativity) : st_scope.
Notation "m ;; k" := (bind m (fun _ => k))
  (at level 61, right associativity) : st_scope.
Local Open Scope st_scope.

(** A [for] loop over [l] that carries the local variable [acc]. *)
Fixpoint for_fold {A B} (l : list A) (acc : B) (body : B -> A -> St B) : St B :=
  match l with
  | [] => ret acc
  | x :: t => acc' <- body acc x ;; for_fold t acc' body
  end.

(** A [for] loop without local variables. *)
Definition for_each {A} (l : list A) (body : A -> St unit) : St unit :=
  for_fold l tt (fun _ x => body x).

(** ** Sorting and slicing *)

(** [len(l)] *)
Definition len {A} (l : list A) : Z := Z.of_nat (List.length l).

(** [l[:n]]: a negative [n] counts from the end. *)
Definition slice_to {A} (n : Z) (l : list A) : list A :=
  if 0 <=? n then firstn (Z.to_nat n) l
  else firstn (List.length l - Z.to_nat (- n)) l.

(** [l[:n] if n is not None else l] *)
Definition limit {A} (n : option Z) (l : list A) : list A :=
  match n with Some k => slice_to k l | None => l end.

(** A result row [(key, score, weight)]. *)
Definition row : Type := string * Q * Z.

Definition row_key (t : row) : string := fst (fst t).
Definition row_score (t : row) : Q := snd (fst t).
Definition row_weight (t : row) : Z := snd t.

(** [lambda t: (-t[1], -t[2], t[0])] *)
Definition sort_key (t : row) : Q * Z * string :=
  let '(k, score, weight) := t in ((- score)%Q, - weight, k).

(** [a < b] on the tuples that are the sort keys: the first components that
    are not [==] decide. *)
Definition tuple_lt (a b : Q * Z * string) : bool :=
  let '(x1, y1, z1) := a in
  let '(x2, y2, z2) := b in
  if negb (Qeq_bool x1 x2) then negb (Qle_bool x2 x1)
  else if negb (y1 =? y2) then y1 <? y2
  else String.ltb z1 z2.

(** [list.sort(key=...)] is a stable sort that compares keys with [<]: an
    insertion sort that puts an element before the first one whose key is
    not smaller. *)
Fixpoint insert (x : row) (l : list row) : list row :=
  match l with
  | [] => [x]
  | y :: t =>
      if tuple_lt (sort_key y) (sort_key x) then y :: insert x t else x :: l
  end.

Definition sort_rows (l : list row) : list row := fold_right insert [] l.

(** ** The program *)

Inductive op : Type :=
| LoadMovies (lines : list string)
| LoadRatings (lines : list string)
| Clear.

Section Program.
Context {FL : PyFloat}.

(** *** Loader *)

(** [DataStore.clear] *)
Definition clear : St unit := modify (fun _ => init).

(** The body of the loop of [load_movies_file] up to the construction of
    the [Movie]; [None] is a [continue]. *)
Definition parse_movie_line (raw : string) : option Movie :=
  let line := strip (_strip_inline_comment raw) in
  if is_empty line then None
  else
    let parts := split "|" line in
    if negb (len parts =? 3) then None
    else
      match map strip parts with
      | [genre; movie_id; movie_name] =>
          if is_empty genre || is_empty movie_id || is_empty movie_name
          then None
          else Some {| genre := genre; movie_id := movie_id; name := movie_name |}
      | _ => None
      end.

Definition load_movies_file (lines : list string) : St Z :=
  modify (with_movies_by_name (fun _ => [])) ;;
  modify (with_movies_by_genre (fun _ => [])) ;;
  for_fold lines 0 (fun count raw =>
    match parse_movie_line raw with
    | None => ret count
    | Some m =>
        modify (with_movies_by_name (dict_set (name m) m)) ;;
        modify (with_movies_by_genre (fun d =>
          dict_set (genre m) (set_add (name m) (dict_get_or (genre m) [] d)) d)) ;;
        ret (count + 1)
    end).

(** The body of the first loop of [load_ratings_file] up to the range
    test; [None] is a [continue]. *)
Definition parse_rating_line (raw : string) : option (string * Q * string) :=
  let line := strip (_strip_inline_comment raw) in
  if is_empty line then None
  else
    let parts := split "|" line in
    if negb (len parts =? 3) then None
    else
      match map strip parts with
      | [movie_name; rating_str; user_id] =>
          match float_of_string rating_str with
          | None => None
          | Some rating =>
              if negb (in_range_b rating) then None
              else Some (movie_name, rating, user_id)
          end
      | _ => None
      end.

Definition load_ratings_file (lines : list string) : St Z :=
  modify (with_ratings_by_movie (fun _ => [])) ;;
  modify (with_user_ratings (fun _ => [])) ;;
  for_each lines (fun raw =>
    match parse_rating_line raw with
    | None => ret tt
    | Some (movie_name, rating, user_id) =>
        modify (with_user_ratings (fun d =>
          dict_set user_id (dict_set movie_name rating (dict_get_or user_id [] d)) d))
    end) ;;
  modify (with_ratings_by_movie (fun _ => [])) ;;
  items <- gets user_ratings ;;
  for_each items (fun '(user_id, per_user) =>
    for_each per_user (fun '(movie_name, rating) =>
      known <- gets (fun s => dict_mem movie_name (movies_by_name s)) ;;
      if known
      then modify (with_ratings_by_movie (fun d =>
             dict_set movie_name (dict_get_or movie_name [] d ++ [rating]) d))
      else ret tt)) ;;
  values <- gets (fun s => dict_values (user_ratings s)) ;;
  ret (fold_right Z.add 0 (map (@len _) values)).

(** *** Aggregator and ranker *)

Definition movie_average_rating (movie_name : string) : St (option Q) :=
  ratings <- gets (fun s => dict_get_or movie_name [] (ratings_by_movie s)) ;;
  match ratings with
  | [] => ret None
  | _ => ret (Some (fmean ratings))
  end.

Definition rank_movies_by_average (movie_names : option (list string))
    (n : option Z) : St (list row) :=
  candidates <-
    match movie_names with
    | Some l => ret l
    | None => gets (fun s => dict_keys (ratings_by_movie s))
    end ;;
  items <- for_fold candidates [] (fun items name =>
    ratings <- gets (fun s => dict_get_or name [] (ratings_by_movie s)) ;;
    match ratings with
    | [] => ret items
    | _ => ret (items ++ [(name, fmean ratings, len ratings)])
    end) ;;
  ret (limit n (sort_rows items)).

Definition rank_movies_in_genre (genre : string) (n : option Z) : St (list row) :=
  genre_movies <- gets (fun s => dict_get_or genre [] (movies_by_genre s)) ;;
  match genre_movies with
  | [] => ret []
  | _ => rank_movies_by_average (Some genre_movies) n
  end.

Definition rank_genres_by_popularity (n : option Z) : St (list row) :=
  items <- gets movies_by_genre ;;
  results <- for_fold items [] (fun results '(genre, movie_names) =>
    avgs <- for_fold movie_names [] (fun avgs name =>
      avg <- movie_average_rating name ;;
      match avg with
      | Some a => ret (avgs ++ [a])
      | None => ret avgs
      end) ;;
    match avgs with
    | [] => ret results
    | _ => ret (results ++ [(genre, fmean avgs, len avgs)])
    end) ;;
  ret (limit n (sort_rows results)).

(** *** Recommender *)

(** [rows[0]] is taken of a list that is not empty, as [by_genre] is not. *)
Definition user_top_genre (user_id : string) : St (option row) :=
  per_user <- gets (fun s => dict_get user_id (user_ratings s)) ;;
  match per_user with
  | None | Some [] => ret None
  | Some per_user =>
      by_genre <- for_fold per_user [] (fun by_genre '(name, rating) =>
        movie <- gets (fun s => dict_get name (movies_by_name s)) ;;
        match movie with
        | None => ret by_genre
        | Some movie =>
            ret (dict_set (genre movie)
                   (dict_get_or (genre movie) [] by_genre ++ [rating]) by_genre)
        end) ;;
      match by_genre with
      | [] => ret None
      | _ =>
          let rows :=
            map (fun '(genre, ratings) => (genre, fmean ratings, len ratings))
                by_genre in
          ret (hd_error (sort_rows rows))
      end
  end.

(** The loop of [recommend_for_user], with its [continue] and [break]. *)
Fixpoint recommend_loop (rated : list string) (genre : string) (k : Z)
    (ranked : list row) (recs : list (row * string)) : list (row * string) :=
  match ranked with
  | [] => recs
  | (name, avg, cnt) :: rest =>
      if str_mem name rated then recommend_loop rated genre k rest recs
      else
        let recs' := recs ++ [((name, avg, cnt), genre)] in
        if len recs' >=? k then recs'
        else recommend_loop rated genre k rest recs'
  end.

Definition recommend_for_user (user_id : string) (k : Z)
    : St (list (row * string)) :=
  top <- user_top_genre user_id ;;
  match top with
  | None => ret []
  | Some (genre, _, _) =>
      rated <- gets (fun s => dict_keys (dict_get_or user_id [] (user_ratings s))) ;;
      ranked <- rank_movies_in_genre genre None ;;
      ret (recommend_loop rated genre k ranked [])
  end.

(** *** Sessions *)

(** One operation of the menu that changes the store. *)
Definition run_op (o : op) : St unit :=
  match o with
  | LoadMovies lines => _ <- load_movies_file lines ;; ret tt
  | LoadRatings lines => _ <- load_ratings_file lines ;; ret tt
  | Clear => clear
  end.

Definition run_ops (ops : list op) : St unit := for_each ops run_op.

End Program.

(** ** An instance of the float library

    The exact rational mean, and a reader of plain decimal literals
    ([5], [4.5], [-1], [.5], [5.]).  On a literal whose value is a float,
    which all those of the examples below are, it is what [float] returns;
    the mean of the examples are floats too. *)

Definition digit_val (c : ascii) : option Z :=
  let n := N_of_ascii c in
  if ((48 <=? n) && (n <=? 57))%N then Some (Z.of_N n - 48) else None.

Fixpoint digits_val (s : string) (acc : Z) : option Z :=
  match s with
  | EmptyString => Some acc
  | String c t =>
      match digit_val c with
      | Some d => digits_val t (10 * acc + d)
      | None => None
      end
  end.

Definition decimal_of_string (s : string) : option Q :=
  let (neg, body) :=
    match s with
    | String "-" t => (true, t)
    | String "+" t => (false, t)
    | _ => (false, s)
    end in
  let signed (q : Q) := Qred (if neg then - q else q)%Q in
  match split "." body with
  | [i] =>
      if is_empty i then None
      else option_map (fun a => signed (inject_Z a)) (digits_val i 0)
  | [i; f] =>
      if is_empty i && is_empty f then None
      else
        match digits_val i 0, digits_val f 0 with
        | Some a, Some b =>
            Some (signed (inject_Z a
                          + inject_Z b / inject_Z (10 ^ Z.of_nat (String.length f)))%Q)
        | _, _ => None
        end
  | _ => None
  end.

Definition exact_fmean (l : list Q) : Q := Qred (Qmean l).

Lemma Qsum_perm (l l' : list Q) : Permutation l l' -> (Qsum l == Qsum l')%Q.
Proof.
  induction 1 as [| x l l' _ IH | x y l | l l' l'' _ IH1 _ IH2]; simpl.
  - reflexivity.
  - now rewrite IH.
  - ring.
  - now rewrite IH1.
Qed.

Lemma Qsum_range (l : list Q) :
  Forall in_range l -> (0 <= Qsum l /\ Qsum l <= 5 * inject_Z (len l))%Q.
Proof.
  unfold len. induction 1 as [| x l [Hx0 Hx5] _ [IH0 IH5]].
  - simpl. split; [apply Qle_refl | discriminate].
  - cbn [Qsum fold_right List.length]. fold (Qsum l).
    rewrite Nat2Z.inj_succ, <- Z.add_1_r, inject_Z_plus. split.
    + replace 0%Q with (0 + 0)%Q by reflexivity. now apply Qplus_le_compat.
    + setoid_replace (5 * (inject_Z (Z.of_nat (List.length l)) + inject_Z 1))%Q
        with (5 + 5 * inject_Z (Z.of_nat (List.length l)))%Q by ring.
      now apply Qplus_le_compat.
Qed.

Lemma len_pos {A} (l : list A) : l <> [] -> (0 < inject_Z (len l))%Q.
Proof.
  destruct l as [| x l]; [congruence | intros _].
  unfold len. rewrite <- (Zlt_Qlt 0). simpl. lia.
Qed.

Lemma Qmean_range (l : list Q) : l <> [] -> Forall in_range l -> in_range (Qmean l).
Proof.
  intros Hne Hl. destruct (Qsum_range Hl) as [H0 H5].
  pose proof (len_pos Hne) as Hpos. unfold in_range, Qmean. fold (len l). split.
  - apply Qle_shift_div_l; [exact Hpos |]. now rewrite Qmult_0_l.
  - apply Qle_shift_div_r; [exact Hpos | exact H5].
Qed.

Lemma exact_fmean_perm (l l' : list Q) :
  Permutation l l' -> exact_fmean l = exact_fmean l'.
Proof.
  intros Hp. apply Qred_complete. unfold Qmean.
  rewrite (Qsum_perm Hp), (Permutation_length Hp). reflexivity.
Qed.

Lemma exact_fmean_range (l : list Q) :
  l <> [] -> Forall in_range l -> in_range (exact_fmean l).
Proof.
  intros Hne Hl. destruct (Qmean_range Hne Hl) as [H0 H5].
  unfold in_range, exact_fmean. now rewrite Qred_correct.
Qed.

Lemma exact_fmean_accurate (l : list Q) :
  l <> [] -> Forall in_range l ->
  (Qabs (exact_fmean l - Qmean l) <= 1 # 1000000)%Q.
Proof.
  intros _ _. unfold exact_fmean.
  setoid_replace (Qred (Qmean l) - Qmean l)%Q with 0%Q
    by (rewrite Qred_correct; ring).
  discriminate.
Qed.

#[export] Instance ExactFloat : PyFloat := {|
  float_of_string := decimal_of_string;
  fmean := exact_fmean;
  fmean_perm := exact_fmean_perm;
  fmean_range := exact_fmean_range;
  fmean_accurate := exact_fmean_accurate
|}.

(** ** Reasoning about the monad *)

(** A computation that leaves the store as it found it. *)
Definition read_only {A} (m : St A) : Prop := forall s, exec m s = s.

Lemma read_only_ret {A} (a : A) : read_only (ret a).
Proof. intros s. reflexivity. Qed.

Lemma read_only_gets {A} (f : DataStore -> A) : read_only (gets f).
Proof. intros s. reflexivity. Qed.

Lemma read_only_bind {A B} (m : St A) (k : A -> St B) :
  read_only m -> (forall a, read_only (k a)) -> read_only (bind m k).
Proof.
  intros Hm Hk s. specialize (Hm s). unfold exec, bind in *.
  destruct (m s) as [a s']. simpl in Hm. subst s'. apply Hk.
Qed.

Lemma read_only_for_fold {A B} (body : B -> A -> St B) (l : list A) :
  (forall acc x, read_only (body acc x)) ->
  forall acc, read_only (for_fold l acc body).
Proof.
  intros Hb. induction l as [| x l IH]; intros acc; simpl.
  - apply read_only_ret.
  - apply read_only_bind; auto.
Qed.

Create HintDb read_only.
#[export] Hint Resolve read_only_ret read_only_gets read_only_bind
  read_only_for_fold : read_only.

(** Destructs the [match]es and the patterns of a computation until the
    hints of [read_only] apply. *)
Ltac read_only_tac :=
  repeat first
    [ progress auto with read_only
    | apply read_only_bind
    | apply read_only_for_fold
    | progress intros
    | match goal with
      | |- read_only (match ?x with _ => _ end) => destruct x
      | |- read_only (let (_, _) := ?x in _) => destruct x
      end ].

Lemma eval_bind {A B} (m : St A) (k : A -> St B) (s : DataStore) :
  read_only m -> eval (bind m k) s = eval (k (eval m s)) s.
Proof.
  intros Hm. specialize (Hm s). unfold exec, eval, bind in *.
  destruct (m s) as [a s']. simpl in *. now subst s'.
Qed.

Lemma eval_gets {A} (f : DataStore -> A) (s : DataStore) : eval (gets f) s = f s.
Proof. reflexivity. Qed.

Lemma eval_ret {A} (a : A) (s : DataStore) : eval (ret a) s = a.
Proof. reflexivity. Qed.

Lemma eval_for_fold {A B} (body : B -> A -> St B) (l : list A) (s : DataStore) :
  (forall acc x, read_only (body acc x)) ->
  forall acc,
    eval (for_fold l acc body) s = fold_left (fun acc x => eval (body acc x) s) l acc.
Proof.
  intros Hb. induction l as [| x l IH]; intros acc; simpl.
  - reflexivity.
  - rewrite eval_bind by apply Hb. apply IH.
Qed.

Lemma run_eval_exec {A} (m : St A) (s : DataStore) : m s = (eval m s, exec m s).
Proof. unfold eval, exec. now destruct (m s). Qed.

Section Queries.
Context {FL : PyFloat}.

Lemma movie_average_rating_ro movie_name : read_only (movie_average_rating movie_name).
Proof. unfold movie_average_rating. read_only_tac. Qed.

Lemma rank_movies_by_average_ro movie_names n :
  read_only (rank_movies_by_average movie_names n).
Proof. unfold rank_movies_by_average. read_only_tac. Qed.

Lemma rank_movies_in_genre_ro g n : read_only (rank_movies_in_genre g n).
Proof.
  unfold rank_movies_in_genre. read_only_tac; apply rank_movies_by_average_ro.
Qed.

Lemma rank_genres_by_popularity_ro n : read_only (rank_genres_by_popularity n).
Proof.
  unfold rank_genres_by_popularity.
  read_only_tac; apply movie_average_rating_ro.
Qed.

Lemma user_top_genre_ro user_id : read_only (user_top_genre user_id).
Proof. unfold user_top_genre. read_only_tac. Qed.

Lemma recommend_for_user_ro user_id k : read_only (recommend_for_user user_id k).
Proof.
  unfold recommend_for_user.
  read_only_tac; first [apply user_top_genre_ro | apply rank_movies_in_genre_ro].
Qed.

(** C9: topMovies, topMoviesInGenre, topGenres, userTopGenre and recommend
    leave the store, that is its four indexes, as they found it, whatever
    the store and the arguments. *)
Theorem queries_leave_store_unchanged (s : DataStore) (g user_id : string)
    (n : option Z) (k : Z) :
  exec (rank_movies_by_average None n) s = s /\
  exec (rank_movies_in_genre g n) s = s /\
  exec (rank_genres_by_popularity n) s = s /\
  exec (user_top_genre user_id) s = s /\
  exec (recommend_for_user user_id k) s = s.
Proof.
  repeat split.
  - apply rank_movies_by_average_ro.
  - apply rank_movies_in_genre_ro.
  - apply rank_genres_by_popularity_ro.
  - apply user_top_genre_ro.
  - apply recommend_for_user_ro.
Qed.

End Queries.


(** ** Lists, dicts and sets *)

(** The values [f x] that are not [None], in the order of [l]. *)
Definition collect {A B} (f : A -> option B) (l : list A) : list B :=
  flat_map (fun x => match f x with Some y => [y] | None => [] end) l.

Lemma collect_app {A B} (f : A -> option B) (l l' : list A) :
  collect f (l ++ l') = collect f l ++ collect f l'.
Proof. apply flat_map_app. Qed.

Lemma in_collect {A B} (f : A -> option B) (l : list A) (y : B) :
  In y (collect f l) <-> exists x, In x l /\ f x = Some y.
Proof.
  unfold collect. rewrite in_flat_map. split; intros [x [Hx Hy]]; exists x; split; auto.
  - destruct (f x); simpl in Hy; [| tauto]. destruct Hy; [congruence | tauto].
  - rewrite Hy. now left.
Qed.

Lemma collect_perm {A B} (f : A -> option B) (l l' : list A) :
  Permutation l l' -> Permutation (collect f l) (collect f l').
Proof.
  induction 1 as [| x l l' _ IH | x y l | l l' l'' _ IH1 _ IH2]; simpl.
  - constructor.
  - now apply Permutation_app_head.
  - rewrite !app_assoc. apply Permutation_app_tail, Permutation_app_comm.
  - now transitivity (collect f l').
Qed.

Lemma collect_ext_in {A B} (f g : A -> option B) (l : list A) :
  (forall x, In x l -> f x = g x) -> collect f l = collect g l.
Proof.
  induction l as [| x l IH]; intros H; simpl; [reflexivity |].
  rewrite (H x) by now left. f_equal. apply IH. intros y Hy. apply H. now right.
Qed.

Lemma fold_left_ext {A B} (f g : B -> A -> B) (l : list A) (acc : B) :
  (forall b a, f b a = g b a) -> fold_left f l acc = fold_left g l acc.
Proof.
  intros H. revert acc. induction l as [| x l IH]; intros acc; simpl.
  - reflexivity.
  - now rewrite H, IH.
Qed.

(** A loop that appends to its accumulator the values that are not [None]. *)
Lemma fold_left_collect {A B} (f : A -> option B) (l : list A) (acc : list B) :
  fold_left (fun acc x => match f x with Some y => acc ++ [y] | None => acc end) l acc
  = acc ++ collect f l.
Proof.
  revert acc. induction l as [| x l IH]; intros acc; simpl.
  - now rewrite app_nil_r.
  - rewrite IH. destruct (f x); simpl; [now rewrite <- app_assoc | reflexivity].
Qed.

Lemma str_mem_In (x : string) (l : list string) : str_mem x l = true <-> In x l.
Proof.
  unfold str_mem. rewrite existsb_exists. split.
  - intros [y [Hy E]]. apply String.eqb_eq in E. now subst.
  - intros H. exists x. split; [exact H | apply String.eqb_refl].
Qed.

Lemma str_mem_false (x : string) (l : list string) : str_mem x l = false <-> ~ In x l.
Proof.
  rewrite <- str_mem_In. destruct (str_mem x l); split; congruence.
Qed.

Lemma set_add_In (x y : string) (l : list string) :
  In y (set_add x l) <-> y = x \/ In y l.
Proof.
  unfold set_add. destruct (str_mem x l) eqn:E.
  - apply str_mem_In in E. split; [tauto | intros [-> | H]; assumption].
  - rewrite in_app_iff. simpl. intuition.
Qed.

Lemma set_add_NoDup (x : string) (l : list string) : NoDup l -> NoDup (set_add x l).
Proof.
  intros H. unfold set_add. destruct (str_mem x l) eqn:E; [exact H |].
  apply str_mem_false in E. apply NoDup_app; auto.
  - constructor; [tauto | constructor].
  - intros y Hy [-> | []]. contradiction.
Qed.

Section DictFacts.
Variable V : Type.
Implicit Types (d : dict V) (k : string) (v : V).

Lemma dict_get_set_same k v d : dict_get k (dict_set k v d) = Some v.
Proof.
  induction d as [| [k' v'] d IH]; simpl.
  - now rewrite String.eqb_refl.
  - destruct (String.eqb_spec k' k); simpl.
    + now rewrite String.eqb_refl.
    + destruct (String.eqb_spec k' k); [contradiction | exact IH].
Qed.

Lemma dict_get_set_other k k' v d :
  k <> k' -> dict_get k' (dict_set k v d) = dict_get k' d.
Proof.
  intros Hne. induction d as [| [k0 v0] d IH]; simpl.
  - destruct (String.eqb_spec k k'); [contradiction | reflexivity].
  - destruct (String.eqb_spec k0 k); simpl.
    + subst k0. destruct (String.eqb_spec k k'); [contradiction | reflexivity].
    + now rewrite IH.
Qed.

Lemma dict_get_set k k' v d :
  dict_get k' (dict_set k v d) = if String.eqb k k' then Some v else dict_get k' d.
Proof.
  destruct (String.eqb_spec k k').
  - subst. apply dict_get_set_same.
  - now apply dict_get_set_other.
Qed.

Lemma dict_get_In k v d : dict_get k d = Some v -> In (k, v) d.
Proof.
  induction d as [| [k' v'] d IH]; simpl; [discriminate |].
  destruct (String.eqb_spec k' k).
  - intros [= ->]. subst. now left.
  - intros H. right. now apply IH.
Qed.

Lemma dict_get_None k d : dict_get k d = None <-> ~ In k (dict_keys d).
Proof.
  induction d as [| [k' v'] d IH]; simpl; [tauto |].
  destruct (String.eqb_spec k' k).
  - split; [discriminate | intros H; exfalso; apply H; now left].
  - rewrite IH. tauto.
Qed.

Lemma dict_mem_In k d : dict_mem k d = true <-> In k (dict_keys d).
Proof.
  unfold dict_mem. destruct (dict_get k d) eqn:E.
  - split; [intros _ | reflexivity].
    apply dict_get_In in E. apply (in_map fst) in E. exact E.
  - apply dict_get_None in E. split; [discriminate | contradiction].
Qed.

Lemma In_dict_get k v d : NoDup (dict_keys d) -> In (k, v) d -> dict_get k d = Some v.
Proof.
  induction d as [| [k' v'] d IH]; simpl; [tauto |].
  intros Hnd [[= -> ->] | Hin].
  - now rewrite String.eqb_refl.
  - inversion Hnd as [| ? ? Hk' Hd]; subst.
    destruct (String.eqb_spec k' k); [| now apply IH].
    subst k'. exfalso. apply Hk'. exact (in_map fst _ _ Hin).
Qed.

Lemma dict_keys_set k v d :
  dict_keys (dict_set k v d) = if dict_mem k d then dict_keys d else dict_keys d ++ [k].
Proof.
  unfold dict_mem. induction d as [| [k' v'] d IH]; simpl; [reflexivity |].
  destruct (String.eqb_spec k' k); simpl.
  - now subst.
  - rewrite IH. now destruct (dict_get k d).
Qed.

Lemma In_dict_keys_set k k' v d :
  In k' (dict_keys (dict_set k v d)) <-> k' = k \/ In k' (dict_keys d).
Proof.
  rewrite dict_keys_set. destruct (dict_mem k d) eqn:E.
  - apply dict_mem_In in E. split; [tauto | intros [-> | H]; assumption].
  - rewrite in_app_iff. simpl. intuition.
Qed.

Lemma dict_set_NoDup k v d : NoDup (dict_keys d) -> NoDup (dict_keys (dict_set k v d)).
Proof.
  intros H. rewrite dict_keys_set. destruct (dict_mem k d) eqn:E; [exact H |].
  assert (Hk : ~ In k (dict_keys d)).
  { rewrite <- dict_mem_In. congruence. }
  apply NoDup_app; auto.
  - constructor; [tauto | constructor].
  - intros y Hy [-> | []]. contradiction.
Qed.

(** Every value of the dict satisfies [P]. *)
Definition dict_all (P : V -> Prop) d : Prop := Forall (fun kv => P (snd kv)) d.

Lemma dict_all_set (P : V -> Prop) k v d :
  P v -> dict_all P d -> dict_all P (dict_set k v d).
Proof.
  intros Hv. unfold dict_all. induction 1 as [| [k' v'] d Hx Hd IH]; simpl.
  - now repeat constructor.
  - destruct (String.eqb k' k); constructor; auto.
Qed.

Lemma dict_all_get (P : V -> Prop) k v d : dict_all P d -> dict_get k d = Some v -> P v.
Proof.
  intros Hd Hg. apply dict_get_In in Hg.
  unfold dict_all in Hd. rewrite Forall_forall in Hd. exact (Hd _ Hg).
Qed.

Lemma dict_all_get_or (P : V -> Prop) k dflt d :
  P dflt -> dict_all P d -> P (dict_get_or k dflt d).
Proof.
  intros Hdf Hd. unfold dict_get_or. destruct (dict_get k d) eqn:E; [| exact Hdf].
  exact (dict_all_get _ Hd E).
Qed.

End DictFacts.

(** ** What the loaders compute *)

Section Loaders.
Context {FL : PyFloat}.

(** The rows of a file that the loader accepts, in the order of the file. *)
Definition accepted_movies (lines : list string) : list Movie :=
  collect parse_movie_line lines.

Definition accepted_ratings (lines : list string) : list (string * Q * string) :=
  collect parse_rating_line lines.

(** The two updates of [load_movies_file] for an accepted row. *)
Definition index_by_name (d : dict Movie) (m : Movie) : dict Movie :=
  dict_set (name m) m d.

Definition index_by_genre (d : dict (list string)) (m : Movie) : dict (list string) :=
  dict_set (genre m) (set_add (name m) (dict_get_or (genre m) [] d)) d.

(** The update of [load_ratings_file] for an accepted row. *)
Definition record_rating (d : dict (dict Q)) (r : string * Q * string) : dict (dict Q) :=
  let '(movie_name, rating, user_id) := r in
  dict_set user_id (dict_set movie_name rating (dict_get_or user_id [] d)) d.

(** The second loop of [load_ratings_file]. *)
Definition index_rating (known : dict Movie) (d : dict (list Q)) (e : string * Q)
    : dict (list Q) :=
  let '(movie_name, rating) := e in
  if dict_mem movie_name known
  then dict_set movie_name (dict_get_or movie_name [] d ++ [rating]) d
  else d.

Definition index_user (known : dict Movie) (d : dict (list Q)) (e : string * dict Q)
    : dict (list Q) :=
  fold_left (index_rating known) (snd e) d.

Definition build_ratings_by_movie (known : dict Movie) (ur : dict (dict Q))
    : dict (list Q) :=
  fold_left (index_user known) ur [].

Definition count_pairs (ur : dict (dict Q)) : Z :=
  fold_right Z.add 0 (map (@len _) (dict_values ur)).

Definition loaded_user_ratings (lines : list string) : dict (dict Q) :=
  fold_left record_rating (accepted_ratings lines) [].

Lemma movies_loop_run (lines : list string) (count : Z) (s : DataStore) :
  for_fold lines count (fun count raw =>
      match parse_movie_line raw with
      | None => ret count
      | Some m =>
          modify (with_movies_by_name (dict_set (name m) m)) ;;
          modify (with_movies_by_genre (fun d =>
            dict_set (genre m) (set_add (name m) (dict_get_or (genre m) [] d)) d)) ;;
          ret (count + 1)
      end) s
  = (count + len (accepted_movies lines),
     {| movies_by_name := fold_left index_by_name (accepted_movies lines) (movies_by_name s);
        movies_by_genre := fold_left index_by_genre (accepted_movies lines) (movies_by_genre s);
        ratings_by_movie := ratings_by_movie s;
        user_ratings := user_ratings s |}).
Proof.
  revert count s. unfold accepted_movies.
  induction lines as [| raw lines IH]; intros count s.
  - destruct s. simpl. now rewrite Z.add_0_r.
  - cbn [for_fold collect flat_map]. unfold bind at 1.
    destruct (parse_movie_line raw) as [m |].
    + cbn -[for_fold collect len]. rewrite IH. cbn -[collect len].
      fold (collect parse_movie_line lines).
      f_equal. unfold len. cbn [List.length app]. lia.
    + cbn -[for_fold collect len]. now rewrite IH.
Qed.

Lemma load_movies_file_run (lines : list string) (s : DataStore) :
  load_movies_file lines s
  = (len (accepted_movies lines),
     {| movies_by_name := fold_left index_by_name (accepted_movies lines) [];
        movies_by_genre := fold_left index_by_genre (accepted_movies lines) [];
        ratings_by_movie := ratings_by_movie s;
        user_ratings := user_ratings s |}).
Proof.
  unfold load_movies_file. cbn -[for_fold]. now rewrite movies_loop_run.
Qed.

Lemma ratings_loop_run (lines : list string) (s : DataStore) :
  for_each lines (fun raw =>
      match parse_rating_line raw with
      | None => ret tt
      | Some (movie_name, rating, user_id) =>
          modify (with_user_ratings (fun d =>
            dict_set user_id (dict_set movie_name rating (dict_get_or user_id [] d)) d))
      end) s
  = (tt, with_user_ratings (fold_left record_rating (accepted_ratings lines)) s).
Proof.
  revert s. unfold accepted_ratings, for_each.
  induction lines as [| raw lines IH]; intros s.
  - now destruct s.
  - cbn [for_fold collect flat_map]. unfold bind at 1.
    destruct (parse_rating_line raw) as [[[movie_name rating] user_id] |].
    + cbn -[for_fold collect]. now rewrite IH.
    + cbn -[for_fold collect]. now rewrite IH.
Qed.

Lemma index_loop_run (ur : dict (dict Q)) (s : DataStore) :
  for_each ur (fun '(user_id, per_user) =>
      for_each per_user (fun '(movie_name, rating) =>
        known <- gets (fun s => dict_mem movie_name (movies_by_name s)) ;;
        if known
        then modify (with_ratings_by_movie (fun d =>
               dict_set movie_name (dict_get_or movie_name [] d ++ [rating]) d))
        else ret tt)) s
  = (tt, with_ratings_by_movie
           (fun d => fold_left (index_user (movies_by_name s)) ur d) s).
Proof.
  assert (inner : forall (per_user : dict Q) s,
    for_each per_user (fun '(movie_name, rating) =>
        known <- gets (fun s => dict_mem movie_name (movies_by_name s)) ;;
        if known
        then modify (with_ratings_by_movie (fun d =>
               dict_set movie_name (dict_get_or movie_name [] d ++ [rating]) d))
        else ret tt) s
    = (tt, with_ratings_by_movie
             (fun d => fold_left (index_rating (movies_by_name s)) per_user d) s)).
  { unfold for_each. induction per_user as [| [movie_name rating] per_user IH]; intros s0.
    - now destruct s0.
    - cbn [for_fold]. unfold bind at 1. cbn -[for_fold dict_mem].
      destruct (dict_mem movie_name (movies_by_name s0)) eqn:E;
        cbn -[for_fold dict_mem]; rewrite IH; reflexivity. }
  revert s. unfold for_each in *.
  induction ur as [| [user_id per_user] ur IH]; intros s.
  - now destruct s.
  - cbn [for_fold]. unfold bind at 1. rewrite inner. now rewrite IH.
Qed.

Lemma load_ratings_file_run (lines : list string) (s : DataStore) :
  load_ratings_file lines s
  = (count_pairs (loaded_user_ratings lines),
     {| movies_by_name := movies_by_name s;
        movies_by_genre := movies_by_genre s;
        ratings_by_movie :=
          build_ratings_by_movie (movies_by_name s) (loaded_user_ratings lines);
        user_ratings := loaded_user_ratings lines |}).
Proof.
  unfold load_ratings_file. unfold bind at 1 2. cbn -[for_each bind].
  unfold bind at 1. rewrite ratings_loop_run.
  unfold bind at 1. cbn -[for_each bind].
  unfold bind at 1. cbn -[for_each bind].
  unfold bind at 1. rewrite index_loop_run. reflexivity.
Qed.

End Loaders.

(** ** What the queries return *)

Section QueryResults.
Context {FL : PyFloat}.

(** The mean of a movie, when it has ratings. *)
Definition average_of (s : DataStore) (movie_name : string) : option Q :=
  match dict_get_or movie_name [] (ratings_by_movie s) with
  | [] => None
  | ratings => Some (fmean ratings)
  end.

(** The row of a movie in a ranking, when it has ratings. *)
Definition movie_row (s : DataStore) (movie_name : string) : option row :=
  match dict_get_or movie_name [] (ratings_by_movie s) with
  | [] => None
  | ratings => Some (movie_name, fmean ratings, len ratings)
  end.

(** The row of a genre in the ranking of the genres, when it has a rated
    movie. *)
Definition genre_row (s : DataStore) (e : string * list string) : option row :=
  match collect (average_of s) (snd e) with
  | [] => None
  | avgs => Some (fst e, fmean avgs, len avgs)
  end.

(** The ratings of a user grouped by the genre of the movie. *)
Definition group_rating (known : dict Movie) (by_genre : dict (list Q))
    (e : string * Q) : dict (list Q) :=
  match dict_get (fst e) known with
  | None => by_genre
  | Some movie =>
      dict_set (genre movie) (dict_get_or (genre movie) [] by_genre ++ [snd e]) by_genre
  end.

Definition user_genre_row (e : string * list Q) : row :=
  (fst e, fmean (snd e), len (snd e)).

Lemma movie_average_rating_eval (s : DataStore) (movie_name : string) :
  eval (movie_average_rating movie_name) s = average_of s movie_name.
Proof.
  unfold movie_average_rating, average_of, eval, bind, gets. simpl.
  now destruct (dict_get_or movie_name [] (ratings_by_movie s)).
Qed.

Lemma movie_rows_eval (s : DataStore) (candidates : list string) :
  eval (for_fold candidates [] (fun items name =>
      ratings <- gets (fun s => dict_get_or name [] (ratings_by_movie s)) ;;
      match ratings with
      | [] => ret items
      | _ => ret (items ++ [(name, fmean ratings, len ratings)])
      end)) s
  = collect (movie_row s) candidates.
Proof.
  rewrite eval_for_fold by (intros; read_only_tac).
  rewrite <- (app_nil_l (collect _ _)), <- fold_left_collect.
  apply fold_left_ext. intros items x. unfold movie_row, eval, bind, gets. simpl.
  now destruct (dict_get_or x [] (ratings_by_movie s)).
Qed.

Lemma rank_movies_by_average_eval (s : DataStore) (movie_names : option (list string))
    (n : option Z) :
  eval (rank_movies_by_average movie_names n) s
  = limit n (sort_rows (collect (movie_row s)
      match movie_names with
      | Some l => l
      | None => dict_keys (ratings_by_movie s)
      end)).
Proof.
  unfold rank_movies_by_average.
  rewrite eval_bind by (destruct movie_names; read_only_tac).
  rewrite eval_bind by read_only_tac.
  rewrite movie_rows_eval. now destruct movie_names.
Qed.

Lemma limit_nil {A} (n : option Z) : limit n (@nil A) = [].
Proof.
  destruct n as [k |]; [| reflexivity]. unfold limit, slice_to.
  destruct (0 <=? k); apply firstn_nil.
Qed.

Lemma rank_movies_in_genre_eval (s : DataStore) (g : string) (n : option Z) :
  eval (rank_movies_in_genre g n) s
  = limit n (sort_rows (collect (movie_row s) (dict_get_or g [] (movies_by_genre s)))).
Proof.
  unfold rank_movies_in_genre. rewrite eval_bind by read_only_tac.
  rewrite eval_gets.
  destruct (dict_get_or g [] (movies_by_genre s)) as [| x l] eqn:E.
  - simpl. now rewrite limit_nil.
  - now rewrite rank_movies_by_average_eval.
Qed.

Lemma rank_genres_by_popularity_eval (s : DataStore) (n : option Z) :
  eval (rank_genres_by_popularity n) s
  = limit n (sort_rows (collect (genre_row s) (movies_by_genre s))).
Proof.
  unfold rank_genres_by_popularity.
  rewrite eval_bind by read_only_tac.
  rewrite eval_bind by (read_only_tac; apply movie_average_rating_ro).
  rewrite eval_ret, eval_gets. do 2 f_equal.
  rewrite eval_for_fold by (read_only_tac; apply movie_average_rating_ro).
  rewrite <- (app_nil_l (collect _ _)), <- fold_left_collect.
  apply fold_left_ext. intros results [g movie_names].
  rewrite eval_bind by (read_only_tac; apply movie_average_rating_ro).
  rewrite eval_for_fold by (read_only_tac; apply movie_average_rating_ro).
  assert (E : fold_left (fun avgs name =>
      eval (avg <- movie_average_rating name ;;
            match avg with Some a => ret (avgs ++ [a]) | None => ret avgs end) s)
      movie_names [] = collect (average_of s) movie_names).
  { rewrite <- (app_nil_l (collect _ _)), <- fold_left_collect.
    apply fold_left_ext. intros avgs x.
    rewrite eval_bind by apply movie_average_rating_ro.
    rewrite movie_average_rating_eval. now destruct (average_of s x). }
  rewrite E. unfold genre_row. cbn [fst snd].
  now destruct (collect (average_of s) movie_names).
Qed.

Lemma user_top_genre_eval (s : DataStore) (user_id : string) :
  eval (user_top_genre user_id) s
  = match dict_get user_id (user_ratings s) with
    | None | Some [] => None
    | Some per_user =>
        match fold_left (group_rating (movies_by_name s)) per_user [] with
        | [] => None
        | by_genre => hd_error (sort_rows (map user_genre_row by_genre))
        end
    end.
Proof.
  unfold user_top_genre. rewrite eval_bind by read_only_tac.
  rewrite eval_gets.
  destruct (dict_get user_id (user_ratings s)) as [[| e per_user] |]; try reflexivity.
  rewrite eval_bind by read_only_tac.
  rewrite eval_for_fold by read_only_tac.
  assert (E : forall l acc, fold_left (fun acc (x : string * Q) =>
      eval (let '(name, rating) := x in
            movie <- gets (fun s => dict_get name (movies_by_name s)) ;;
            match movie with
            | None => ret acc
            | Some movie =>
                ret (dict_set (genre movie)
                       (dict_get_or (genre movie) [] acc ++ [rating]) acc)
            end) s) l acc
      = fold_left (group_rating (movies_by_name s)) l acc).
  { intros l acc. apply fold_left_ext. intros a [nm r]. unfold group_rating, eval, bind, gets.
    cbn [fst snd]. now destruct (dict_get nm (movies_by_name s)). }
  rewrite E.
  destruct (fold_left (group_rating (movies_by_name s)) (e :: per_user) []) eqn:E';
    [reflexivity |].
  unfold eval, ret. cbn [fst]. do 2 f_equal. apply map_ext. now intros [g r].
Qed.

Lemma recommend_for_user_eval (s : DataStore) (user_id : string) (k : Z) :
  eval (recommend_for_user user_id k) s
  = match eval (user_top_genre user_id) s with
    | None => []
    | Some top =>
        recommend_loop (dict_keys (dict_get_or user_id [] (user_ratings s)))
          (row_key top) k (eval (rank_movies_in_genre (row_key top) None) s) []
    end.
Proof.
  unfold recommend_for_user. rewrite eval_bind by apply user_top_genre_ro.
  destruct (eval (user_top_genre user_id) s) as [[[g a] c] |]; [| reflexivity].
  rewrite eval_bind by read_only_tac.
  rewrite eval_bind by apply rank_movies_in_genre_ro.
  reflexivity.
Qed.

End QueryResults.

(** ** Sessions *)

Lemma exec_bind {A B} (m : St A) (k : A -> St B) (s : DataStore) :
  exec (bind m k) s = exec (k (eval m s)) (exec m s).
Proof. unfold exec, eval, bind. now destruct (m s). Qed.

Section Sessions.
Context {FL : PyFloat}.

Lemma run_ops_nil (s : DataStore) : exec (run_ops []) s = s.
Proof. reflexivity. Qed.

Lemma run_ops_cons (o : op) (ops : list op) (s : DataStore) :
  exec (run_ops (o :: ops)) s = exec (run_ops ops) (exec (run_op o) s).
Proof.
  unfold run_ops, for_each. cbn [for_fold]. rewrite exec_bind.
  now destruct (eval (run_op o) s).
Qed.

Lemma run_ops_app (ops ops' : list op) (s : DataStore) :
  exec (run_ops (ops ++ ops')) s = exec (run_ops ops') (exec (run_ops ops) s).
Proof.
  revert s. induction ops as [| o ops IH]; intros s; [reflexivity |].
  cbn [app]. now rewrite !run_ops_cons, IH.
Qed.

Lemma run_load_movies (lines : list string) (s : DataStore) :
  exec (run_op (LoadMovies lines)) s
  = {| movies_by_name := fold_left index_by_name (accepted_movies lines) [];
       movies_by_genre := fold_left index_by_genre (accepted_movies lines) [];
       ratings_by_movie := ratings_by_movie s;
       user_ratings := user_ratings s |}.
Proof.
  cbn [run_op]. unfold exec, bind. now rewrite load_movies_file_run.
Qed.

Lemma run_load_ratings (lines : list string) (s : DataStore) :
  exec (run_op (LoadRatings lines)) s
  = {| movies_by_name := movies_by_name s;
       movies_by_genre := movies_by_genre s;
       ratings_by_movie :=
         build_ratings_by_movie (movies_by_name s) (loaded_user_ratings lines);
       user_ratings := loaded_user_ratings lines |}.
Proof.
  cbn [run_op]. unfold exec, bind. now rewrite load_ratings_file_run.
Qed.

Lemma run_clear (s : DataStore) : exec (run_op Clear) s = init.
Proof. reflexivity. Qed.

(** A property of the store that every operation establishes or keeps holds
    after every session. *)
Lemma session_invariant (P : DataStore -> Prop) :
  P init ->
  (forall o s, P s -> P (exec (run_op o) s)) ->
  forall ops, P (exec (run_ops ops) init).
Proof.
  intros Hinit Hstep ops. generalize init Hinit.
  induction ops as [| o ops IH]; intros s Hs.
  - exact Hs.
  - rewrite run_ops_cons. apply IH, Hstep, Hs.
Qed.

End Sessions.

(** ** Sorting and slicing: elements *)

Lemma insert_perm (x : row) (l : list row) : Permutation (insert x l) (x :: l).
Proof.
  induction l as [| y l IH]; simpl; [reflexivity |].
  destruct (tuple_lt (sort_key y) (sort_key x)); [| reflexivity].
  rewrite IH. apply perm_swap.
Qed.

Lemma sort_rows_perm (l : list row) : Permutation (sort_rows l) l.
Proof.
  induction l as [| x l IH]; simpl; [reflexivity |].
  rewrite insert_perm. now constructor.
Qed.

Lemma In_sort_rows (t : row) (l : list row) : In t (sort_rows l) <-> In t l.
Proof.
  split; apply Permutation_in; [| symmetry]; apply sort_rows_perm.
Qed.

Lemma In_firstn {A} (k : nat) (l : list A) (x : A) : In x (firstn k l) -> In x l.
Proof.
  intros H. rewrite <- (firstn_skipn k l). apply in_or_app. now left.
Qed.

Lemma In_limit {A} (n : option Z) (l : list A) (x : A) : In x (limit n l) -> In x l.
Proof.
  destruct n as [k |]; [| trivial]. unfold limit, slice_to.
  destruct (0 <=? k); apply In_firstn.
Qed.

(** ** Ratings stay in [0, 5] *)

Section Ranges.
Context {FL : PyFloat}.

Lemma in_range_b_true (q : Q) : in_range_b q = true <-> in_range q.
Proof.
  unfold in_range_b, in_range. now rewrite andb_true_iff, !Qle_bool_iff.
Qed.

Lemma parse_rating_line_range (raw movie_name user_id : string) (rating : Q) :
  parse_rating_line raw = Some (movie_name, rating, user_id) -> in_range rating.
Proof.
  unfold parse_rating_line.
  destruct (is_empty _); [discriminate |].
  destruct (negb _); [discriminate |].
  destruct (map strip _) as [| a [| b [| c [| ? ?]]]]; try discriminate.
  destruct (float_of_string b) as [q |]; [| discriminate].
  destruct (in_range_b q) eqn:E; [| discriminate].
  cbn [negb]. intros [= _ <- _]. now apply in_range_b_true.
Qed.

Lemma accepted_ratings_range (lines : list string) :
  Forall (fun r => in_range (snd (fst r))) (accepted_ratings lines).
Proof.
  apply Forall_forall. intros [[m r] u] Hin.
  apply in_collect in Hin. destruct Hin as [raw [_ Hraw]].
  exact (parse_rating_line_range _ Hraw).
Qed.

Lemma record_ratings_range (rows : list (string * Q * string)) (d : dict (dict Q)) :
  Forall (fun r => in_range (snd (fst r))) rows ->
  dict_all (dict_all in_range) d ->
  dict_all (dict_all in_range) (fold_left record_rating rows d).
Proof.
  intros Hrows. revert d.
  induction Hrows as [| [[m r] u] rows Hr _ IH]; intros d Hd; [exact Hd |].
  cbn [fold_left]. apply IH. cbn [record_rating].
  apply dict_all_set; [| exact Hd].
  apply dict_all_set; [exact Hr |].
  apply dict_all_get_or; [constructor | exact Hd].
Qed.

(** The rating lists of the index: never empty, and in [0, 5]. *)
Definition rated_list (l : list Q) : Prop := l <> [] /\ Forall in_range l.

Lemma index_rating_range (known : dict Movie) (pu : dict Q) (d : dict (list Q)) :
  dict_all in_range pu -> dict_all rated_list d ->
  dict_all rated_list (fold_left (index_rating known) pu d).
Proof.
  intros Hpu. revert d.
  induction Hpu as [| [m r] pu Hr _ IH]; intros d Hd; [exact Hd |].
  cbn [fold_left]. apply IH. cbn [index_rating].
  destruct (dict_mem m known); [| exact Hd].
  apply dict_all_set; [| exact Hd]. split.
  - intros E. now apply app_eq_nil in E.
  - apply Forall_app. split; [| constructor; [exact Hr | constructor]].
    unfold dict_get_or. destruct (dict_get m d) as [l |] eqn:E; [| constructor].
    exact (proj2 (dict_all_get _ Hd E)).
Qed.

Lemma build_ratings_by_movie_range (known : dict Movie) (ur : dict (dict Q)) :
  dict_all (dict_all in_range) ur ->
  dict_all rated_list (build_ratings_by_movie known ur).
Proof.
  unfold build_ratings_by_movie. intros Hur.
  assert (H : dict_all rated_list (@nil (string * list Q))) by constructor.
  revert H. generalize (@nil (string * list Q)).
  induction Hur as [| [u pu] ur Hpu _ IH]; intros d Hd; [exact Hd |].
  cbn [fold_left]. apply IH. now apply index_rating_range.
Qed.

(** The invariant of the store. *)
Definition ratings_ok (s : DataStore) : Prop :=
  dict_all (dict_all in_range) (user_ratings s) /\
  dict_all rated_list (ratings_by_movie s).

Lemma ratings_ok_session (ops : list op) : ratings_ok (exec (run_ops ops) init).
Proof.
  apply session_invariant.
  - split; constructor.
  - intros [lines | lines |] s [Hur Hrbm].
    + rewrite run_load_movies. now split.
    + rewrite run_load_ratings.
      assert (H : dict_all (dict_all in_range) (loaded_user_ratings lines)).
      { apply record_ratings_range; [apply accepted_ratings_range | constructor]. }
      split; [exact H | now apply build_ratings_by_movie_range].
    + rewrite run_clear. split; constructor.
Qed.

Lemma ratings_of_movie_ok (s : DataStore) (movie_name : string) (x : Q) (l : list Q) :
  ratings_ok s ->
  dict_get_or movie_name [] (ratings_by_movie s) = x :: l ->
  rated_list (x :: l).
Proof.
  intros [_ Hrbm]. unfold dict_get_or.
  destruct (dict_get movie_name (ratings_by_movie s)) as [l' |] eqn:E; [| discriminate].
  intros <-. exact (dict_all_get _ Hrbm E).
Qed.

Lemma average_of_range (s : DataStore) (movie_name : string) (a : Q) :
  ratings_ok s -> average_of s movie_name = Some a -> in_range a.
Proof.
  intros Hs. unfold average_of.
  destruct (dict_get_or movie_name [] (ratings_by_movie s)) as [| x l] eqn:E;
    [discriminate |].
  intros [= <-]. destruct (ratings_of_movie_ok _ Hs E). now apply fmean_range.
Qed.

Lemma movie_row_range (s : DataStore) (movie_name : string) (t : row) :
  ratings_ok s -> movie_row s movie_name = Some t -> in_range (row_score t).
Proof.
  intros Hs. unfold movie_row.
  destruct (dict_get_or movie_name [] (ratings_by_movie s)) as [| x l] eqn:E;
    [discriminate |].
  intros [= <-]. destruct (ratings_of_movie_ok _ Hs E). now apply fmean_range.
Qed.

Lemma genre_row_range (s : DataStore) (e : string * list string) (t : row) :
  ratings_ok s -> genre_row s e = Some t -> in_range (row_score t).
Proof.
  intros Hs. unfold genre_row.
  destruct (collect (average_of s) (snd e)) as [| x l] eqn:E; [discriminate |].
  intros [= <-]. apply fmean_range; [discriminate |].
  rewrite <- E. apply Forall_forall. intros a Ha.
  apply in_collect in Ha. destruct Ha as [nm [_ Hnm]].
  exact (average_of_range _ Hs Hnm).
Qed.

Lemma group_rating_range (known : dict Movie) (pu : dict Q) (d : dict (list Q)) :
  dict_all in_range pu -> dict_all rated_list d ->
  dict_all rated_list (fold_left (group_rating known) pu d).
Proof.
  intros Hpu. revert d.
  induction Hpu as [| [m r] pu Hr _ IH]; intros d Hd; [exact Hd |].
  cbn [fold_left]. apply IH. unfold group_rating. cbn [fst snd].
  destruct (dict_get m known) as [mv |]; [| exact Hd].
  apply dict_all_set; [| exact Hd]. split.
  - intros E. now apply app_eq_nil in E.
  - apply Forall_app. split; [| constructor; [exact Hr | constructor]].
    unfold dict_get_or. destruct (dict_get (genre mv) d) as [l |] eqn:E; [| constructor].
    exact (proj2 (dict_all_get _ Hd E)).
Qed.

Lemma ranking_range (f : string -> option row) (s : DataStore) (n : option Z)
    (candidates : list string) :
  (forall x t, f x = Some t -> in_range (row_score t)) ->
  Forall (fun t => in_range (row_score t)) (limit n (sort_rows (collect f candidates))).
Proof.
  intros Hf. apply Forall_forall. intros t Ht.
  apply In_limit, In_sort_rows, in_collect in Ht.
  destruct Ht as [x [_ Hx]]. exact (Hf _ _ Hx).
Qed.

Lemma user_top_genre_range (s : DataStore) (user_id : string) (t : row) :
  ratings_ok s -> eval (user_top_genre user_id) s = Some t -> in_range (row_score t).
Proof.
  intros Hs. rewrite user_top_genre_eval.
  destruct (dict_get user_id (user_ratings s)) as [[| e pu] |] eqn:E; try discriminate.
  assert (Hg : dict_all rated_list
                 (fold_left (group_rating (movies_by_name s)) (e :: pu) [])).
  { apply group_rating_range; [| constructor]. exact (dict_all_get _ (proj1 Hs) E). }
  destruct (fold_left (group_rating (movies_by_name s)) (e :: pu) []) as [| b by_genre];
    [discriminate |].
  intros Ht.
  assert (Hin : In t (map user_genre_row (b :: by_genre))).
  { apply In_sort_rows. destruct (sort_rows _); [discriminate |].
    injection Ht as ->. now left. }
  apply in_map_iff in Hin. destruct Hin as [[g l] [<- Hin]].
  unfold dict_all in Hg. rewrite Forall_forall in Hg.
  destruct (Hg _ Hin) as [Hne Hl]. now apply fmean_range.
Qed.

End Ranges.

(** ** The loop of the recommender *)

(** A row that the user has not rated. *)
Definition fresh_for (rated : list string) (t : row) : bool :=
  negb (str_mem (row_key t) rated).

Lemma len_app_one {A} (l : list A) (x : A) : len (l ++ [x]) = len l + 1.
Proof. unfold len. rewrite length_app. simpl. lia. Qed.

(** The loop takes the rows that are not rated, in order, and stops after
    the one that brings the list to [k] rows: at least one row if there is
    one. *)
Lemma recommend_loop_spec (rated : list string) (g : string) (k : Z)
    (ranked : list row) (recs : list (row * string)) :
  recommend_loop rated g k ranked recs
  = recs ++ map (fun t => (t, g))
      (firstn (Z.to_nat (Z.max 1 (k - len recs))) (filter (fresh_for rated) ranked)).
Proof.
  revert recs. induction ranked as [| [[nm avg] cnt] ranked IH]; intros recs.
  - simpl. now rewrite firstn_nil, app_nil_r.
  - cbn [recommend_loop filter]. unfold fresh_for at 1, row_key at 1. cbn [fst].
    destruct (str_mem nm rated); cbn [negb]; [apply IH |].
    rewrite len_app_one. destruct (Z.geb_spec (len recs + 1) k) as [Hge | Hlt].
    + replace (Z.to_nat (Z.max 1 (k - len recs))) with 1%nat by lia.
      reflexivity.
    + rewrite IH, len_app_one, <- app_assoc. f_equal.
      replace (Z.to_nat (Z.max 1 (k - len recs)))
        with (S (Z.to_nat (Z.max 1 (k - (len recs + 1))))) by lia.
      reflexivity.
Qed.

(** [subseq l l']: [l] is [l'] with some elements left out, the others in
    the order they have in [l']. *)
Inductive subseq {A : Type} : list A -> list A -> Prop :=
| subseq_nil : subseq [] []
| subseq_skip (x : A) (l l' : list A) : subseq l l' -> subseq l (x :: l')
| subseq_take (x : A) (l l' : list A) : subseq l l' -> subseq (x :: l) (x :: l').

Lemma subseq_refl {A} (l : list A) : subseq l l.
Proof. induction l; constructor; assumption. Qed.

Lemma subseq_nil_l {A} (l : list A) : subseq [] l.
Proof. induction l; constructor; assumption. Qed.

Lemma subseq_trans {A} (l1 l2 l3 : list A) :
  subseq l1 l2 -> subseq l2 l3 -> subseq l1 l3.
Proof.
  intros H12 H23. revert l1 H12.
  induction H23 as [| x l2 l3 _ IH | x l2 l3 _ IH]; intros l1 H12.
  - exact H12.
  - constructor. now apply IH.
  - inversion H12; subst; constructor; now apply IH.
Qed.

Lemma subseq_filter {A} (f : A -> bool) (l : list A) : subseq (filter f l) l.
Proof.
  induction l as [| x l IH]; simpl; [constructor |].
  destruct (f x); constructor; exact IH.
Qed.

Lemma subseq_firstn {A} (k : nat) (l : list A) : subseq (firstn k l) l.
Proof.
  revert k. induction l as [| x l IH]; intros [| k]; simpl;
    try apply subseq_nil_l; constructor; apply IH.
Qed.

(** ** Properties of the aggregator and of the ranker *)

Section Aggregator.
Context {FL : PyFloat}.

Lemma recommend_rows (s : DataStore) (user_id : string) (k : Z) (t : row * string) :
  In t (eval (recommend_for_user user_id k) s) ->
  exists top,
    eval (user_top_genre user_id) s = Some top /\
    snd t = row_key top /\
    In (fst t) (eval (rank_movies_in_genre (row_key top) None) s) /\
    ~ In (row_key (fst t)) (dict_keys (dict_get_or user_id [] (user_ratings s))).
Proof.
  rewrite recommend_for_user_eval.
  destruct (eval (user_top_genre user_id) s) as [top |]; [| intros []].
  rewrite recommend_loop_spec. cbn [app]. intros Hin.
  apply in_map_iff in Hin. destruct Hin as [r [<- Hr]].
  apply In_firstn, filter_In in Hr. destruct Hr as [Hr Hfresh].
  exists top. cbn [fst snd]. repeat split; auto.
  unfold fresh_for in Hfresh. apply negb_true_iff, str_mem_false in Hfresh.
  exact Hfresh.
Qed.

(** C10: after any sequence of loadMovies, loadRatings and clear, every
    rating held in userRatings and in ratingsByMovie lies in [0, 5], and so
    does every mean rating and every genre score of a query result. *)
Theorem ratings_and_scores_in_range (ops : list op) :
  let s := exec (run_ops ops) init in
  dict_all (dict_all in_range) (user_ratings s) /\
  dict_all (Forall in_range) (ratings_by_movie s) /\
  (forall movie_name a,
     eval (movie_average_rating movie_name) s = Some a -> in_range a) /\
  (forall n, Forall (fun t => in_range (row_score t))
               (eval (rank_movies_by_average None n) s)) /\
  (forall g n, Forall (fun t => in_range (row_score t))
                 (eval (rank_movies_in_genre g n) s)) /\
  (forall n, Forall (fun t => in_range (row_score t))
               (eval (rank_genres_by_popularity n) s)) /\
  (forall user_id t,
     eval (user_top_genre user_id) s = Some t -> in_range (row_score t)) /\
  (forall user_id k, Forall (fun t => in_range (row_score (fst t)))
                       (eval (recommend_for_user user_id k) s)).
Proof.
  intros s. pose proof (ratings_ok_session ops) as Hs. fold s in Hs.
  assert (Hgenre : forall g n, Forall (fun t => in_range (row_score t))
                                 (eval (rank_movies_in_genre g n) s)).
  { intros g n. rewrite rank_movies_in_genre_eval.
    apply ranking_range; [exact s |]. intros x t. now apply movie_row_range. }
  split; [exact (proj1 Hs) |].
  split.
  { destruct Hs as [_ Hrbm]. unfold dict_all in *.
    eapply Forall_impl; [| exact Hrbm]. now intros kv [_ H]. }
  split.
  { intros movie_name a. rewrite movie_average_rating_eval.
    now apply average_of_range. }
  split.
  { intros n. rewrite rank_movies_by_average_eval.
    apply ranking_range; [exact s |]. intros x t. now apply movie_row_range. }
  split; [exact Hgenre |].
  split.
  { intros n. rewrite rank_genres_by_popularity_eval.
    apply Forall_forall. intros t Ht.
    apply In_limit, In_sort_rows, in_collect in Ht.
    destruct Ht as [e [_ He]]. exact (genre_row_range _ Hs He). }
  split.
  { intros user_id t. now apply user_top_genre_range. }
  intros user_id k. apply Forall_forall. intros t Ht.
  apply recommend_rows in Ht. destruct Ht as [top [_ [_ [Hin _]]]].
  specialize (Hgenre (row_key top) None). rewrite Forall_forall in Hgenre.
  now apply Hgenre.
Qed.

(** C7: meanRating(m) is absent exactly when ratingsByMovie has no entry for
    [m] or an empty one, and is never a zero that stands for "no rating";
    otherwise it is the mean of the entry, within 1e-6 of the exact
    arithmetic mean. *)
Theorem mean_rating_absent_or_mean (ops : list op) (movie_name : string) :
  let s := exec (run_ops ops) init in
  let entry := dict_get movie_name (ratings_by_movie s) in
  (eval (movie_average_rating movie_name) s = None
   <-> entry = None \/ entry = Some []) /\
  (forall ratings,
     entry = Some ratings -> ratings <> [] ->
     exists a,
       eval (movie_average_rating movie_name) s = Some a /\
       a = fmean ratings /\
       (Qabs (a - Qmean ratings) <= 1 # 1000000)%Q).
Proof.
  intros s entry. pose proof (ratings_ok_session ops) as Hs. fold s in Hs.
  rewrite movie_average_rating_eval. unfold average_of, dict_get_or.
  fold entry. split.
  - destruct entry as [[| x l] |]; split; intros H; auto; try discriminate.
    destruct H as [H | H]; discriminate.
  - intros ratings Hentry Hne. rewrite Hentry.
    destruct ratings as [| x l]; [congruence |].
    exists (fmean (x :: l)). split; [reflexivity |]. split; [reflexivity |].
    apply fmean_accurate; [exact Hne |].
    refine (proj2 (ratings_of_movie_ok movie_name Hs _)).
    unfold dict_get_or. fold entry. now rewrite Hentry.
Qed.

End Aggregator.

Section Limits.
Context {FL : PyFloat}.

(** What [l[:n]] is for [n <= 0]: nothing for 0, and [l] without its last
    [-n] elements for a negative [n]. *)
Definition cut_from_end {A} (n : Z) (l : list A) : list A :=
  if n =? 0 then [] else firstn (List.length l - Z.to_nat (- n)) l.

Lemma slice_to_nonpositive {A} (n : Z) (l : list A) :
  n <= 0 -> slice_to n l = cut_from_end n l.
Proof.
  intros Hn. unfold slice_to, cut_from_end.
  destruct (Z.eqb_spec n 0) as [-> | Hne]; [reflexivity |].
  destruct (Z.leb_spec 0 n); [lia | reflexivity].
Qed.

(** C4, as the code has it: with a limit [n <= 0] the three rankings are
    what the slice [[:n]] leaves of the full ranking, the empty list for
    [n = 0] and the ranking without its last [-n] rows for [n < 0]. *)
Theorem nonpositive_limit_is_slice (s : DataStore) (g : string) (n : Z) :
  n <= 0 ->
  eval (rank_movies_by_average None (Some n)) s
    = cut_from_end n (eval (rank_movies_by_average None None) s) /\
  eval (rank_movies_in_genre g (Some n)) s
    = cut_from_end n (eval (rank_movies_in_genre g None) s) /\
  eval (rank_genres_by_popularity (Some n)) s
    = cut_from_end n (eval (rank_genres_by_popularity None) s).
Proof.
  intros Hn.
  rewrite !rank_movies_by_average_eval, !rank_movies_in_genre_eval,
    !rank_genres_by_popularity_eval.
  cbn [limit]. now rewrite !slice_to_nonpositive by exact Hn.
Qed.

(** The recommendations as the code has them: recommend(u, k) holds no
    movie that [u] has rated, its rows are rows of the full ranking of the
    top genre of [u] in the order of that ranking, tagged with that genre,
    and for [k >= 1] there are at most [k] of them. *)
Theorem recommend_unrated_ordered_bounded (s : DataStore) (user_id : string) (k : Z) :
  let recs := eval (recommend_for_user user_id k) s in
  (forall t, In t recs ->
     ~ In (row_key (fst t)) (dict_keys (dict_get_or user_id [] (user_ratings s)))) /\
  (1 <= k -> len recs <= k) /\
  match eval (user_top_genre user_id) s with
  | None => recs = []
  | Some top =>
      subseq (map fst recs) (eval (rank_movies_in_genre (row_key top) None) s) /\
      Forall (fun t => snd t = row_key top) recs
  end.
Proof.
  intros recs. split; [| split].
  - intros t Ht. apply recommend_rows in Ht. now destruct Ht as [top [_ [_ [_ H]]]].
  - intros Hk. subst recs. rewrite recommend_for_user_eval.
    destruct (eval (user_top_genre user_id) s) as [top |]; [| unfold len; simpl; lia].
    rewrite recommend_loop_spec. cbn [app]. unfold len.
    rewrite length_map.
    pose proof (firstn_le_length (Z.to_nat (Z.max 1 (k - Z.of_nat 0)))
      (filter (fresh_for (dict_keys (dict_get_or user_id [] (user_ratings s))))
         (eval (rank_movies_in_genre (row_key top) None) s))) as Hle.
    cbn [List.length] in *. lia.
  - subst recs. rewrite recommend_for_user_eval.
    destruct (eval (user_top_genre user_id) s) as [top |]; [| reflexivity].
    rewrite recommend_loop_spec. cbn [app]. split.
    + rewrite map_map. cbn [fst]. rewrite map_id.
      eapply subseq_trans; [apply subseq_firstn | apply subseq_filter].
    + apply Forall_forall. intros t Ht. apply in_map_iff in Ht.
      now destruct Ht as [r [<- _]].
Qed.

(** A limit below 1 is a limit of 1: the loop tests [len(recs) >= k] after
    it has appended a row, so that the first row that the user has not rated
    is returned whatever [k] is. *)
Lemma recommend_limit_below_one (s : DataStore) (user_id : string) (k : Z) :
  k <= 1 ->
  eval (recommend_for_user user_id k) s = eval (recommend_for_user user_id 1) s.
Proof.
  intros Hk. rewrite !recommend_for_user_eval.
  destruct (eval (user_top_genre user_id) s) as [top |]; [| reflexivity].
  rewrite !recommend_loop_spec. cbn [app]. unfold len. cbn [List.length].
  now replace (Z.max 1 (k - Z.of_nat 0)) with (Z.max 1 (1 - Z.of_nat 0)) by lia.
Qed.

End Limits.

(** ** The ratings loader *)

(** [user_ratings[u][m]], when there is one. *)
Definition lookup_rating (ur : dict (dict Q)) (u m : string) : option Q :=
  match dict_get u ur with
  | Some per_user => dict_get m per_user
  | None => None
  end.

(** The pair [(user_id, movie_name)] of a rating row. *)
Definition rating_pair (r : string * Q * string) : string * string :=
  (snd r, fst (fst r)).

Definition pair_eq_dec (p q : string * string) : {p = q} + {p <> q}.
Proof. decide equality; apply string_dec. Defined.

(** The distinct pairs of a list of rows. *)
Definition distinct_pairs (rows : list (string * Q * string)) : list (string * string) :=
  nodup pair_eq_dec (map rating_pair rows).

Definition same_pair (u m : string) (r : string * Q * string) : bool :=
  String.eqb (snd r) u && String.eqb (fst (fst r)) m.

(** The value of the last row of [rows] for the pair [(u, m)]. *)
Definition last_rating (rows : list (string * Q * string)) (u m : string) : option Q :=
  fold_left (fun acc r => if same_pair u m r then Some (snd (fst r)) else acc) rows None.

(** The ratings that the users have given to [n], in the order of the
    users. *)
Definition expected_ratings (ur : dict (dict Q)) (n : string) : list Q :=
  collect (fun e : string * dict Q => dict_get n (snd e)) ur.

(** [ratings_by_movie] is the index of [user_ratings] restricted to the
    movies of [known]. *)
Definition ratings_index_for (known : dict Movie) (s : DataStore) : Prop :=
  forall n,
    Permutation (dict_get_or n [] (ratings_by_movie s))
                (if dict_mem n known then expected_ratings (user_ratings s) n else []) /\
    (dict_mem n (ratings_by_movie s) = true -> dict_mem n known = true).

Lemma dict_get_or_set {V} (k k' : string) (v dflt : V) (d : dict V) :
  dict_get_or k' dflt (dict_set k v d)
  = if String.eqb k k' then v else dict_get_or k' dflt d.
Proof.
  unfold dict_get_or. rewrite dict_get_set. now destruct (String.eqb k k').
Qed.

Lemma len_dict_set {V} (k : string) (v : V) (d : dict V) :
  len (dict_set k v d) = len d + (if dict_mem k d then 0 else 1).
Proof.
  unfold len, dict_mem. induction d as [| [k' v'] d IH]; simpl; [reflexivity |].
  destruct (String.eqb k' k); simpl; [lia |].
  destruct (dict_get k d); lia.
Qed.

Lemma nodup_snoc_length {A} (dec : forall x y : A, {x = y} + {x <> y})
    (l : list A) (p : A) :
  len (nodup dec (l ++ [p])) = len (nodup dec l) + (if in_dec dec p l then 0 else 1).
Proof.
  unfold len. destruct (in_dec dec p l) as [Hin | Hnin].
  - rewrite Z.add_0_r. f_equal. apply Permutation_length.
    apply NoDup_Permutation; try apply NoDup_nodup.
    intros x. rewrite !nodup_In, in_app_iff. simpl. intuition (subst; auto).
  - replace (Z.of_nat (List.length (nodup dec l)) + 1)
      with (Z.of_nat (List.length (p :: nodup dec l))) by (simpl List.length; lia).
    f_equal.
    apply Permutation_length. apply NoDup_Permutation.
    + apply NoDup_nodup.
    + constructor; [now rewrite nodup_In | apply NoDup_nodup].
    + intros x. simpl. rewrite !nodup_In, in_app_iff. simpl. intuition.
Qed.

Section RatingsLoader.
Context {FL : PyFloat}.

Lemma lookup_record_rating (ur : dict (dict Q)) (r : string * Q * string) (u m : string) :
  lookup_rating (record_rating ur r) u m
  = if same_pair u m r then Some (snd (fst r)) else lookup_rating ur u m.
Proof.
  destruct r as [[m0 q] u0]. unfold lookup_rating, same_pair. cbn [record_rating fst snd].
  rewrite dict_get_set. destruct (String.eqb_spec u0 u) as [-> | Hu]; cbn [andb].
  - rewrite dict_get_set. destruct (String.eqb m0 m); [reflexivity |].
    unfold dict_get_or, dict in *. destruct (dict_get u ur); reflexivity.
  - reflexivity.
Qed.

Lemma lookup_record_ratings (rows : list (string * Q * string)) (ur : dict (dict Q))
    (u m : string) :
  lookup_rating (fold_left record_rating rows ur) u m
  = fold_left (fun acc r => if same_pair u m r then Some (snd (fst r)) else acc)
      rows (lookup_rating ur u m).
Proof.
  revert ur. induction rows as [| r rows IH]; intros ur; [reflexivity |].
  cbn [fold_left]. now rewrite IH, lookup_record_rating.
Qed.

Lemma same_pair_true (u m : string) (r : string * Q * string) :
  same_pair u m r = true <-> rating_pair r = (u, m).
Proof.
  destruct r as [[m0 q] u0]. unfold same_pair, rating_pair. cbn [fst snd].
  rewrite andb_true_iff, !String.eqb_eq. split; [intros [-> ->] | intros [= -> ->]]; auto.
Qed.

Lemma count_pairs_set (u : string) (pu : dict Q) (ur : dict (dict Q)) :
  count_pairs (dict_set u pu ur)
  = count_pairs ur - len (dict_get_or u [] ur) + len pu.
Proof.
  unfold count_pairs, dict_values, dict_get_or.
  induction ur as [| [u' pu'] ur IH]; simpl.
  - unfold len. simpl. lia.
  - destruct (String.eqb u' u); simpl; [lia | rewrite IH; lia].
Qed.

Lemma count_pairs_record (ur : dict (dict Q)) (r : string * Q * string) :
  count_pairs (record_rating ur r)
  = count_pairs ur
    + match lookup_rating ur (snd r) (fst (fst r)) with Some _ => 0 | None => 1 end.
Proof.
  destruct r as [[m q] u]. cbn [record_rating fst snd].
  rewrite count_pairs_set, len_dict_set.
  unfold lookup_rating, dict_get_or, dict_mem, dict in *.
  destruct (dict_get u ur) as [pu |]; [destruct (dict_get m pu) |];
    unfold len; simpl; lia.
Qed.

(** Rows folded into [ur] after the rows [seen]: the count follows the
    distinct pairs. *)
Lemma count_pairs_record_ratings (rows seen : list (string * Q * string))
    (ur : dict (dict Q)) :
  (forall u m, lookup_rating ur u m = None <-> ~ In (u, m) (map rating_pair seen)) ->
  count_pairs ur = len (distinct_pairs seen) ->
  count_pairs (fold_left record_rating rows ur) = len (distinct_pairs (seen ++ rows)).
Proof.
  revert seen ur. induction rows as [| r rows IH]; intros seen ur Hlook Hcount.
  - now rewrite app_nil_r.
  - cbn [fold_left].
    replace (seen ++ r :: rows) with ((seen ++ [r]) ++ rows)
      by now rewrite <- app_assoc.
    apply IH.
    + intros u m. rewrite lookup_record_rating, map_app, in_app_iff. cbn [map In].
      destruct (same_pair u m r) eqn:E.
      * apply same_pair_true in E. split; [discriminate | intros H; exfalso; tauto].
      * assert (rating_pair r <> (u, m)).
        { intros H. apply same_pair_true in H. congruence. }
        rewrite Hlook. tauto.
    + rewrite count_pairs_record, Hcount. unfold distinct_pairs.
      rewrite map_app. cbn [map]. rewrite nodup_snoc_length. f_equal.
      destruct (lookup_rating ur (snd r) (fst (fst r))) eqn:E;
        destruct (in_dec pair_eq_dec (rating_pair r) (map rating_pair seen))
          as [Hin | Hnin]; try reflexivity; exfalso.
      * apply (Hlook (snd r) (fst (fst r))) in Hnin. congruence.
      * apply (Hlook (snd r) (fst (fst r))) in E. now apply E.
Qed.

(** C6: loadRatings returns the number of distinct (user_id, movie_name)
    pairs of the accepted rows, whatever the movies of the store are; the
    rating kept for a pair is that of its last row. *)
Theorem load_ratings_counts_distinct_pairs (lines : list string) (s : DataStore) :
  let rows := accepted_ratings lines in
  eval (load_ratings_file lines) s = len (distinct_pairs rows) /\
  forall u m,
    lookup_rating (user_ratings (exec (load_ratings_file lines) s)) u m
    = last_rating rows u m.
Proof.
  intros rows. unfold eval, exec. rewrite load_ratings_file_run. cbn [fst snd user_ratings].
  unfold loaded_user_ratings. fold rows. split.
  - apply (count_pairs_record_ratings rows []).
    + intros u m. simpl. tauto.
    + reflexivity.
  - intros u m. apply lookup_record_ratings.
Qed.

End RatingsLoader.

(** ** The index of the ratings by movie *)

Section RatingsIndex.
Context {FL : PyFloat}.

(** The movies index that the last loadRatings of a session has read: the
    index of the store at that time, or the empty one after a clear and
    before any load of ratings. *)
Fixpoint known_at_last_load (ops : list op) (s : DataStore) (known : dict Movie)
    : dict Movie :=
  match ops with
  | [] => known
  | o :: ops' =>
      known_at_last_load ops' (exec (run_op o) s)
        match o with
        | LoadMovies _ => known
        | LoadRatings _ => movies_by_name s
        | Clear => []
        end
  end.

Definition unique_keys (pu : dict Q) : Prop := NoDup (dict_keys pu).

Lemma loaded_user_ratings_unique (lines : list string) :
  dict_all unique_keys (loaded_user_ratings lines).
Proof.
  unfold loaded_user_ratings.
  assert (H : dict_all unique_keys (@nil (string * dict Q))) by constructor.
  revert H. generalize (@nil (string * dict Q)).
  induction (accepted_ratings lines) as [| [[m r] u] rows IH]; intros d Hd; [exact Hd |].
  cbn [fold_left]. apply IH. cbn [record_rating].
  apply dict_all_set; [| exact Hd]. apply dict_set_NoDup.
  change (unique_keys (dict_get_or u [] d)).
  apply dict_all_get_or; [constructor | exact Hd].
Qed.

Lemma index_rating_get (known : dict Movie) (pu : dict Q) (d : dict (list Q))
    (n : string) :
  unique_keys pu ->
  dict_get_or n [] (fold_left (index_rating known) pu d)
  = dict_get_or n [] d
    ++ (if dict_mem n known
        then match dict_get n pu with Some r => [r] | None => [] end
        else []).
Proof.
  unfold unique_keys. revert d.
  induction pu as [| [m r] pu IH]; intros d Hnd.
  - simpl. destruct (dict_mem n known); now rewrite app_nil_r.
  - cbn [dict_keys map fst] in Hnd. inversion Hnd as [| ? ? Hm Hpu]; subst.
    cbn [fold_left]. rewrite (IH _ Hpu). cbn [index_rating dict_get].
    destruct (String.eqb_spec m n) as [-> | Hne].
    + assert (E : dict_get n pu = None) by now apply dict_get_None.
      rewrite E. destruct (dict_mem n known).
      * rewrite dict_get_or_set, String.eqb_refl. now rewrite app_nil_r.
      * reflexivity.
    + destruct (dict_mem m known); [| reflexivity].
      rewrite dict_get_or_set. destruct (String.eqb_spec m n); [contradiction | reflexivity].
Qed.

Lemma index_user_get (known : dict Movie) (ur : dict (dict Q)) (d : dict (list Q))
    (n : string) :
  dict_all unique_keys ur ->
  dict_get_or n [] (fold_left (index_user known) ur d)
  = dict_get_or n [] d ++ (if dict_mem n known then expected_ratings ur n else []).
Proof.
  intros Hur. revert d.
  induction Hur as [| [u pu] ur Hpu _ IH]; intros d.
  - simpl. destruct (dict_mem n known); now rewrite app_nil_r.
  - cbn [fold_left]. rewrite IH. unfold index_user at 1. cbn [snd].
    rewrite (index_rating_get _ _ _ Hpu), <- app_assoc. f_equal.
    unfold expected_ratings. cbn [collect flat_map snd].
    now destruct (dict_mem n known).
Qed.

Lemma index_rating_keys (known : dict Movie) (pu : dict Q) (d : dict (list Q))
    (n : string) :
  In n (dict_keys (fold_left (index_rating known) pu d)) ->
  In n (dict_keys d) \/ dict_mem n known = true.
Proof.
  revert d. induction pu as [| [m r] pu IH]; intros d; [now left |].
  cbn [fold_left]. intros H. apply IH in H. destruct H as [H | H]; [| now right].
  cbn [index_rating] in H. destruct (dict_mem m known) eqn:E; [| now left].
  apply In_dict_keys_set in H. destruct H as [-> | H]; [now right | now left].
Qed.

Lemma index_user_keys (known : dict Movie) (ur : dict (dict Q)) (d : dict (list Q))
    (n : string) :
  In n (dict_keys (fold_left (index_user known) ur d)) ->
  In n (dict_keys d) \/ dict_mem n known = true.
Proof.
  revert d. induction ur as [| [u pu] ur IH]; intros d; [now left |].
  cbn [fold_left]. intros H. apply IH in H. destruct H as [H | H]; [| now right].
  now apply index_rating_keys in H.
Qed.

Lemma load_ratings_index (lines : list string) (s : DataStore) :
  ratings_index_for (movies_by_name s) (exec (run_op (LoadRatings lines)) s).
Proof.
  rewrite run_load_ratings. intros n. cbn [ratings_by_movie user_ratings]. split.
  - unfold build_ratings_by_movie.
    rewrite (index_user_get _ _ n (loaded_user_ratings_unique lines)).
    reflexivity.
  - intros H. apply dict_mem_In, index_user_keys in H. now destruct H as [[] | H].
Qed.

Lemma ratings_index_session (ops : list op) (s : DataStore) (known : dict Movie) :
  ratings_index_for known s ->
  ratings_index_for (known_at_last_load ops s known) (exec (run_ops ops) s).
Proof.
  revert s known. induction ops as [| o ops IH]; intros s known Hs; [exact Hs |].
  rewrite run_ops_cons. cbn [known_at_last_load]. apply IH.
  destruct o as [lines | lines |].
  - rewrite run_load_movies. exact Hs.
  - apply load_ratings_index.
  - rewrite run_clear. intros n. split; [| discriminate].
    cbn. reflexivity.
Qed.

(** C1, as the code has it: after any sequence of loadMovies, loadRatings
    and clear, ratingsByMovie[n] is the multiset of the userRatings[u][n]
    of the users that rated [n] when [n] is a movie of the index that the
    last loadRatings read, and [n] has no entry otherwise. *)
Theorem ratings_index_follows_last_load (ops : list op) :
  ratings_index_for (known_at_last_load ops init []) (exec (run_ops ops) init).
Proof.
  apply ratings_index_session. intros n. split; [| discriminate].
  cbn. reflexivity.
Qed.

End RatingsIndex.

(** ** The order of the ranker *)

Lemma str_ltb_asym (a b : string) : String.ltb a b = true -> String.ltb b a = false.
Proof.
  unfold String.ltb. rewrite (String.compare_antisym b a).
  now destruct (String.compare a b).
Qed.

Lemma str_ltb_antisym (a b : string) :
  String.ltb a b = false -> String.ltb b a = false -> a = b.
Proof.
  unfold String.ltb. rewrite (String.compare_antisym b a).
  destruct (String.compare a b) eqn:E; try discriminate.
  intros _ _. now apply String.compare_eq_iff.
Qed.

Lemma str_ltb_trans (a b c : string) :
  String.ltb a b = true -> String.ltb b c = true -> String.ltb a c = true.
Proof.
  unfold String.ltb.
  destruct (String.compare a b) eqn:Eab; try discriminate.
  destruct (String.compare b c) eqn:Ebc; try discriminate.
  intros _ _. apply String_as_OT.cmp_lt in Eab, Ebc.
  pose proof (@String_as_OT.lt_trans a b c Eab Ebc) as H.
  apply String_as_OT.cmp_lt in H. unfold String_as_OT.cmp in H. now rewrite H.
Qed.

(** [<=] on strings, as the negation of [>], is transitive. *)
Lemma str_leb_trans (a b c : string) :
  String.ltb b a = false -> String.ltb c b = false -> String.ltb c a = false.
Proof.
  intros Hab Hbc. destruct (String.ltb c a) eqn:Hca; [| reflexivity].
  destruct (String.ltb a b) eqn:Hab'.
  - rewrite (str_ltb_trans _ _ _ Hca Hab') in Hbc. discriminate.
  - rewrite (str_ltb_antisym _ _ Hab' Hab) in Hca. congruence.
Qed.

Lemma Qle_bool_false (x y : Q) : Qle_bool x y = false -> (y < x)%Q.
Proof.
  intros H. apply Qnot_le_lt. intros Hle. apply Qle_bool_iff in Hle. congruence.
Qed.

(** Moves the boolean tests of [tuple_lt] to propositions. *)
Ltac tests_to_prop :=
  repeat match goal with
  | H : Qeq_bool _ _ = true |- _ => apply Qeq_bool_iff in H
  | H : Qeq_bool _ _ = false |- _ => apply Qeq_bool_neq in H
  | H : Qle_bool _ _ = true |- _ => apply Qle_bool_iff in H
  | H : Qle_bool _ _ = false |- _ => apply Qle_bool_false in H
  | H : (_ =? _) = true |- _ => apply Z.eqb_eq in H
  | H : (_ =? _) = false |- _ => apply Z.eqb_neq in H
  | H : (_ <? _) = true |- _ => apply Z.ltb_lt in H
  | H : (_ <? _) = false |- _ => apply Z.ltb_ge in H
  end.

(** Splits along the tests of the occurrences of [tuple_lt]. *)
Ltac tuple_cases :=
  unfold tuple_lt in *;
  repeat match goal with
  | H : context [if negb ?b then _ else _] |- _ => destruct b eqn:?; cbn [negb] in H
  | |- context [if negb ?b then _ else _] => destruct b eqn:?; cbn [negb]
  | H : negb ?b = _ |- _ => destruct b eqn:?; cbn [negb] in H
  | |- negb ?b = _ => destruct b eqn:?; cbn [negb]
  end;
  try discriminate; try reflexivity; tests_to_prop;
  try match goal with
  | |- (_ <? _) = false => apply Z.ltb_ge
  | |- (_ <? _) = true => apply Z.ltb_lt
  end.

Section Order.
Implicit Types a b c : Q * Z * string.

(** The order on the keys is strict ... *)
Lemma tuple_lt_irrefl a : tuple_lt a a = false.
Proof.
  destruct a as [[x y] z]. tuple_cases; try lia; try (exfalso; lra).
  unfold String.ltb.
  replace (String.compare z z) with Eq; [reflexivity |].
  symmetry. now apply String_as_OT.cmp_eq.
Qed.

Lemma tuple_lt_asym a b : tuple_lt a b = true -> tuple_lt b a = false.
Proof.
  destruct a as [[x1 y1] z1], b as [[x2 y2] z2]. intros H.
  tuple_cases; try lra; try lia; try (exfalso; lra).
  now apply str_ltb_asym.
Qed.

(** ... transitive on its complement ... *)
Lemma tuple_le_trans a b c :
  tuple_lt b a = false -> tuple_lt c b = false -> tuple_lt c a = false.
Proof.
  destruct a as [[x1 y1] z1], b as [[x2 y2] z2], c as [[x3 y3] z3]. intros H1 H2.
  tuple_cases; try lra; try lia; try (exfalso; lra).
  eapply str_leb_trans; eassumption.
Qed.

(** ... and total on keys that differ in their last component. *)
Lemma tuple_le_antisym a b :
  tuple_lt a b = false -> tuple_lt b a = false -> snd a = snd b.
Proof.
  destruct a as [[x1 y1] z1], b as [[x2 y2] z2]. intros H1 H2. cbn [snd].
  tuple_cases; try lra; try lia; try (exfalso; lra).
  now apply str_ltb_antisym.
Qed.

End Order.

(** ** Sorting *)

(** [a] may stand before [b] in a sorted list. *)
Definition row_le (a b : row) : Prop := tuple_lt (sort_key b) (sort_key a) = false.

Lemma sort_key_snd (t : row) : snd (sort_key t) = row_key t.
Proof. now destruct t as [[k s] w]. Qed.

Lemma insert_sorted (x : row) (l : list row) :
  StronglySorted row_le l -> StronglySorted row_le (insert x l).
Proof.
  induction 1 as [| y t Ht IH Hy]; simpl.
  - repeat constructor.
  - destruct (tuple_lt (sort_key y) (sort_key x)) eqn:E.
    + constructor; [exact IH |].
      apply Forall_forall. intros z Hz.
      apply (Permutation_in _ (insert_perm x t)) in Hz. destruct Hz as [<- | Hz].
      * now apply tuple_lt_asym.
      * rewrite Forall_forall in Hy. now apply Hy.
    + constructor; [now constructor |].
      constructor; [exact E |].
      apply Forall_forall. intros z Hz. rewrite Forall_forall in Hy.
      exact (tuple_le_trans _ _ _ E (Hy _ Hz)).
Qed.

Lemma sort_rows_sorted (l : list row) : StronglySorted row_le (sort_rows l).
Proof.
  induction l as [| x l IH]; simpl; [constructor | now apply insert_sorted].
Qed.

(** Two sorted lists with the same elements are equal when the order is
    antisymmetric on these elements. *)
Lemma sorted_perm_unique {A} (R : A -> A -> Prop) (l1 l2 : list A) :
  StronglySorted R l1 -> StronglySorted R l2 -> Permutation l1 l2 ->
  (forall a b, In a l1 -> In b l1 -> R a b -> R b a -> a = b) ->
  l1 = l2.
Proof.
  intros H1. revert l2. induction H1 as [| a t1 Ht1 IH Ha]; intros l2 H2 Hp Hanti.
  - now apply Permutation_nil in Hp.
  - destruct H2 as [| b t2 Ht2 Hb].
    + apply Permutation_sym, Permutation_nil in Hp. discriminate.
    + assert (E : a = b).
      { assert (Hain : In a (b :: t2)) by (apply (Permutation_in _ Hp); now left).
        assert (Hbin : In b (a :: t1))
          by (apply (Permutation_in _ (Permutation_sym Hp)); now left).
        destruct Hain as [-> | Hain]; [reflexivity |].
        destruct Hbin as [-> | Hbin]; [reflexivity |].
        rewrite Forall_forall in Ha, Hb.
        apply Hanti; [now left | now right | now apply Ha | now apply Hb]. }
      subst b. f_equal. apply IH.
      * exact Ht2.
      * exact (Permutation_cons_inv Hp).
      * intros x y Hx Hy. apply Hanti; now right.
Qed.

Lemma NoDup_map_In_inj {A B} (f : A -> B) (l : list A) (a b : A) :
  NoDup (map f l) -> In a l -> In b l -> f a = f b -> a = b.
Proof.
  induction l as [| x l IH]; simpl; [tauto |].
  intros Hnd Ha Hb E. inversion Hnd as [| ? ? Hx Hl]; subst.
  destruct Ha as [-> | Ha], Hb as [-> | Hb]; auto.
  - exfalso. apply Hx. rewrite E. now apply in_map.
  - exfalso. apply Hx. rewrite <- E. now apply in_map.
Qed.

(** The sorted list depends on the rows only, not on their order, when the
    keys are unique. *)
Lemma sort_rows_unique (l l' : list row) :
  Permutation l l' -> NoDup (map row_key l) -> sort_rows l = sort_rows l'.
Proof.
  intros Hp Hnd. apply (sorted_perm_unique (R := row_le)); try apply sort_rows_sorted.
  - now rewrite !sort_rows_perm.
  - intros a b Ha Hb Hab Hba. rewrite In_sort_rows in Ha, Hb.
    apply (NoDup_map_In_inj row_key l); auto.
    rewrite <- !sort_key_snd. now apply tuple_le_antisym.
Qed.

Lemma collect_keys_NoDup {A} (f : A -> option row) (key : A -> string) (l : list A) :
  (forall x t, f x = Some t -> row_key t = key x) ->
  NoDup (map key l) -> NoDup (map row_key (collect f l)).
Proof.
  intros Hf. induction l as [| x l IH]; simpl; intros Hnd; [constructor |].
  inversion Hnd as [| ? ? Hx Hl]; subst.
  destruct (f x) as [t |] eqn:E; simpl; [| now apply IH].
  constructor; [| now apply IH].
  rewrite (Hf _ _ E). intros Hin. apply in_map_iff in Hin.
  destruct Hin as [t' [Ht' Hin]]. apply in_collect in Hin.
  destruct Hin as [y [Hy Hfy]]. apply Hx.
  rewrite <- Ht', (Hf _ _ Hfy). now apply in_map.
Qed.

(** ** The indexes as functions of the accepted rows *)

Lemma dict_entries_by_keys {V} (dflt : V) (d : dict V) :
  NoDup (dict_keys d) -> d = map (fun k => (k, dict_get_or k dflt d)) (dict_keys d).
Proof.
  induction d as [| [k v] d IH]; simpl; intros Hnd; [reflexivity |].
  inversion Hnd as [| ? ? Hk Hd]; subst.
  unfold dict_get_or at 1. cbn [dict_get]. rewrite String.eqb_refl. f_equal.
  rewrite (IH Hd) at 1. apply map_ext_in. intros k' Hk'.
  unfold dict_get_or. cbn [dict_get].
  destruct (String.eqb_spec k k'); [now subst | reflexivity].
Qed.

Lemma collect_map {A B C} (f : B -> option C) (h : A -> B) (l : list A) :
  collect f (map h l) = collect (fun x => f (h x)) l.
Proof.
  induction l as [| x l IH]; simpl; [reflexivity | now rewrite IH].
Qed.

Lemma same_elements_perm (l l' : list string) :
  NoDup l -> NoDup l' -> (forall x, In x l <-> In x l') -> Permutation l l'.
Proof. intros. now apply NoDup_Permutation. Qed.

Section Indexes.
Context {FL : PyFloat}.

Lemma movie_names_loaded (rows : list Movie) (d : dict Movie) (n : string) :
  In n (dict_keys (fold_left index_by_name rows d))
  <-> In n (dict_keys d) \/ In n (map name rows).
Proof.
  revert d. induction rows as [| m rows IH]; intros d; simpl; [tauto |].
  rewrite IH. unfold index_by_name at 1. rewrite In_dict_keys_set.
  intuition congruence.
Qed.

Lemma genre_keys_loaded (rows : list Movie) (d : dict (list string)) (g : string) :
  In g (dict_keys (fold_left index_by_genre rows d))
  <-> In g (dict_keys d) \/ In g (map genre rows).
Proof.
  revert d. induction rows as [| m rows IH]; intros d; simpl; [tauto |].
  rewrite IH. unfold index_by_genre at 1. rewrite In_dict_keys_set.
  intuition congruence.
Qed.

Lemma genre_keys_NoDup (rows : list Movie) (d : dict (list string)) :
  NoDup (dict_keys d) -> NoDup (dict_keys (fold_left index_by_genre rows d)).
Proof.
  revert d. induction rows as [| m rows IH]; intros d Hd; [exact Hd |].
  simpl. apply IH. now apply dict_set_NoDup.
Qed.

Lemma genre_sets_NoDup (rows : list Movie) (d : dict (list string)) :
  dict_all (@NoDup string) d ->
  dict_all (@NoDup string) (fold_left index_by_genre rows d).
Proof.
  revert d. induction rows as [| m rows IH]; intros d Hd; [exact Hd |].
  simpl. apply IH. apply dict_all_set; [| exact Hd].
  apply set_add_NoDup. apply dict_all_get_or; [constructor | exact Hd].
Qed.

Lemma genre_members_loaded (rows : list Movie) (d : dict (list string))
    (g nm : string) :
  In nm (dict_get_or g [] (fold_left index_by_genre rows d))
  <-> In nm (dict_get_or g [] d)
      \/ exists m, In m rows /\ genre m = g /\ name m = nm.
Proof.
  revert d. induction rows as [| m rows IH]; intros d.
  - simpl. split; [tauto | intros [H | [m [[] _]]]; exact H].
  - cbn [fold_left]. rewrite IH. unfold index_by_genre at 1.
    rewrite dict_get_or_set. destruct (String.eqb_spec (genre m) g) as [E | Hne].
    + rewrite set_add_In. rewrite E. split.
      * intros [[-> | H] | [m' [Hin H]]].
        -- right. exists m. cbn [In]. auto.
        -- now left.
        -- right. exists m'. cbn [In]. tauto.
      * intros [H | [m' [[<- | Hin] [Hg Hn]]]].
        -- left. now right.
        -- left. now left.
        -- right. now exists m'.
    + split.
      * intros [H | [m' [Hin H]]]; [now left |].
        right. exists m'. cbn [In]. tauto.
      * intros [H | [m' [[<- | Hin] [Hg Hn]]]]; [now left | contradiction |].
        right. now exists m'.
Qed.

Definition row_user (r : string * Q * string) : string := snd r.

Lemma user_keys_loaded (rows : list (string * Q * string)) (d : dict (dict Q))
    (u : string) :
  In u (dict_keys (fold_left record_rating rows d))
  <-> In u (dict_keys d) \/ In u (map row_user rows).
Proof.
  revert d. induction rows as [| [[m r] u'] rows IH]; intros d; simpl; [tauto |].
  rewrite IH. cbn [record_rating]. rewrite In_dict_keys_set.
  unfold row_user at 1. cbn [snd]. intuition congruence.
Qed.

Lemma user_keys_NoDup (rows : list (string * Q * string)) (d : dict (dict Q)) :
  NoDup (dict_keys d) -> NoDup (dict_keys (fold_left record_rating rows d)).
Proof.
  revert d. induction rows as [| [[m r] u] rows IH]; intros d Hd; [exact Hd |].
  simpl. apply IH. now apply dict_set_NoDup.
Qed.

Lemma ratings_keys_NoDup (known : dict Movie) (ur : dict (dict Q)) :
  NoDup (dict_keys (build_ratings_by_movie known ur)).
Proof.
  unfold build_ratings_by_movie.
  assert (H : NoDup (dict_keys (@nil (string * list Q)))) by constructor.
  revert H. generalize (@nil (string * list Q)).
  induction ur as [| [u pu] ur IH]; intros d Hd; [exact Hd |].
  cbn [fold_left]. apply IH. unfold index_user. cbn [snd].
  clear IH. revert d Hd. induction pu as [| [m r] pu IHpu]; intros d Hd; [exact Hd |].
  cbn [fold_left]. apply IHpu. cbn [index_rating].
  destruct (dict_mem m known); [now apply dict_set_NoDup | exact Hd].
Qed.

Lemma expected_by_keys (ur : dict (dict Q)) (n : string) :
  NoDup (dict_keys ur) ->
  expected_ratings ur n = collect (fun u => lookup_rating ur u n) (dict_keys ur).
Proof.
  intros Hnd. unfold expected_ratings.
  rewrite (dict_entries_by_keys [] ur Hnd) at 1. rewrite collect_map.
  apply collect_ext_in. intros u _. cbn [snd].
  unfold lookup_rating, dict_get_or, dict in *. now destruct (dict_get u ur).
Qed.

End Indexes.

(** ** Stores that answer the rankings alike *)

Lemma last_rating_no_match (rows : list (string * Q * string)) (u m : string)
    (acc : option Q) :
  (forall r, In r rows -> same_pair u m r = false) ->
  fold_left (fun acc r => if same_pair u m r then Some (snd (fst r)) else acc) rows acc
  = acc.
Proof.
  revert acc. induction rows as [| r rows IH]; intros acc H; [reflexivity |].
  cbn [fold_left]. rewrite (H r) by now left. apply IH. intros r' Hr'. apply H. now right.
Qed.

Lemma last_rating_match (rows : list (string * Q * string)) (u m : string)
    (x : string * Q * string) (acc : option Q) :
  NoDup (map rating_pair rows) -> In x rows -> same_pair u m x = true ->
  fold_left (fun acc r => if same_pair u m r then Some (snd (fst r)) else acc) rows acc
  = Some (snd (fst x)).
Proof.
  revert acc. induction rows as [| r rows IH]; intros acc Hnd Hin Hx; [destruct Hin |].
  cbn [map] in Hnd. inversion Hnd as [| ? ? Hr Hrows]; subst. cbn [fold_left].
  destruct Hin as [-> | Hin].
  - rewrite Hx. apply last_rating_no_match. intros r' Hr'.
    destruct (same_pair u m r') eqn:E; [| reflexivity].
    exfalso. apply Hr. apply same_pair_true in Hx, E. rewrite Hx, <- E. now apply in_map.
  - now apply IH.
Qed.

Lemma last_rating_perm (rows rows' : list (string * Q * string)) (u m : string) :
  Permutation rows rows' -> NoDup (map rating_pair rows) ->
  last_rating rows u m = last_rating rows' u m.
Proof.
  intros Hp Hnd. unfold last_rating.
  assert (Hnd' : NoDup (map rating_pair rows')).
  { eapply Permutation_NoDup; [apply Permutation_map, Hp | exact Hnd]. }
  destruct (existsb (same_pair u m) rows) eqn:E.
  - apply existsb_exists in E. destruct E as [x [Hin Hx]].
    rewrite (@last_rating_match rows u m x None Hnd Hin Hx).
    symmetry. apply last_rating_match; auto. exact (Permutation_in _ Hp Hin).
  - assert (H : forall r, In r rows -> same_pair u m r = false).
    { intros r Hr. destruct (same_pair u m r) eqn:E'; [| reflexivity].
      rewrite <- E. symmetry. apply existsb_exists. now exists r. }
    rewrite !last_rating_no_match; auto.
    intros r Hr. apply H. exact (Permutation_in _ (Permutation_sym Hp) Hr).
Qed.

Section Similar.
Context {FL : PyFloat}.

(** The part of two stores that the rankings read is the same up to the
    order of the dicts, of the sets and of the lists of ratings. *)
Record similar (s s' : DataStore) : Prop := {
  sim_ratings : forall n,
    Permutation (dict_get_or n [] (ratings_by_movie s))
                (dict_get_or n [] (ratings_by_movie s'));
  sim_rated : Permutation (dict_keys (ratings_by_movie s))
                          (dict_keys (ratings_by_movie s'));
  sim_rated_unique : NoDup (dict_keys (ratings_by_movie s));
  sim_genres : Permutation (dict_keys (movies_by_genre s))
                           (dict_keys (movies_by_genre s'));
  sim_genres_unique : NoDup (dict_keys (movies_by_genre s));
  sim_genres_unique' : NoDup (dict_keys (movies_by_genre s'));
  sim_members : forall g,
    Permutation (dict_get_or g [] (movies_by_genre s))
                (dict_get_or g [] (movies_by_genre s'));
  sim_members_unique : forall g, NoDup (dict_get_or g [] (movies_by_genre s))
}.

Lemma mean_row_perm {K} (k : K) (l l' : list Q) :
  Permutation l l' ->
  match l with [] => None | _ => Some (k, fmean l, len l) end
  = match l' with [] => None | _ => Some (k, fmean l', len l') end.
Proof.
  intros Hp. destruct l as [| x l], l' as [| x' l'].
  - reflexivity.
  - now apply Permutation_nil in Hp.
  - now apply Permutation_sym, Permutation_nil in Hp.
  - unfold len. now rewrite (fmean_perm Hp), (Permutation_length Hp).
Qed.

Lemma movie_row_similar (s s' : DataStore) (x : string) :
  similar s s' -> movie_row s x = movie_row s' x.
Proof.
  intros H. unfold movie_row.
  pose proof (mean_row_perm x (sim_ratings H x)) as E.
  destruct (dict_get_or x [] (ratings_by_movie s)),
           (dict_get_or x [] (ratings_by_movie s')); exact E.
Qed.

Lemma average_of_similar (s s' : DataStore) (x : string) :
  similar s s' -> average_of s x = average_of s' x.
Proof.
  intros H. pose proof (movie_row_similar x H) as E. unfold movie_row, average_of in *.
  destruct (dict_get_or x [] (ratings_by_movie s)),
           (dict_get_or x [] (ratings_by_movie s')); congruence.
Qed.

Lemma genre_row_similar (s s' : DataStore) (g : string) (names names' : list string) :
  similar s s' -> Permutation names names' ->
  genre_row s (g, names) = genre_row s' (g, names').
Proof.
  intros H Hp. unfold genre_row. cbn [fst snd].
  assert (Hc : Permutation (collect (average_of s) names)
                           (collect (average_of s') names')).
  { rewrite (collect_ext_in (average_of s) (average_of s') names)
      by (intros; now apply average_of_similar).
    now apply collect_perm. }
  pose proof (mean_row_perm g Hc) as E.
  destruct (collect (average_of s) names), (collect (average_of s') names'); exact E.
Qed.

Lemma movie_row_key (s : DataStore) (x : string) (t : row) :
  movie_row s x = Some t -> row_key t = x.
Proof.
  unfold movie_row. destruct (dict_get_or x [] (ratings_by_movie s)); [discriminate |].
  now intros [= <-].
Qed.

Lemma genre_row_key (s : DataStore) (e : string * list string) (t : row) :
  genre_row s e = Some t -> row_key t = fst e.
Proof.
  unfold genre_row. destruct (collect (average_of s) (snd e)); [discriminate |].
  now intros [= <-].
Qed.

Lemma movie_ranking_similar (s s' : DataStore) (n : option Z) (l l' : list string) :
  similar s s' -> Permutation l l' -> NoDup l ->
  limit n (sort_rows (collect (movie_row s) l))
  = limit n (sort_rows (collect (movie_row s') l')).
Proof.
  intros H Hp Hnd. f_equal. apply sort_rows_unique.
  - rewrite (collect_ext_in (movie_row s) (movie_row s') l)
      by (intros; now apply movie_row_similar).
    now apply collect_perm.
  - apply (collect_keys_NoDup (movie_row s) (fun x => x));
      [apply movie_row_key | now rewrite map_id].
Qed.

Lemma rankings_similar (s s' : DataStore) (g : string) (n : option Z) :
  similar s s' ->
  eval (rank_movies_by_average None n) s = eval (rank_movies_by_average None n) s' /\
  eval (rank_movies_in_genre g n) s = eval (rank_movies_in_genre g n) s' /\
  eval (rank_genres_by_popularity n) s = eval (rank_genres_by_popularity n) s'.
Proof.
  intros H.
  rewrite !rank_movies_by_average_eval, !rank_movies_in_genre_eval,
    !rank_genres_by_popularity_eval.
  split; [| split].
  - apply movie_ranking_similar; [exact H | apply (sim_rated H) | apply (sim_rated_unique H)].
  - apply movie_ranking_similar;
      [exact H | apply (sim_members H) | apply (sim_members_unique H)].
  - f_equal.
    rewrite (dict_entries_by_keys [] _ (sim_genres_unique H)) at 1.
    rewrite (dict_entries_by_keys [] _ (sim_genres_unique' H)) at 1.
    rewrite !collect_map. apply sort_rows_unique.
    + rewrite (collect_ext_in
                 (fun x => genre_row s (x, dict_get_or x [] (movies_by_genre s)))
                 (fun x => genre_row s' (x, dict_get_or x [] (movies_by_genre s')))).
      * apply collect_perm, (sim_genres H).
      * intros x _. apply genre_row_similar; [exact H | apply (sim_members H)].
    + apply (collect_keys_NoDup _ (fun x => x));
        [| rewrite map_id; apply (sim_genres_unique H)].
      intros x t Ht. now apply genre_row_key in Ht.
Qed.

End Similar.

(** ** Rankings do not depend on the order of the rows *)

Section RowOrder.
Context {FL : PyFloat}.

(** The store after loadMovies then loadRatings. *)
Definition load_both (movies ratings : list string) : St Z :=
  _ <- load_movies_file movies ;; load_ratings_file ratings.

Lemma load_both_run (movies ratings : list string) (s0 : DataStore) :
  exec (load_both movies ratings) s0
  = let known := fold_left index_by_name (accepted_movies movies) [] in
    {| movies_by_name := known;
       movies_by_genre := fold_left index_by_genre (accepted_movies movies) [];
       ratings_by_movie := build_ratings_by_movie known (loaded_user_ratings ratings);
       user_ratings := loaded_user_ratings ratings |}.
Proof.
  unfold load_both, exec, bind.
  now rewrite load_movies_file_run, load_ratings_file_run.
Qed.

Lemma dict_mem_same {V W} (d : dict V) (d' : dict W) (k : string) :
  (In k (dict_keys d) <-> In k (dict_keys d')) -> dict_mem k d = dict_mem k d'.
Proof.
  rewrite <- !dict_mem_In. destruct (dict_mem k d), (dict_mem k d'); intuition congruence.
Qed.

Lemma rated_key_iff (d : dict (list Q)) (n : string) :
  dict_all rated_list d -> (In n (dict_keys d) <-> dict_get_or n [] d <> []).
Proof.
  intros Hd. rewrite <- dict_mem_In. unfold dict_mem, dict_get_or.
  destruct (dict_get n d) as [l |] eqn:E.
  - split; [intros _ | reflexivity]. exact (proj1 (dict_all_get _ Hd E)).
  - split; [discriminate | congruence].
Qed.

Lemma loaded_ratings_range (lines : list string) :
  dict_all (dict_all in_range) (loaded_user_ratings lines).
Proof. apply record_ratings_range; [apply accepted_ratings_range | constructor]. Qed.

Lemma loaded_index_perm (known known' : dict Movie) (ratings ratings' : list string)
    (n : string) :
  (forall x, In x (dict_keys known) <-> In x (dict_keys known')) ->
  Permutation ratings ratings' ->
  NoDup (map rating_pair (accepted_ratings ratings)) ->
  Permutation
    (dict_get_or n [] (build_ratings_by_movie known (loaded_user_ratings ratings)))
    (dict_get_or n [] (build_ratings_by_movie known' (loaded_user_ratings ratings'))).
Proof.
  intros Hknown Hp Hnd. unfold build_ratings_by_movie.
  rewrite !index_user_get by apply loaded_user_ratings_unique. cbn [app].
  rewrite (dict_mem_same known known' n (Hknown n)).
  destruct (dict_mem n known'); [| reflexivity].
  assert (Hrows : Permutation (accepted_ratings ratings) (accepted_ratings ratings'))
    by now apply collect_perm.
  unfold loaded_user_ratings.
  rewrite !expected_by_keys by (apply user_keys_NoDup; constructor).
  rewrite (collect_ext_in _
             (fun u => lookup_rating (fold_left record_rating (accepted_ratings ratings') []) u n)).
  - apply collect_perm, same_elements_perm; try (apply user_keys_NoDup; constructor).
    intros u. rewrite !user_keys_loaded.
    split; (intros [H | H]; [now left | right]);
      [exact (Permutation_in _ (Permutation_map _ Hrows) H)
      | exact (Permutation_in _ (Permutation_sym (Permutation_map _ Hrows)) H)].
  - intros u _. rewrite !lookup_record_ratings.
    exact (last_rating_perm u n Hrows Hnd).
Qed.

Lemma loads_similar (movies movies' ratings ratings' : list string) (s0 s0' : DataStore) :
  Permutation movies movies' -> Permutation ratings ratings' ->
  NoDup (map rating_pair (accepted_ratings ratings)) ->
  similar (exec (load_both movies ratings) s0) (exec (load_both movies' ratings') s0').
Proof.
  intros Hm Hr Hnd. rewrite !load_both_run. cbv zeta.
  assert (Hrows : Permutation (accepted_movies movies) (accepted_movies movies'))
    by now apply collect_perm.
  assert (Hknown : forall x,
    In x (dict_keys (fold_left index_by_name (accepted_movies movies) []))
    <-> In x (dict_keys (fold_left index_by_name (accepted_movies movies') []))).
  { intros x. rewrite !movie_names_loaded.
    split; (intros [H | H]; [now left | right]);
      [exact (Permutation_in _ (Permutation_map _ Hrows) H)
      | exact (Permutation_in _ (Permutation_sym (Permutation_map _ Hrows)) H)]. }
  pose proof (fun n => loaded_index_perm _ _ n Hknown Hr Hnd) as Hidx.
  constructor; cbn [ratings_by_movie movies_by_genre].
  - exact Hidx.
  - apply same_elements_perm; try apply ratings_keys_NoDup.
    intros n.
    rewrite !rated_key_iff
      by (apply build_ratings_by_movie_range, loaded_ratings_range).
    split; intros H E; apply H.
    + specialize (Hidx n). rewrite E in Hidx.
      now apply Permutation_sym, Permutation_nil in Hidx.
    + specialize (Hidx n). rewrite E in Hidx. now apply Permutation_nil in Hidx.
  - apply ratings_keys_NoDup.
  - apply same_elements_perm; try (apply genre_keys_NoDup; constructor).
    intros g. rewrite !genre_keys_loaded.
    split; (intros [H | H]; [now left | right]);
      [exact (Permutation_in _ (Permutation_map _ Hrows) H)
      | exact (Permutation_in _ (Permutation_sym (Permutation_map _ Hrows)) H)].
  - apply genre_keys_NoDup; constructor.
  - apply genre_keys_NoDup; constructor.
  - intros g.
    apply same_elements_perm;
      try (apply dict_all_get_or; [constructor | apply genre_sets_NoDup; constructor]).
    intros nm. rewrite !genre_members_loaded.
    split; (intros [H | [m [Hin Hgn]]]; [now left | right; exists m; split; [| exact Hgn]]);
      [exact (Permutation_in _ Hrows Hin)
      | exact (Permutation_in _ (Permutation_sym Hrows) Hin)].
  - intros g. apply dict_all_get_or; [constructor | apply genre_sets_NoDup; constructor].
Qed.

(** C8: two movies files and two ratings files whose rows are permutations
    of each other, with unique movie names and at most one row for a
    (user, movie) pair, give the same topMovies, topMoviesInGenre and
    topGenres, row for row and for every limit; the comparator of the
    ranker orders rows with different keys strictly. *)
Theorem rankings_invariant_under_row_order
    (movies movies' ratings ratings' : list string) (g : string) (n : option Z) :
  Permutation movies movies' ->
  Permutation ratings ratings' ->
  NoDup (map name (accepted_movies movies)) ->
  NoDup (map rating_pair (accepted_ratings ratings)) ->
  let s := exec (load_both movies ratings) init in
  let s' := exec (load_both movies' ratings') init in
  (eval (rank_movies_by_average None n) s = eval (rank_movies_by_average None n) s' /\
   eval (rank_movies_in_genre g n) s = eval (rank_movies_in_genre g n) s' /\
   eval (rank_genres_by_popularity n) s = eval (rank_genres_by_popularity n) s') /\
  (forall a b : row,
     row_key a <> row_key b ->
     tuple_lt (sort_key a) (sort_key b) = negb (tuple_lt (sort_key b) (sort_key a))) /\
  (forall a b c : row,
     tuple_lt (sort_key a) (sort_key b) = true ->
     tuple_lt (sort_key b) (sort_key c) = true ->
     tuple_lt (sort_key a) (sort_key c) = true).
Proof.
  intros Hm Hr _ Hnd s s'. split; [| split].
  - apply rankings_similar. now apply loads_similar.
  - intros a b Hne.
    destruct (tuple_lt (sort_key a) (sort_key b)) eqn:Hab.
    + now rewrite (tuple_lt_asym _ _ Hab).
    + destruct (tuple_lt (sort_key b) (sort_key a)) eqn:Hba; [reflexivity |].
      exfalso. apply Hne. rewrite <- !sort_key_snd. now apply tuple_le_antisym.
  - intros a b c Hab Hbc.
    destruct (tuple_lt (sort_key a) (sort_key c)) eqn:Hac; [reflexivity |].
    pose proof (tuple_le_trans _ _ _ Hac (tuple_lt_asym _ _ Hab)) as H.
    congruence.
Qed.

End RowOrder.

(** ** The genre index and the movies index *)

Section GenreIndex.
Context {FL : PyFloat}.

(** Every name filed under a genre is a movie of that genre. *)
Definition genre_index_consistent (s : DataStore) : Prop :=
  forall g nm,
    In nm (dict_get_or g [] (movies_by_genre s)) ->
    exists m, dict_get nm (movies_by_name s) = Some m /\ genre m = g.

Lemma movies_loaded_get (rows : list Movie) (d : dict Movie) (nm : string) (m : Movie) :
  NoDup (map name rows) ->
  (forall m', In m' rows -> ~ In (name m') (dict_keys d)) ->
  dict_get nm (fold_left index_by_name rows d) = Some m
  <-> dict_get nm d = Some m \/ (In m rows /\ name m = nm).
Proof.
  revert d. induction rows as [| m0 rows IH]; intros d Hnd Hfresh.
  - simpl. tauto.
  - cbn [map] in Hnd. inversion Hnd as [| ? ? Hm0 Hrows]; subst.
    cbn [fold_left]. rewrite IH; [| exact Hrows |].
    + unfold index_by_name. rewrite dict_get_set. cbn [In].
      destruct (String.eqb_spec (name m0) nm) as [E | Hne].
      * assert (Hd : dict_get nm d = None).
        { apply dict_get_None. rewrite <- E. apply Hfresh. now left. }
        rewrite Hd. split.
        -- intros [[= <-] | H]; [now right; split; [left |] | right; tauto].
        -- intros [H | [[<- | H] Hn]]; [discriminate | now left | now right].
      * split.
        -- intros [H | H]; [now left | right; tauto].
        -- intros [H | [[<- | H] Hn]]; [now left | contradiction | now right].
    + intros m' Hm'. unfold index_by_name. rewrite In_dict_keys_set.
      intros [E | H].
      * apply Hm0. rewrite <- E. now apply in_map.
      * apply (Hfresh m'); [now right | exact H].
Qed.

(** With unique movie names the genre index is the one derived from the
    movies index. *)
Lemma load_movies_consistent (lines : list string) (s : DataStore) :
  NoDup (map name (accepted_movies lines)) ->
  genre_index_consistent (exec (load_movies_file lines) s).
Proof.
  intros Hnd g nm. unfold exec. rewrite load_movies_file_run.
  cbn [snd movies_by_genre movies_by_name]. rewrite genre_members_loaded.
  intros [[] | [m [Hin [Hg Hn]]]]. exists m. split; [| exact Hg].
  apply movies_loaded_get; auto.
Qed.

(** On a consistent store topMoviesInGenre stays in its genre. *)
Lemma rank_movies_in_genre_consistent (s : DataStore) (g : string) (n : option Z)
    (t : row) :
  genre_index_consistent s ->
  In t (eval (rank_movies_in_genre g n) s) ->
  exists m, dict_get (row_key t) (movies_by_name s) = Some m /\ genre m = g.
Proof.
  intros Hs. rewrite rank_movies_in_genre_eval. intros Ht.
  apply In_limit in Ht. rewrite In_sort_rows in Ht.
  apply in_collect in Ht. destruct Ht as [nm [Hin Hrow]].
  rewrite (movie_row_key _ _ Hrow). now apply Hs.
Qed.

End GenreIndex.

(** ** The tests of the repository

    The fixtures of [test_movie_recommender.py] and the values that its
    checks expect, with the float library [ExactFloat]. *)

Definition movies_good : list string := [
  "# genre|movie_id|movie_name";
  "Action|m1|Alpha (2001)";
  "Action|m2|Bravo (1999)";
  "Drama|m3|Charlie (2010)";
  "Drama|m4|Delta (2011)";
  "Comedy|m5|Echo (2005)";
  "Comedy|m6|Foxtrot (2007)" ].

Definition ratings_good : list string := [
  "# movie_name|rating|user_id";
  "Alpha (2001)|5|u1";
  "Alpha (2001)|4|u2";
  "Bravo (1999)|2|u1";
  "Bravo (1999)|4|u1   # overwrite u1's rating to 4 (last wins)";
  "Bravo (1999)|4|u3";
  "Charlie (2010)|5|u1";
  "Charlie (2010)|5|u2";
  "Charlie (2010)|1|u3";
  "Delta (2011)|3|u2";
  "Foxtrot (2007)|4|u2";
  "Foxtrot (2007)|5|u3";
  "Ghost (2012)|5|u1   # not in movies file" ].

Definition ratings_bad : list string := [
  "# Bad rows:";
  "NotEnough|Fields";
  "Xray (2000)|not_a_number|u1";
  "Xray (2000)|6|u2            # out of range (>5)";
  "# Good rows:";
  "Xray (2000)|4|u1";
  "Xray (2000)|5|u3";
  "Yankee (2001)|3|u2" ].

Definition store_good : DataStore := exec (load_both movies_good ratings_good) init.

Example good_loaded_rows :
  eval (load_movies_file movies_good) init = 6 /\
  eval (load_ratings_file ratings_good) init = 11 /\
  eval (load_ratings_file ratings_bad) init = 3.
Proof. vm_compute. auto. Qed.

Example good_top_movies :
  eval (rank_movies_by_average None None) store_good
  = [ ("Alpha (2001)", (9 # 2)%Q, 2); ("Foxtrot (2007)", (9 # 2)%Q, 2);
      ("Bravo (1999)", (4 # 1)%Q, 2); ("Charlie (2010)", (11 # 3)%Q, 3);
      ("Delta (2011)", (3 # 1)%Q, 1) ].
Proof. vm_compute. reflexivity. Qed.

Example good_top_action :
  eval (rank_movies_in_genre "Action" None) store_good
  = [ ("Alpha (2001)", (9 # 2)%Q, 2); ("Bravo (1999)", (4 # 1)%Q, 2) ].
Proof. vm_compute. reflexivity. Qed.

Example good_top_genres :
  eval (rank_genres_by_popularity None) store_good
  = [ ("Comedy", (9 # 2)%Q, 1); ("Action", (17 # 4)%Q, 2); ("Drama", (10 # 3)%Q, 2) ].
Proof. vm_compute. reflexivity. Qed.

Example good_user_top_genre :
  eval (user_top_genre "u1") store_good = Some ("Drama", (5 # 1)%Q, 1) /\
  eval (user_top_genre "u2") store_good = Some ("Drama", (4 # 1)%Q, 2) /\
  eval (user_top_genre "who") init = None.
Proof. vm_compute. auto. Qed.

Example good_recommendations :
  eval (recommend_for_user "u1" 3) store_good = [ (("Delta (2011)", (3 # 1)%Q, 1), "Drama") ] /\
  eval (recommend_for_user "u2" 3) store_good = [] /\
  eval (recommend_for_user "who" 3) init = [].
Proof. vm_compute. auto. Qed.

(** ** Where the code and the specification part *)

(** A session that loads the movies again after the ratings. *)
Definition reload_session : list op :=
  [ LoadMovies ["Action|m1|Alpha"]; LoadRatings ["Alpha|5|u1"]; LoadMovies [] ].

(** ratingsByMovie keeps the ratings of a movie that the movies index has
    lost: the invariant of C1 does not hold against the current index. *)
Lemma ratings_index_stale_after_reload :
  let s := exec (run_ops reload_session) init in
  ~ ratings_index_for (movies_by_name s) s.
Proof.
  intros s H. destruct (H "Alpha") as [_ Hkey].
  vm_compute in Hkey. specialize (Hkey eq_refl). discriminate.
Qed.

(** A movies file that names the same movie under two genres. *)
Definition movies_regenred : list string :=
  [ "Action|m1|Alpha"; "Drama|m1|Alpha" ].

(** C2 at that file: the movie is a Drama in moviesByName and is still
    filed under Action in moviesByGenre. *)
Theorem stale_genre_entry_after_duplicate_name :
  let s := exec (load_movies_file movies_regenred) init in
  option_map genre (dict_get "Alpha" (movies_by_name s)) = Some "Drama" /\
  dict_get "Action" (movies_by_genre s) = Some ["Alpha"] /\
  ~ genre_index_consistent s.
Proof.
  intros s. split; [reflexivity | split; [reflexivity |]].
  intros H. destruct (H "Action" "Alpha") as [m [Hm Hg]].
  - vm_compute. now left.
  - vm_compute in Hm. injection Hm as <-. discriminate.
Qed.

(** C3 at that file, with one rating: topMoviesInGenre("Action") returns a
    movie that moviesByName holds as a Drama. *)
Theorem top_movies_in_genre_returns_other_genre :
  let s := exec (load_both movies_regenred ["Alpha|5|u1"]) init in
  eval (rank_movies_in_genre "Action" None) s = [ ("Alpha", (5 # 1)%Q, 1) ] /\
  option_map genre (dict_get "Alpha" (movies_by_name s)) = Some "Drama".
Proof. vm_compute. auto. Qed.

(** Two rated movies. *)
Definition store_two : DataStore :=
  exec (load_both ["Action|m1|Alpha"; "Action|m2|Bravo"]
                  ["Alpha|5|u1"; "Bravo|4|u1"]) init.

(** topMovies(-1) is not empty: the claim of C4 fails for a negative limit. *)
Lemma negative_limit_not_empty :
  -1 <= 0 /\ eval (rank_movies_by_average None (Some (-1))) store_two <> [].
Proof. split; [lia | vm_compute; discriminate]. Qed.

Lemma nonpositive_limit_is_slice_witness :
  -1 <= 0 /\
  eval (rank_movies_by_average None (Some (-1))) store_two
  = cut_from_end (-1) (eval (rank_movies_by_average None None) store_two).
Proof.
  split; [lia |].
  apply (proj1 (@nonpositive_limit_is_slice ExactFloat store_two "Action" (-1)
                  ltac:(lia))).
Defined.

(** A user whose top genre has a movie that the user has not rated. *)
Definition store_drama : DataStore :=
  exec (load_both ["Drama|m3|Charlie"; "Drama|m4|Delta"]
                  ["Charlie|5|u1"; "Delta|3|u2"]) init.

(** C5 at that store, for k = 0: recommend("u1", 0) returns one row, the
    first movie of the genre that [u1] has not rated, where "up to k movies"
    allows none. *)
Theorem recommend_zero_limit_returns_a_row :
  eval (recommend_for_user "u1" 0) store_drama = [ (("Delta", (3 # 1)%Q, 1), "Drama") ] /\
  ~ (len (eval (recommend_for_user "u1" 0) store_drama) <= 0).
Proof.
  split; [vm_compute; reflexivity |].
  vm_compute. intros H. now apply H.
Qed.

Lemma recommend_bounded_witness :
  1 <= 3 /\ len (eval (recommend_for_user "u1" 3) store_drama) <= 3.
Proof.
  split; [lia |].
  apply (proj1 (proj2 (@recommend_unrated_ordered_bounded ExactFloat store_drama "u1" 3))).
  lia.
Defined.

Lemma mean_rating_witness :
  exists a,
    eval (movie_average_rating "Alpha") (exec (run_ops reload_session) init) = Some a /\
    a = fmean [5 # 1]%Q /\
    (Qabs (a - Qmean [5 # 1]) <= 1 # 1000000)%Q.
Proof.
  apply (proj2 (@mean_rating_absent_or_mean ExactFloat reload_session "Alpha")
           [5 # 1]%Q).
  - reflexivity.
  - discriminate.
Defined.

Lemma rankings_invariant_witness :
  let movies := ["Action|m1|Alpha"; "Drama|m2|Bravo"] in
  let movies' := ["Drama|m2|Bravo"; "Action|m1|Alpha"] in
  let ratings := ["Alpha|5|u1"; "Bravo|4|u1"] in
  let ratings' := ["Bravo|4|u1"; "Alpha|5|u1"] in
  Permutation movies movies' /\ Permutation ratings ratings' /\
  NoDup (map name (accepted_movies movies)) /\
  NoDup (map rating_pair (accepted_ratings ratings)) /\
  eval (rank_genres_by_popularity None) (exec (load_both movies ratings) init)
  = eval (rank_genres_by_popularity None) (exec (load_both movies' ratings') init).
Proof.
  intros movies movies' ratings ratings'.
  assert (Hm : Permutation movies movies') by apply perm_swap.
  assert (Hr : Permutation ratings ratings') by apply perm_swap.
  assert (Hn : NoDup (map name (accepted_movies movies))).
  { vm_compute. repeat constructor; simpl; intuition discriminate. }
  assert (Hp : NoDup (map rating_pair (accepted_ratings ratings))).
  { vm_compute. repeat constructor; simpl; intuition discriminate. }
  repeat (split; [assumption |]).
  apply (@rankings_invariant_under_row_order ExactFloat movies movies' ratings ratings'
           "Action" None Hm Hr Hn Hp).
Defined.

(** ** Lines, comments and fields *)

Lemma append_empty_r (s : string) : (s ++ "")%string = s.
Proof. induction s as [| c s IH]; simpl; [reflexivity | now rewrite IH]. Qed.

Lemma split1_head_absent (c : ascii) (s : string) : contains c (split1_head c s) = false.
Proof.
  induction s as [| c' s IH]; simpl; [reflexivity |].
  destruct (Ascii.eqb c' c) eqn:E; simpl; [reflexivity | now rewrite E].
Qed.

Lemma split1_head_id (c : ascii) (s : string) :
  contains c s = false -> split1_head c s = s.
Proof.
  induction s as [| c' s IH]; simpl; [reflexivity |].
  destruct (Ascii.eqb c' c); simpl; [discriminate |].
  intros H. now rewrite IH.
Qed.

Lemma split1_head_prefix (c : ascii) (s : string) :
  contains c s = true ->
  exists t, s = (split1_head c s ++ String c t)%string.
Proof.
  induction s as [| c' s IH]; simpl; [discriminate |].
  destruct (Ascii.eqb_spec c' c) as [-> | Hne]; simpl.
  - intros _. now exists s.
  - intros H. destruct (IH H) as [t Ht]. exists t. now rewrite <- Ht.
Qed.

Lemma split1_head_append (c : ascii) (s t : string) :
  contains c s = false -> split1_head c (s ++ String c t)%string = s.
Proof.
  induction s as [| c' s IH]; simpl.
  - now rewrite Ascii.eqb_refl.
  - destruct (Ascii.eqb c' c); simpl; [discriminate |].
    intros H. now rewrite IH.
Qed.

Lemma contains_append (c : ascii) (s t : string) :
  contains c (s ++ String c t)%string = true.
Proof.
  induction s as [| c' s IH]; simpl.
  - now rewrite Ascii.eqb_refl.
  - rewrite IH. apply orb_true_r.
Qed.

Lemma strip_inline_comment_absent (line : string) :
  contains "#" (_strip_inline_comment line) = false.
Proof.
  unfold _strip_inline_comment. destruct (contains "#" line) eqn:E;
    [apply split1_head_absent | exact E].
Qed.

(** X1: what [_strip_inline_comment] returns holds no [#] and is the line up
    to its first [#]: the line itself when it has none, and otherwise the
    line is the result, a [#] and the comment. *)
Theorem strip_inline_comment_cuts_at_first_hash (line : string) :
  contains "#" (_strip_inline_comment line) = false /\
  (_strip_inline_comment line = line \/
   exists comment,
     line = (_strip_inline_comment line ++ String "#" comment)%string).
Proof.
  unfold _strip_inline_comment. destruct (contains "#" line) eqn:E.
  - split; [apply split1_head_absent |]. right. now apply split1_head_prefix.
  - split; [exact E | now left].
Qed.

Lemma strip_inline_comment_append (s comment : string) :
  contains "#" s = false ->
  _strip_inline_comment (s ++ String "#" comment)%string = _strip_inline_comment s.
Proof.
  intros H. unfold _strip_inline_comment.
  rewrite contains_append, H. now apply split1_head_append.
Qed.

Section Comments.
Context {FL : PyFloat}.

(** X2: a comment at the end of a line changes nothing to what the two
    loaders read in it. *)
Theorem inline_comment_is_ignored (s comment : string) :
  contains "#" s = false ->
  parse_movie_line (s ++ String "#" comment)%string = parse_movie_line s /\
  parse_rating_line (s ++ String "#" comment)%string = parse_rating_line s.
Proof.
  intros H. unfold parse_movie_line, parse_rating_line.
  now rewrite (@strip_inline_comment_append s comment H).
Qed.

End Comments.

Lemma inline_comment_is_ignored_witness :
  contains "#" "Action|m1|Alpha" = false /\
  parse_movie_line "Action|m1|Alpha# the first" = parse_movie_line "Action|m1|Alpha".
Proof.
  split; [reflexivity |].
  apply (proj1 (@inline_comment_is_ignored ExactFloat "Action|m1|Alpha" " the first"
                  eq_refl)).
Defined.

Lemma split_not_nil (c : ascii) (s : string) : split c s <> [].
Proof.
  induction s as [| c' s IH]; simpl; [discriminate |].
  destruct (Ascii.eqb c' c); [discriminate |].
  destruct (split c s); [contradiction | discriminate].
Qed.

(** A part of [s.split(c)] holds no [c], and no character that [s] has not. *)
Lemma split_parts_absent (c d : ascii) (s p : string) :
  In p (split c s) ->
  contains c p = false /\ (contains d s = false -> contains d p = false).
Proof.
  revert p. induction s as [| c' s IH]; simpl; intros p.
  - intros [<- | []]. now split.
  - destruct (Ascii.eqb c' c) eqn:E.
    + intros [<- | Hin]; [now split |].
      destruct (IH p Hin) as [H1 H2]. split; [exact H1 |].
      intros H. apply orb_false_iff in H. now apply H2.
    + pose proof (split_not_nil c s) as Hne.
      destruct (split c s) as [| q qs]; [contradiction |].
      intros [<- | Hin].
      * destruct (IH q (or_introl eq_refl)) as [H1 H2]. simpl. rewrite E, H1. split;
          [reflexivity |].
        intros H. apply orb_false_iff in H. destruct H as [Hd Hs].
        now rewrite Hd, (H2 Hs).
      * destruct (IH p (or_intror Hin)) as [H1 H2]. split; [exact H1 |].
        intros H. apply orb_false_iff in H. now apply H2.
Qed.

Lemma contains_app (d : ascii) (s t : string) :
  contains d (s ++ t)%string = contains d s || contains d t.
Proof.
  induction s as [| c s IH]; simpl; [reflexivity |].
  now rewrite IH, orb_assoc.
Qed.

Lemma append_assoc (s t u : string) : ((s ++ t) ++ u)%string = (s ++ (t ++ u))%string.
Proof. induction s as [| c s IH]; simpl; [reflexivity | now rewrite IH]. Qed.

Lemma string_length_ind (P : string -> Prop) :
  (forall s, (forall t, (String.length t < String.length s)%nat -> P t) -> P s) ->
  forall s, P s.
Proof.
  intros H s. remember (String.length s) as n eqn:E. revert s E.
  induction n as [n IH] using lt_wf_ind. intros s ->.
  apply H. intros t Ht. exact (IH _ Ht t eq_refl).
Qed.

(** [skip_space] takes one to three bytes off the string. *)
Lemma skip_space_token (s r : string) :
  skip_space s = Some r ->
  exists token, s = (token ++ r)%string /\ (String.length r < String.length s)%nat.
Proof.
  destruct s as [| a [| b [| c t]]]; cbn [skip_space]; try discriminate.
  - destruct (is_space1 a); [| discriminate].
    intros [= <-]. exists (String a ""). split; [reflexivity | simpl; lia].
  - destruct (is_space1 a).
    + intros [= <-]. exists (String a ""). split; [reflexivity | simpl; lia].
    + destruct (is_space2 a b); [| discriminate].
      intros [= <-]. exists (String a (String b "")). split; [reflexivity | simpl; lia].
  - destruct (is_space1 a).
    + intros [= <-]. exists (String a ""). split; [reflexivity | simpl; lia].
    + destruct (is_space2 a b).
      * intros [= <-]. exists (String a (String b "")). split; [reflexivity | simpl; lia].
      * destruct (is_space3 a b c); [| discriminate].
        intros [= <-]. exists (String a (String b (String c ""))).
        split; [reflexivity | simpl; lia].
Qed.

Lemma skip_space_app (p r w : string) :
  skip_space p = Some r -> skip_space (p ++ w)%string = Some (r ++ w)%string.
Proof.
  destruct p as [| a [| b [| c t]]]; cbn [skip_space append]; try discriminate.
  - destruct (is_space1 a); [| discriminate]. now intros [= <-].
  - destruct (is_space1 a); [now intros [= <-] |].
    destruct (is_space2 a b); [| discriminate]. now intros [= <-].
  - destruct (is_space1 a); [now intros [= <-] |].
    destruct (is_space2 a b); [now intros [= <-] |].
    destruct (is_space3 a b c); [| discriminate]. now intros [= <-].
Qed.

Lemma lstrip_unfold (s : string) :
  lstrip s = match skip_space s with Some r => lstrip r | None => s end.
Proof.
  destruct s as [| a [| b [| c t]]]; cbn [lstrip skip_space]; try reflexivity.
  - now destruct (is_space1 a).
  - destruct (is_space1 a); [reflexivity |]. now destruct (is_space2 a b).
  - destruct (is_space1 a); [reflexivity |].
    destruct (is_space2 a b); [reflexivity |]. now destruct (is_space3 a b c).
Qed.

Lemma all_space_unfold (s : string) :
  all_space s
  = match s with
    | EmptyString => true
    | String _ _ =>
        match skip_space s with Some r => all_space r | None => false end
    end.
Proof.
  destruct s as [| a [| b [| c t]]]; cbn [all_space skip_space]; try reflexivity.
  - now destruct (is_space1 a).
  - destruct (is_space1 a); [reflexivity |]. now destruct (is_space2 a b).
  - destruct (is_space1 a); [reflexivity |].
    destruct (is_space2 a b); [reflexivity |]. now destruct (is_space3 a b c).
Qed.

Lemma all_space_app (x w : string) :
  all_space x = true -> all_space w = true -> all_space (x ++ w)%string = true.
Proof.
  intros Hx Hw. revert Hx. induction x as [x IH] using string_length_ind.
  rewrite all_space_unfold. destruct x as [| a t]; [intros _; exact Hw |].
  destruct (skip_space (String a t)) as [r |] eqn:E; [| discriminate].
  intros Hr. rewrite all_space_unfold. cbn [append].
  change (String a (t ++ w)%string) with (String a t ++ w)%string.
  rewrite (@skip_space_app _ _ w E).
  destruct (@skip_space_token _ _ E) as [_ [_ Hlen]]. now apply IH.
Qed.

(** [rstrip] takes white space off the end, [lstrip] off the start. *)
Lemma rstrip_decomp (s : string) :
  exists w, s = (rstrip s ++ w)%string /\ all_space w = true.
Proof.
  induction s as [| c t [w [Hw Hall]]].
  - now exists "".
  - cbn [rstrip]. destruct (all_space (String c t)) eqn:E.
    + now exists (String c t).
    + exists w. cbn [append]. now rewrite <- Hw.
Qed.

Lemma lstrip_decomp (s : string) : exists w, s = (w ++ lstrip s)%string.
Proof.
  induction s as [s IH] using string_length_ind. rewrite lstrip_unfold.
  destruct (skip_space s) as [r |] eqn:E; [| now exists ""].
  destruct (@skip_space_token _ _ E) as [token [Hs Hlen]].
  destruct (IH r Hlen) as [w Hw]. exists (token ++ w)%string.
  now rewrite append_assoc, <- Hw.
Qed.

Lemma lstrip_fixed (s : string) : skip_space (lstrip s) = None.
Proof.
  induction s as [s IH] using string_length_ind. rewrite lstrip_unfold.
  destruct (skip_space s) as [r |] eqn:E; [| exact E].
  destruct (@skip_space_token _ _ E) as [_ [_ Hlen]]. now apply IH.
Qed.

Lemma lstrip_id (s : string) : skip_space s = None -> lstrip s = s.
Proof. intros H. now rewrite lstrip_unfold, H. Qed.

Lemma skip_space_rstrip (s : string) :
  skip_space s = None -> skip_space (rstrip s) = None.
Proof.
  intros H. destruct (skip_space (rstrip s)) as [r |] eqn:E; [| reflexivity].
  destruct (rstrip_decomp s) as [w [Hw _]].
  rewrite Hw, (@skip_space_app _ _ w E) in H. discriminate.
Qed.

Lemma rstrip_idem (s : string) : rstrip (rstrip s) = rstrip s.
Proof.
  induction s as [| c t IH]; [reflexivity |].
  cbn [rstrip]. destruct (all_space (String c t)) eqn:E; [reflexivity |].
  cbn [rstrip]. rewrite IH.
  destruct (all_space (String c (rstrip t))) eqn:E'; [| reflexivity].
  destruct (rstrip_decomp t) as [w [Hw Hall]].
  pose proof (@all_space_app _ _ E' Hall) as H. cbn [append] in H.
  rewrite <- Hw in H. congruence.
Qed.

Lemma strip_idem (s : string) : strip (strip s) = strip s.
Proof.
  unfold strip.
  rewrite (lstrip_id (rstrip (lstrip s))) by apply skip_space_rstrip, lstrip_fixed.
  apply rstrip_idem.
Qed.

Lemma lstrip_absent (d : ascii) (s : string) :
  contains d s = false -> contains d (lstrip s) = false.
Proof.
  destruct (lstrip_decomp s) as [w Hw]. rewrite Hw at 1. rewrite contains_app.
  intros H. now apply orb_false_iff in H.
Qed.

Lemma rstrip_absent (d : ascii) (s : string) :
  contains d s = false -> contains d (rstrip s) = false.
Proof.
  destruct (rstrip_decomp s) as [w [Hw _]]. rewrite Hw at 1. rewrite contains_app.
  intros H. now apply orb_false_iff in H.
Qed.

Lemma strip_absent (d : ascii) (s : string) :
  contains d s = false -> contains d (strip s) = false.
Proof. intros H. now apply rstrip_absent, lstrip_absent. Qed.

(** A field that a loader keeps: it has no surrounding space, and neither
    the delimiter nor the comment sign. *)
Definition clean_field (s : string) : Prop :=
  strip s = s /\ contains "|" s = false /\ contains "#" s = false.

Lemma fields_clean (raw : string) (fields : list string) :
  map strip (split "|" (strip (_strip_inline_comment raw))) = fields ->
  Forall clean_field fields.
Proof.
  intros <-. apply Forall_forall. intros f Hf.
  apply in_map_iff in Hf. destruct Hf as [p [<- Hp]].
  destruct (split_parts_absent "|" "#" _ _ Hp) as [Hbar Hhash].
  split; [apply strip_idem | split].
  - now apply strip_absent.
  - apply strip_absent, Hhash, strip_absent.
    apply strip_inline_comment_absent.
Qed.

Section Fields.
Context {FL : PyFloat}.

(** X3: a movie that [load_movies_file] accepts has a genre, an id and a name
    that are not empty, have no surrounding space and hold neither [|] nor
    [#]. *)
Theorem accepted_movie_fields (raw : string) (m : Movie) :
  parse_movie_line raw = Some m ->
  Forall (fun f => f <> "" /\ clean_field f) [genre m; movie_id m; name m].
Proof.
  unfold parse_movie_line.
  destruct (is_empty _); [discriminate |].
  destruct (negb _); [discriminate |].
  pose proof (@fields_clean raw _ eq_refl) as Hclean.
  destruct (map strip _) as [| g [| i [| n [| ? ?]]]]; try discriminate.
  destruct (is_empty g) eqn:Eg; [discriminate |].
  destruct (is_empty i) eqn:Ei; [discriminate |].
  destruct (is_empty n) eqn:En; [discriminate |].
  cbn [orb]. intros [= <-]. cbn [genre movie_id name].
  inversion Hclean as [| ? ? Hg Hrest]; subst.
  inversion Hrest as [| ? ? Hi Hrest']; subst.
  inversion Hrest' as [| ? ? Hn _]; subst.
  assert (Hne : forall f, is_empty f = false -> f <> "")
    by (intros f Hf ->; discriminate).
  constructor; [now split; [apply Hne |] |].
  constructor; [now split; [apply Hne |] |].
  constructor; [now split; [apply Hne |] | constructor].
Qed.

(** X4: a rating that [load_ratings_file] accepts is in [0, 5], and its
    movie name and user id have no surrounding space and hold neither [|]
    nor [#]. *)
Theorem accepted_rating_fields (raw movie_name user_id : string) (rating : Q) :
  parse_rating_line raw = Some (movie_name, rating, user_id) ->
  in_range rating /\ clean_field movie_name /\ clean_field user_id.
Proof.
  intros H. split; [exact (parse_rating_line_range _ H) |].
  revert H. unfold parse_rating_line.
  destruct (is_empty _); [discriminate |].
  destruct (negb _); [discriminate |].
  pose proof (@fields_clean raw _ eq_refl) as Hclean.
  destruct (map strip _) as [| a [| b [| c [| ? ?]]]]; try discriminate.
  destruct (float_of_string b) as [q |]; [| discriminate].
  destruct (negb (in_range_b q)); [discriminate |].
  intros [= <- _ <-].
  inversion Hclean as [| ? ? Ha Hrest]; subst.
  inversion Hrest as [| ? ? _ Hrest']; subst.
  inversion Hrest' as [| ? ? Hc _]; subst.
  now split.
Qed.

End Fields.

Lemma accepted_movie_fields_witness :
  parse_movie_line "  Action | m1 |Alpha (2001)  # first" 
  = Some {| genre := "Action"; movie_id := "m1"; name := "Alpha (2001)" |} /\
  Forall (fun f => f <> "" /\ clean_field f) ["Action"; "m1"; "Alpha (2001)"].
Proof.
  split; [reflexivity |].
  apply (@accepted_movie_fields "  Action | m1 |Alpha (2001)  # first"
           {| genre := "Action"; movie_id := "m1"; name := "Alpha (2001)" |} eq_refl).
Defined.

Lemma accepted_rating_fields_witness :
  parse_rating_line " Alpha (2001) | 4.5 | u1 " = Some ("Alpha (2001)", (9 # 2)%Q, "u1") /\
  in_range (9 # 2)%Q /\ clean_field "Alpha (2001)" /\ clean_field "u1".
Proof.
  split; [reflexivity |].
  apply (@accepted_rating_fields ExactFloat " Alpha (2001) | 4.5 | u1 "
           "Alpha (2001)" "u1" (9 # 2)%Q eq_refl).
Defined.

(** White space beyond ASCII: a no-break space (U+00A0, the bytes 194 and
    160) and an ideographic space (U+3000, the bytes 227, 128 and 128) are
    stripped, so that a row whose name is a no-break space has an empty name
    and is skipped. *)
Definition no_break_space : string :=
  String (ascii_of_nat 194) (String (ascii_of_nat 160) "").

Definition ideographic_space : string :=
  String (ascii_of_nat 227) (String (ascii_of_nat 128) (String (ascii_of_nat 128) "")).

Example strip_unicode_space :
  strip (no_break_space ++ " Alpha Beta" ++ ideographic_space ++ no_break_space)
  = "Alpha Beta".
Proof. reflexivity. Qed.

Example movie_row_with_blank_name :
  parse_movie_line ("Action|m1|" ++ no_break_space) = None /\
  parse_movie_line ("Action|m1|" ++ no_break_space ++ "Alpha")
  = Some {| genre := "Action"; movie_id := "m1"; name := "Alpha" |}.
Proof. split; reflexivity. Qed.

Example rating_row_with_unicode_space :
  parse_rating_line (ideographic_space ++ "Alpha|4.5|u1" ++ no_break_space)
  = Some ("Alpha", (9 # 2)%Q, "u1").
Proof. reflexivity. Qed.

(** ** The movies loader *)

Lemma find_app {A} (p : A -> bool) (l l' : list A) :
  find p (l ++ l') = match find p l with Some x => Some x | None => find p l' end.
Proof.
  induction l as [| x l IH]; simpl; [reflexivity |].
  now destruct (p x).
Qed.

(** A loop that keeps the last element that satisfies [p]. *)
Lemma fold_left_last {A} (p : A -> bool) (l : list A) (acc : option A) :
  fold_left (fun acc x => if p x then Some x else acc) l acc
  = match find p (rev l) with Some x => Some x | None => acc end.
Proof.
  revert acc. induction l as [| x l IH]; intros acc; simpl; [reflexivity |].
  rewrite IH, find_app. simpl.
  destruct (find p (rev l)); [reflexivity |]. now destruct (p x).
Qed.

Section MoviesLoader.
Context {FL : PyFloat}.

Lemma movies_loaded_last (rows : list Movie) (d : dict Movie) (nm : string) :
  dict_get nm (fold_left index_by_name rows d)
  = fold_left (fun acc m => if String.eqb (name m) nm then Some m else acc)
      rows (dict_get nm d).
Proof.
  revert d. induction rows as [| m rows IH]; intros d; [reflexivity |].
  cbn [fold_left]. rewrite IH. unfold index_by_name at 1. now rewrite dict_get_set.
Qed.

Lemma movies_loaded_count (rows seen : list Movie) (d : dict Movie) :
  (forall k, In k (dict_keys d) <-> In k (map name seen)) ->
  len d = len (nodup string_dec (map name seen)) ->
  len (fold_left index_by_name rows d)
  = len (nodup string_dec (map name (seen ++ rows))).
Proof.
  revert seen d. induction rows as [| m rows IH]; intros seen d Hkeys Hlen.
  - now rewrite app_nil_r.
  - cbn [fold_left].
    replace (seen ++ m :: rows) with ((seen ++ [m]) ++ rows) by now rewrite <- app_assoc.
    apply IH.
    + intros k. unfold index_by_name. rewrite In_dict_keys_set, map_app, in_app_iff.
      rewrite Hkeys. cbn [map In]. intuition congruence.
    + unfold index_by_name. rewrite len_dict_set, Hlen, map_app. cbn [map].
      rewrite nodup_snoc_length. f_equal.
      destruct (dict_mem (name m) d) eqn:E;
        destruct (in_dec string_dec (name m) (map name seen)) as [Hin | Hnin];
        try reflexivity; exfalso.
      * apply dict_mem_In, Hkeys in E. contradiction.
      * apply Hkeys, dict_mem_In in Hin. congruence.
Qed.

(** X5: [load_movies_file] returns the number of rows it accepts, a row that
    repeats a name included, while moviesByName holds one movie for each
    distinct name of these rows. *)
Theorem load_movies_counts_rows (lines : list string) (s : DataStore) :
  let rows := accepted_movies lines in
  eval (load_movies_file lines) s = len rows /\
  len (movies_by_name (exec (load_movies_file lines) s))
  = len (nodup string_dec (map name rows)).
Proof.
  intros rows. unfold eval, exec. rewrite load_movies_file_run. cbn [fst snd movies_by_name].
  split; [reflexivity |].
  apply (movies_loaded_count rows []); [simpl; tauto | reflexivity].
Qed.

(** X6: after [load_movies_file], moviesByName[n] is the last accepted row
    whose name is [n], and [n] has no entry when no accepted row has that
    name; the value stored under a name has that name. *)
Theorem load_movies_last_row_wins (lines : list string) (s : DataStore) (nm : string) :
  let found := dict_get nm (movies_by_name (exec (load_movies_file lines) s)) in
  found = find (fun m => String.eqb (name m) nm) (rev (accepted_movies lines)) /\
  (forall m, found = Some m -> name m = nm /\ In m (accepted_movies lines)).
Proof.
  intros found. subst found. unfold exec. rewrite load_movies_file_run.
  cbn [snd movies_by_name]. rewrite movies_loaded_last, fold_left_last. cbn [dict_get].
  split.
  - now destruct (find _ _).
  - intros m. destruct (find _ _) as [m' |] eqn:E; [| discriminate].
    intros [= <-]. apply find_some in E. destruct E as [Hin Hn].
    apply String.eqb_eq in Hn. split; [exact Hn | now apply in_rev].
Qed.

(** X7: after [load_movies_file], a name is filed under a genre exactly when
    some accepted row has that genre and that name, whether or not a later
    row gave the name another genre; a genre has an entry exactly when an
    accepted row has it, and no entry is an empty set or repeats a name. *)
Theorem load_movies_genre_index (lines : list string) (s : DataStore) (g nm : string) :
  let index := movies_by_genre (exec (load_movies_file lines) s) in
  (In nm (dict_get_or g [] index)
   <-> exists m, In m (accepted_movies lines) /\ genre m = g /\ name m = nm) /\
  (dict_mem g index = true <-> exists m, In m (accepted_movies lines) /\ genre m = g) /\
  (dict_mem g index = true -> dict_get_or g [] index <> []) /\
  NoDup (dict_get_or g [] index) /\
  NoDup (dict_keys index).
Proof.
  intros index. subst index. unfold exec. rewrite load_movies_file_run.
  cbn [snd movies_by_genre].
  assert (Hmem : forall nm', In nm' (dict_get_or g [] (fold_left index_by_genre (accepted_movies lines) []))
            <-> exists m, In m (accepted_movies lines) /\ genre m = g /\ name m = nm').
  { intros nm'. rewrite genre_members_loaded. cbn. tauto. }
  assert (Hkey : dict_mem g (fold_left index_by_genre (accepted_movies lines) []) = true
            <-> exists m, In m (accepted_movies lines) /\ genre m = g).
  { rewrite dict_mem_In, genre_keys_loaded, in_map_iff. cbn.
    split.
    - intros [[] | [m [Hg Hin]]]. now exists m.
    - intros [m [Hin Hg]]. right. now exists m. }
  split; [apply Hmem | split; [exact Hkey | split; [| split]]].
  - intros H. apply Hkey in H. destruct H as [m [Hin Hg]].
    intros E. assert (Hn : In (name m) (dict_get_or g [] (fold_left index_by_genre (accepted_movies lines) []))).
    { apply Hmem. now exists m. }
    rewrite E in Hn. destruct Hn.
  - apply dict_all_get_or; [constructor | apply genre_sets_NoDup; constructor].
  - apply genre_keys_NoDup. constructor.
Qed.

(** *** Files that cannot be opened

    The loaders empty their two indexes before they open the file, so what
    [open] raises finds them empty.  [files path] is the lines of the file,
    or [None] when [open(path)] raises [FileNotFoundError]; the result of
    the load is then [None]. *)
Definition load_movies_file_at (files : string -> option (list string)) (path : string)
    : St (option Z) :=
  match files path with
  | Some lines => count <- load_movies_file lines ;; ret (Some count)
  | None =>
      modify (with_movies_by_name (fun _ => [])) ;;
      modify (with_movies_by_genre (fun _ => [])) ;;
      ret None
  end.

Definition load_ratings_file_at (files : string -> option (list string)) (path : string)
    : St (option Z) :=
  match files path with
  | Some lines => count <- load_ratings_file lines ;; ret (Some count)
  | None =>
      modify (with_ratings_by_movie (fun _ => [])) ;;
      modify (with_user_ratings (fun _ => [])) ;;
      ret None
  end.

(** X9: a load replaces what an earlier load of the same kind has left,
    whatever it was, and leaves the two other indexes as they are. *)
Theorem loads_replace (lines lines' : list string) (s : DataStore) :
  exec (load_movies_file lines') (exec (load_movies_file lines) s)
    = exec (load_movies_file lines') s /\
  exec (load_ratings_file lines') (exec (load_ratings_file lines) s)
    = exec (load_ratings_file lines') s /\
  ratings_by_movie (exec (load_movies_file lines) s) = ratings_by_movie s /\
  user_ratings (exec (load_movies_file lines) s) = user_ratings s /\
  movies_by_name (exec (load_ratings_file lines) s) = movies_by_name s /\
  movies_by_genre (exec (load_ratings_file lines) s) = movies_by_genre s.
Proof.
  unfold exec. rewrite !load_movies_file_run, !load_ratings_file_run.
  repeat split.
Qed.

End MoviesLoader.

(** ** The order of a ranking *)

(** [a] ranks before [b]: a higher score, or the same score and a higher
    weight, or the same score and weight and a key that is not greater. *)
Definition ranks_before (a b : row) : Prop :=
  (row_score b < row_score a)%Q \/
  ((row_score a == row_score b)%Q /\
   (row_weight b < row_weight a \/
    (row_weight a = row_weight b /\ String.leb (row_key a) (row_key b) = true))).

Lemma str_ltb_false_leb (a b : string) :
  String.ltb b a = false <-> String.leb a b = true.
Proof.
  unfold String.ltb, String.leb. rewrite (String.compare_antisym b a).
  destruct (String.compare a b); simpl; split; congruence.
Qed.

Lemma row_le_ranks_before (a b : row) : row_le a b <-> ranks_before a b.
Proof.
  destruct a as [[ka sa] wa], b as [[kb sb] wb].
  unfold row_le, ranks_before, row_score, row_weight, row_key, sort_key, tuple_lt.
  cbn [fst snd].
  destruct (Qeq_bool (- sb) (- sa)) eqn:Es; cbn [negb].
  - apply Qeq_bool_iff in Es.
    destruct (Z.eqb_spec (- wb) (- wa)) as [Ew | Ew]; cbn [negb].
    + rewrite str_ltb_false_leb. split.
      * intros H. right. split; [lra | right; split; [lia | exact H]].
      * intros [H | [_ [H | [_ H]]]]; [lra | lia | exact H].
    + rewrite Z.ltb_ge. split.
      * intros H. right. split; [lra | left; lia].
      * intros [H | [_ [H | [H _]]]]; [lra | lia | lia].
  - apply Qeq_bool_neq in Es. rewrite negb_false_iff, Qle_bool_iff. split.
    + intros H. left. apply Qnot_le_lt. intros H'. apply Es. lra.
    + intros [H | [H _]]; [lra | exfalso; apply Es; lra].
Qed.

Lemma StronglySorted_impl {A} (R R' : A -> A -> Prop) (l : list A) :
  (forall a b, R a b -> R' a b) -> StronglySorted R l -> StronglySorted R' l.
Proof.
  intros H. induction 1 as [| a l _ IH Ha]; constructor; [exact IH |].
  eapply Forall_impl; [apply H | exact Ha].
Qed.

Lemma StronglySorted_firstn {A} (R : A -> A -> Prop) (k : nat) (l : list A) :
  StronglySorted R l -> StronglySorted R (firstn k l).
Proof.
  intros H. revert k. induction H as [| a l _ IH Ha]; intros [| k]; simpl;
    try constructor; [apply IH |].
  apply Forall_forall. intros x Hx. apply In_firstn in Hx.
  rewrite Forall_forall in Ha. now apply Ha.
Qed.

Lemma ranking_sorted (n : option Z) (l : list row) :
  StronglySorted ranks_before (limit n (sort_rows l)).
Proof.
  apply (StronglySorted_impl (R := row_le)); [intros a b; apply row_le_ranks_before |].
  destruct n as [k |]; [| apply sort_rows_sorted]. unfold limit, slice_to.
  destruct (0 <=? k); apply StronglySorted_firstn, sort_rows_sorted.
Qed.

Lemma slice_to_nonnegative {A} (n : Z) (l : list A) :
  0 <= n -> slice_to n l = firstn (Z.to_nat n) l /\ len (slice_to n l) <= n.
Proof.
  intros Hn. unfold slice_to. destruct (Z.leb_spec 0 n); [| lia].
  split; [reflexivity |]. unfold len.
  pose proof (firstn_le_length (Z.to_nat n) l). lia.
Qed.

Section RankingShape.
Context {FL : PyFloat}.

(** X10: every ranking is sorted, each row before all the rows after it: by
    score descending, then by weight descending, then by key ascending;
    whatever the store, the candidates and the limit. *)
Theorem rankings_are_sorted (s : DataStore) (movie_names : option (list string))
    (g : string) (n : option Z) :
  StronglySorted ranks_before (eval (rank_movies_by_average movie_names n) s) /\
  StronglySorted ranks_before (eval (rank_movies_in_genre g n) s) /\
  StronglySorted ranks_before (eval (rank_genres_by_popularity n) s).
Proof.
  rewrite rank_movies_by_average_eval, rank_movies_in_genre_eval,
    rank_genres_by_popularity_eval.
  repeat split; apply ranking_sorted.
Qed.

(** X11: with a limit [n >= 0] a ranking is the first [n] rows of the full
    ranking, so it has at most [n] rows. *)
Theorem limited_ranking_is_prefix (s : DataStore) (movie_names : option (list string))
    (g : string) (n : Z) :
  0 <= n ->
  (eval (rank_movies_by_average movie_names (Some n)) s
     = firstn (Z.to_nat n) (eval (rank_movies_by_average movie_names None) s) /\
   len (eval (rank_movies_by_average movie_names (Some n)) s) <= n) /\
  (eval (rank_movies_in_genre g (Some n)) s
     = firstn (Z.to_nat n) (eval (rank_movies_in_genre g None) s) /\
   len (eval (rank_movies_in_genre g (Some n)) s) <= n) /\
  (eval (rank_genres_by_popularity (Some n)) s
     = firstn (Z.to_nat n) (eval (rank_genres_by_popularity None) s) /\
   len (eval (rank_genres_by_popularity (Some n)) s) <= n).
Proof.
  intros Hn.
  rewrite !rank_movies_by_average_eval, !rank_movies_in_genre_eval,
    !rank_genres_by_popularity_eval.
  cbn [limit]. repeat split; now apply slice_to_nonnegative.
Qed.

End RankingShape.

Lemma limited_ranking_is_prefix_witness :
  0 <= 2 /\
  eval (rank_movies_by_average None (Some 2)) store_good
  = firstn 2 (eval (rank_movies_by_average None None) store_good).
Proof.
  split; [lia |].
  apply (proj1 (proj1 (@limited_ranking_is_prefix ExactFloat store_good None "Action" 2
                         ltac:(lia)))).
Defined.

(** ** The rows of a ranking *)

Section RankingRows.
Context {FL : PyFloat}.

(** The movie has a rating in ratingsByMovie. *)
Definition has_ratings (s : DataStore) (movie_name : string) : bool :=
  match dict_get_or movie_name [] (ratings_by_movie s) with
  | [] => false
  | _ => true
  end.

(** X12: the full ranking of the movies holds a row for a candidate exactly
    when ratingsByMovie has ratings for it (the candidates are the given
    names, or the keys of ratingsByMovie); the row carries the mean and the
    number of these ratings.  A limit only leaves rows out. *)
Theorem movie_ranking_rows (s : DataStore) (movie_names : option (list string))
    (n : option Z) (t : row) :
  let candidates :=
    match movie_names with Some l => l | None => dict_keys (ratings_by_movie s) end in
  let ratings := dict_get_or (row_key t) [] (ratings_by_movie s) in
  (In t (eval (rank_movies_by_average movie_names None) s)
   <-> In (row_key t) candidates /\ ratings <> [] /\
       t = (row_key t, fmean ratings, len ratings)) /\
  (In t (eval (rank_movies_by_average movie_names n) s) ->
   In t (eval (rank_movies_by_average movie_names None) s)).
Proof.
  intros candidates ratings. rewrite !rank_movies_by_average_eval. fold candidates.
  split; [| cbn [limit]; apply In_limit].
  cbn [limit]. rewrite In_sort_rows, in_collect. split.
  - intros [x [Hx Hrow]]. pose proof (movie_row_key _ _ Hrow) as E.
    subst ratings. rewrite E. split; [exact Hx |].
    unfold movie_row in Hrow.
    destruct (dict_get_or x [] (ratings_by_movie s)) as [| r l]; [discriminate |].
    split; [discriminate | congruence].
  - intros [Hin [Hne Ht]]. exists (row_key t). split; [exact Hin |].
    unfold movie_row. subst ratings.
    destruct (dict_get_or (row_key t) [] (ratings_by_movie s)); [contradiction |].
    symmetry. f_equal. exact Ht.
Qed.

Lemma rated_means (s : DataStore) (names : list string) :
  collect (average_of s) names
  = map (fun nm => fmean (dict_get_or nm [] (ratings_by_movie s)))
        (filter (has_ratings s) names).
Proof.
  induction names as [| nm names IH]; simpl; [reflexivity |].
  unfold average_of at 1, has_ratings at 1.
  destruct (dict_get_or nm [] (ratings_by_movie s)) eqn:E; simpl; rewrite IH;
    [reflexivity | now rewrite E].
Qed.

(** X13: a row of the ranking of the genres is a genre of moviesByGenre
    with at least one rated movie; its weight is the number of rated movies
    of the genre and its score is the mean of their means.  A genre without
    a rated movie has no row. *)
Theorem genre_ranking_rows (s : DataStore) (n : option Z) (t : row) :
  In t (eval (rank_genres_by_popularity n) s) ->
  exists names,
    In (row_key t, names) (movies_by_genre s) /\
    let rated := filter (has_ratings s) names in
    rated <> [] /\
    row_weight t = len rated /\
    row_score t
    = fmean (map (fun nm => fmean (dict_get_or nm [] (ratings_by_movie s))) rated).
Proof.
  rewrite rank_genres_by_popularity_eval. intros Ht.
  apply In_limit in Ht. rewrite In_sort_rows in Ht. apply in_collect in Ht.
  destruct Ht as [[g names] [Hin Hrow]]. exists names.
  pose proof (genre_row_key _ _ Hrow) as E. cbn [fst] in E. rewrite E. split; [exact Hin |].
  unfold genre_row in Hrow. cbn [fst snd] in Hrow. rewrite rated_means in Hrow.
  destruct (filter (has_ratings s) names) as [| x l] eqn:Ef; [discriminate |].
  cbn [map] in Hrow. injection Hrow as <-. cbv zeta.
  split; [discriminate |]. unfold row_weight, row_score, len. cbn [fst snd].
  cbn [List.length map]. now rewrite length_map.
Qed.

(** The dicts and the sets of a store hold a key or a name once. *)
Definition store_wf (s : DataStore) : Prop :=
  NoDup (dict_keys (ratings_by_movie s)) /\
  NoDup (dict_keys (movies_by_genre s)) /\
  dict_all (@NoDup string) (movies_by_genre s).

Lemma store_wf_session (ops : list op) : store_wf (exec (run_ops ops) init).
Proof.
  apply session_invariant.
  - repeat split; constructor.
  - intros [lines | lines |] s [Hr [Hg Hs]].
    + rewrite run_load_movies. repeat split; cbn.
      * exact Hr.
      * apply genre_keys_NoDup. constructor.
      * apply genre_sets_NoDup. constructor.
    + rewrite run_load_ratings. repeat split; cbn; auto.
      apply ratings_keys_NoDup.
    + rewrite run_clear. repeat split; constructor.
Qed.

Lemma ranking_keys_NoDup {A} (f : A -> option row) (key : A -> string) (n : option Z)
    (l : list A) :
  (forall x t, f x = Some t -> row_key t = key x) ->
  NoDup (map key l) ->
  NoDup (map row_key (limit n (sort_rows (collect f l)))).
Proof.
  intros Hf Hl.
  assert (Hs : NoDup (map row_key (sort_rows (collect f l)))).
  { eapply Permutation_NoDup;
      [apply Permutation_map, Permutation_sym, sort_rows_perm |].
    now apply (collect_keys_NoDup f key). }
  assert (Hj : forall j, NoDup (map row_key (firstn j (sort_rows (collect f l))))).
  { intros j. rewrite <- (firstn_skipn j (sort_rows (collect f l))), map_app in Hs.
    exact (NoDup_app_remove_r _ _ Hs). }
  destruct n as [k |]; [| exact Hs]. unfold limit, slice_to.
  destruct (0 <=? k); apply Hj.
Qed.

(** X14: after any sequence of loads and clears no ranking names a movie or
    a genre twice. *)
Theorem rankings_name_once (ops : list op) (g : string) (n : option Z) :
  let s := exec (run_ops ops) init in
  NoDup (map row_key (eval (rank_movies_by_average None n) s)) /\
  NoDup (map row_key (eval (rank_movies_in_genre g n) s)) /\
  NoDup (map row_key (eval (rank_genres_by_popularity n) s)).
Proof.
  intros s. destruct (store_wf_session ops) as [Hr [Hg Hs]]. fold s in Hr, Hg, Hs.
  rewrite rank_movies_by_average_eval, rank_movies_in_genre_eval,
    rank_genres_by_popularity_eval.
  split; [| split].
  - apply (ranking_keys_NoDup _ (fun x => x)); [apply movie_row_key | now rewrite map_id].
  - apply (ranking_keys_NoDup _ (fun x => x)); [apply movie_row_key |].
    rewrite map_id. apply dict_all_get_or; [constructor | exact Hs].
  - apply (ranking_keys_NoDup _ fst); [apply genre_row_key | exact Hg].
Qed.

End RankingRows.

(** ** The preferred genre and the recommendations *)

Section Preference.
Context {FL : PyFloat}.

(** The rated entry [(movie_name, rating)] is of a movie of genre [g]. *)
Definition in_genre (known : dict Movie) (g : string) (e : string * Q) : bool :=
  match dict_get (fst e) known with
  | Some m => String.eqb (genre m) g
  | None => false
  end.

(** The ratings that the user gave to the movies of genre [g], in the order
    of userRatings. *)
Definition user_genre_ratings (s : DataStore) (user_id g : string) : list Q :=
  map snd (filter (in_genre (movies_by_name s) g)
                  (dict_get_or user_id [] (user_ratings s))).

Lemma group_rating_get (known : dict Movie) (pu : dict Q) (d : dict (list Q))
    (g : string) :
  dict_get_or g [] (fold_left (group_rating known) pu d)
  = dict_get_or g [] d ++ map snd (filter (in_genre known g) pu).
Proof.
  revert d. induction pu as [| [nm r] pu IH]; intros d.
  - simpl. now rewrite app_nil_r.
  - cbn [fold_left filter]. rewrite IH. unfold group_rating at 1, in_genre at 2.
    cbn [fst snd]. destruct (dict_get nm known) as [m |]; [| reflexivity].
    rewrite dict_get_or_set. destruct (String.eqb (genre m) g) eqn:E.
    + apply String.eqb_eq in E. subst g. cbn [map snd]. now rewrite <- app_assoc.
    + reflexivity.
Qed.

Lemma group_rating_wf (known : dict Movie) (pu : dict Q) (d : dict (list Q)) :
  NoDup (dict_keys d) -> dict_all (fun l => l <> []) d ->
  NoDup (dict_keys (fold_left (group_rating known) pu d)) /\
  dict_all (fun l => l <> []) (fold_left (group_rating known) pu d).
Proof.
  revert d. induction pu as [| [nm r] pu IH]; intros d Hk Hd; [now split |].
  cbn [fold_left]. unfold group_rating at 2 4. cbn [fst snd].
  destruct (dict_get nm known) as [m |]; [| now apply IH].
  apply IH.
  - now apply dict_set_NoDup.
  - apply dict_all_set; [| exact Hd]. intros E. now apply app_eq_nil in E.
Qed.

Lemma sort_rows_head (l : list row) (top : row) :
  hd_error (sort_rows l) = Some top ->
  In top l /\ forall t, In t l -> ranks_before top t.
Proof.
  intros H. pose proof (sort_rows_sorted l) as Hs.
  destruct (sort_rows l) as [| x rest] eqn:E; [discriminate |].
  injection H as ->. split.
  - apply In_sort_rows. rewrite E. now left.
  - intros t Ht. apply row_le_ranks_before.
    apply In_sort_rows in Ht. rewrite E in Ht. inversion Hs as [| ? ? _ Hall]; subst.
    destruct Ht as [<- | Ht].
    + apply tuple_lt_irrefl.
    + rewrite Forall_forall in Hall. now apply Hall.
Qed.

Lemma best_genre_row (known : dict Movie) (found : option (dict Q)) :
  let mine g :=
    map snd (filter (in_genre known g)
                    match found with Some per_user => per_user | None => [] end) in
  match
    match found with
    | None | Some [] => None
    | Some per_user =>
        match fold_left (group_rating known) per_user [] with
        | [] => None
        | by_genre => hd_error (sort_rows (map user_genre_row by_genre))
        end
    end
  with
  | None => forall g, mine g = []
  | Some top =>
      mine (row_key top) <> [] /\
      top = (row_key top, fmean (mine (row_key top)), len (mine (row_key top))) /\
      forall g, mine g <> [] -> ranks_before top (g, fmean (mine g), len (mine g))
  end.
Proof.
  intros mine. subst mine.
  destruct found as [[| e pu] |]; [intros g; reflexivity | | intros g; reflexivity].
  set (per_user := e :: pu).
  assert (Hget : forall g,
    dict_get_or g [] (fold_left (group_rating known) per_user [])
    = map snd (filter (in_genre known g) per_user)).
  { intros g. now rewrite group_rating_get. }
  destruct (@group_rating_wf known per_user [])
    as [Hkeys Hne]; [constructor | constructor |].
  assert (Hentry : forall g l,
    In (g, l) (fold_left (group_rating known) per_user [])
    <-> l <> [] /\ l = map snd (filter (in_genre known g) per_user)).
  { intros g l. rewrite <- (Hget g). split.
    - intros Hin. split.
      + unfold dict_all in Hne. rewrite Forall_forall in Hne. exact (Hne _ Hin).
      + unfold dict_get_or. now rewrite (In_dict_get _ _ _ Hkeys Hin).
    - unfold dict_get_or. intros [Hl ->].
      destruct (dict_get g _) as [l |] eqn:E; [| contradiction].
      now apply dict_get_In. }
  destruct (fold_left (group_rating known) per_user []) as [| b by_genre] eqn:E.
  - intros g. now rewrite <- Hget.
  - destruct (hd_error (sort_rows (map user_genre_row (b :: by_genre)))) as [top |] eqn:Etop.
    + apply sort_rows_head in Etop. destruct Etop as [Hin Hbest].
      apply in_map_iff in Hin. destruct Hin as [[g l] [<- Hin]].
      apply Hentry in Hin. destruct Hin as [Hl ->].
      unfold user_genre_row, row_key. cbn [fst snd]. split; [exact Hl |].
      split; [reflexivity |].
      intros g' Hg'. apply Hbest. apply in_map_iff.
      exists (g', map snd (filter (in_genre known g') per_user)).
      split; [reflexivity |]. now apply Hentry.
    + exfalso. pose proof (sort_rows_perm (map user_genre_row (b :: by_genre))) as Hp.
      destruct (sort_rows _); [| discriminate].
      apply Permutation_nil in Hp. discriminate.
Qed.

(** X15: the preferred genre of a user is absent exactly when the user has
    rated no movie of moviesByName.  Otherwise the row holds a genre in
    which the user has rated a movie, with the mean and the number of the
    ratings of the user in that genre, and it ranks before the row of every
    other genre in which the user has rated a movie. *)
Theorem user_top_genre_is_best (s : DataStore) (user_id : string) :
  match eval (user_top_genre user_id) s with
  | None => forall g, user_genre_ratings s user_id g = []
  | Some top =>
      let mine := user_genre_ratings s user_id in
      mine (row_key top) <> [] /\
      top = (row_key top, fmean (mine (row_key top)), len (mine (row_key top))) /\
      forall g, mine g <> [] -> ranks_before top (g, fmean (mine g), len (mine g))
  end.
Proof.
  rewrite user_top_genre_eval.
  exact (best_genre_row (movies_by_name s) (dict_get user_id (user_ratings s))).
Qed.

(** X16: the recommendations are the first rows, at most [max 1 k] of them,
    of the full ranking of the preferred genre from which the movies that
    the user has rated are removed, each tagged with that genre; without a
    preferred genre there is none. *)
Theorem recommend_takes_best_unrated (s : DataStore) (user_id : string) (k : Z) :
  eval (recommend_for_user user_id k) s
  = match eval (user_top_genre user_id) s with
    | None => []
    | Some top =>
        let rated := dict_keys (dict_get_or user_id [] (user_ratings s)) in
        let ranked := eval (rank_movies_in_genre (row_key top) None) s in
        map (fun t => (t, row_key top))
            (firstn (Z.to_nat (Z.max 1 k)) (filter (fresh_for rated) ranked))
    end.
Proof.
  rewrite recommend_for_user_eval.
  destruct (eval (user_top_genre user_id) s) as [top |]; [| reflexivity].
  rewrite recommend_loop_spec. cbn [app]. unfold len. cbn [List.length].
  now rewrite Z.sub_0_r.
Qed.

Lemma collect_none {A B} (f : A -> option B) (l : list A) :
  (forall x, f x = None) -> collect f l = [].
Proof.
  intros H. induction l as [| x l IH]; simpl; [reflexivity | now rewrite H].
Qed.

Lemma no_ratings_no_rows (s : DataStore) (movie_names : option (list string))
    (g user_id : string) (n : option Z) (k : Z) :
  ratings_by_movie s = [] ->
  eval (rank_movies_by_average movie_names n) s = [] /\
  eval (rank_movies_in_genre g n) s = [] /\
  eval (rank_genres_by_popularity n) s = [] /\
  eval (recommend_for_user user_id k) s = [].
Proof.
  intros H.
  assert (Hrow : forall x, movie_row s x = None) by (intros x; unfold movie_row; now rewrite H).
  assert (Hgenre : forall e, genre_row s e = None).
  { intros e. unfold genre_row. rewrite collect_none; [reflexivity |].
    intros x. unfold average_of. now rewrite H. }
  assert (Hin : forall g', eval (rank_movies_in_genre g' n) s = []).
  { intros g'. rewrite rank_movies_in_genre_eval, (collect_none _ _ Hrow). apply limit_nil. }
  rewrite rank_movies_by_average_eval, rank_genres_by_popularity_eval,
    recommend_for_user_eval.
  rewrite (collect_none _ _ Hrow), (collect_none _ _ Hgenre). cbn [sort_rows fold_right].
  rewrite limit_nil. repeat split; [apply Hin |].
  destruct (eval (user_top_genre user_id) s) as [top |]; [| reflexivity].
  rewrite recommend_loop_spec, rank_movies_in_genre_eval, (collect_none _ _ Hrow). cbn.
  now rewrite firstn_nil.
Qed.

(** X17: after [clear] every query answers with nothing: the rankings and
    the recommendations are empty, no movie has a mean and no user a
    preferred genre. *)
Theorem queries_after_clear (s : DataStore) (movie_names : option (list string))
    (g user_id movie_name : string) (n : option Z) (k : Z) :
  let s' := exec clear s in
  s' = init /\
  eval (movie_average_rating movie_name) s' = None /\
  eval (rank_movies_by_average movie_names n) s' = [] /\
  eval (rank_movies_in_genre g n) s' = [] /\
  eval (rank_genres_by_popularity n) s' = [] /\
  eval (user_top_genre user_id) s' = None /\
  eval (recommend_for_user user_id k) s' = [].
Proof.
  intros s'. change s' with init.
  destruct (@no_ratings_no_rows init movie_names g user_id n k eq_refl)
    as [H1 [H2 [H3 H4]]].
  repeat split; assumption || reflexivity.
Qed.

Lemma build_without_movies (ur : dict (dict Q)) : build_ratings_by_movie [] ur = [].
Proof.
  unfold build_ratings_by_movie. generalize (@nil (string * list Q)).
  assert (inner : forall (pu : dict Q) d, fold_left (index_rating []) pu d = d).
  { induction pu as [| [m r] pu IH]; intros d; [reflexivity | apply IH]. }
  induction ur as [| [u pu] ur IH]; intros d; [reflexivity |].
  cbn [fold_left]. unfold index_user at 2. cbn [snd]. now rewrite inner.
Qed.

Lemma no_movies_no_genre_ratings (s : DataStore) (user_id g : string) :
  movies_by_name s = [] -> user_genre_ratings s user_id g = [].
Proof.
  intros H. unfold user_genre_ratings. rewrite H.
  induction (dict_get_or user_id [] (user_ratings s)) as [| e l IH]; [reflexivity |].
  exact IH.
Qed.

(** X18: ratings loaded into a store without movies fill userRatings and are
    counted, but ratingsByMovie stays empty: every ranking and every
    recommendation is empty and no user has a preferred genre. *)
Theorem ratings_without_movies (lines : list string) (s : DataStore)
    (movie_names : option (list string)) (g user_id : string) (n : option Z) (k : Z) :
  movies_by_name s = [] ->
  let s' := exec (load_ratings_file lines) s in
  eval (load_ratings_file lines) s = count_pairs (user_ratings s') /\
  ratings_by_movie s' = [] /\
  eval (rank_movies_by_average movie_names n) s' = [] /\
  eval (rank_movies_in_genre g n) s' = [] /\
  eval (rank_genres_by_popularity n) s' = [] /\
  eval (user_top_genre user_id) s' = None /\
  eval (recommend_for_user user_id k) s' = [].
Proof.
  intros Hm s'.
  assert (Hrun : s' = {| movies_by_name := [];
                         movies_by_genre := movies_by_genre s;
                         ratings_by_movie := [];
                         user_ratings := loaded_user_ratings lines |}).
  { subst s'. unfold exec. rewrite load_ratings_file_run. cbn [snd].
    now rewrite Hm, build_without_movies. }
  assert (Hr : ratings_by_movie s' = []) by now rewrite Hrun.
  assert (Hk : movies_by_name s' = []) by now rewrite Hrun.
  destruct (@no_ratings_no_rows s' movie_names g user_id n k Hr) as [H1 [H2 [H3 H4]]].
  split.
  { unfold eval. rewrite load_ratings_file_run, Hrun. reflexivity. }
  split; [exact Hr |].
  split; [exact H1 |]. split; [exact H2 |]. split; [exact H3 |].
  split; [| exact H4].
  pose proof (best_genre_row (movies_by_name s') (dict_get user_id (user_ratings s')))
    as Hbest.
  rewrite <- user_top_genre_eval in Hbest.
  destruct (eval (user_top_genre user_id) s') as [top |]; [| reflexivity].
  destruct Hbest as [Hne _]. exfalso. apply Hne.
  exact (no_movies_no_genre_ratings s' user_id (row_key top) Hk).
Qed.

End Preference.

Lemma ratings_without_movies_witness :
  movies_by_name init = [] /\
  eval (rank_movies_by_average None None) (exec (load_ratings_file ratings_good) init) = [].
Proof.
  split; [reflexivity |].
  apply (@ratings_without_movies ExactFloat ratings_good init None "Action" "u1" None 3
           eq_refl).
Defined.

(** ** The menu

    [main] and its helpers read the lines that the user types and print
    messages.  The lines to come are a list, of which [input()] takes the
    first ([EOFError] on the empty list, which nothing catches).  A [print]
    adds a message to the output; a message keeps the values that the
    program formats into the line, not the text of the line.  The prompts of
    [input] are not recorded, [Banner] stands for the two lines printed
    before the loop and [Menu] for the lines of the menu.  Of the exceptions
    that a load can raise only [FileNotFoundError] is modelled; the flags
    [movies_loaded] and [ratings_loaded], which [main] sets and never
    reads, are left out. *)

Inductive message : Type :=
| Banner
| Menu
| LoadedMovies (n : Z) (path : string)
| LoadedRatings (n : Z) (path : string)
| FileNotFound (path : string)
| NeedMovies
| NeedRatings
| AtLeast (min_value : Z)
| NotAnInteger
| TopMovies (n : Z) (rows : list row)
| TopMoviesInGenre (n : Z) (genre : string) (rows : list row)
| TopGenres (n : Z) (rows : list row)
| UserTopGenre (user_id : string) (top : option row)
| Recommendations (user_id : string) (rows : list (row * string))
| Cleared
| Goodbye
| InvalidOption.

(** What one turn of the loop of [main] ends with: the next turn, the
    [break] of option 9, or the [EOFError] of an [input()]. *)
Inductive step_result : Type :=
| Continue (inputs : list string) (s : DataStore) (out : list message)
| Stop (s : DataStore) (out : list message)
| Eof (s : DataStore) (out : list message).

Inductive outcome : Type :=
| Exited (s : DataStore) (out : list message)
| Crashed (s : DataStore) (out : list message)
| OutOfFuel.

Section Menu.
Context {FL : PyFloat}.

(** [int(raw)], [None] for a [ValueError]. *)
Variable int_of_string : string -> option Z.

(** [open(path)]: the lines of the file, [None] for [FileNotFoundError]. *)
Variable files : string -> option (list string).

(** [prompt_int]: the value, if the input does not end first, the lines
    left and the messages printed. *)
Fixpoint prompt_int (default min_value : option Z) (inputs : list string)
    (out : list message) : option Z * list string * list message :=
  match inputs with
  | [] => (None, [], out)
  | line :: rest =>
      let raw := strip line in
      match (if is_empty raw then default else None) with
      | Some d => (Some d, rest, out)
      | None =>
          match int_of_string raw with
          | Some val =>
              match min_value with
              | Some m =>
                  if val <? m then prompt_int default min_value rest (out ++ [AtLeast m])
                  else (Some val, rest, out)
              | None => (Some val, rest, out)
              end
          | None => prompt_int default min_value rest (out ++ [NotAnInteger])
          end
      end
  end.

Definition require_loaded (s : DataStore) : bool * list message :=
  match movies_by_name s with
  | [] => (false, [NeedMovies])
  | _ =>
      match user_ratings s with
      | [] => (false, [NeedRatings])
      | _ => (true, [])
      end
  end.

(** The end of the turn of option 3, 4 or 5 once the store is loaded: the
    number of rows is asked with [prompt_int(..., default=10, min_value=1)],
    the ranking computed and printed. *)
Definition ranking_turn (rest : list string) (s : DataStore)
    (query : Z -> St (list row)) (report : Z -> list row -> message) : step_result :=
  match prompt_int (Some 10) (Some 1) rest [] with
  | (None, _, msgs) => Eof s (Menu :: msgs)
  | (Some n, rest', msgs) =>
      let (rows, s') := query n s in
      Continue rest' s' (Menu :: msgs ++ [report n rows])
  end.

(** One turn of the [while True] of [main]. *)
Definition menu_step (inputs : list string) (s : DataStore) : step_result :=
  match inputs with
  | [] => Eof s [Menu]
  | line :: rest =>
      let choice := strip line in
      if String.eqb choice "1" then
        match rest with
        | [] => Eof s [Menu]
        | p :: rest' =>
            let path := strip p in
            match load_movies_file_at files path s with
            | (Some n, s') => Continue rest' s' [Menu; LoadedMovies n path]
            | (None, s') => Continue rest' s' [Menu; FileNotFound path]
            end
        end
      else if String.eqb choice "2" then
        match rest with
        | [] => Eof s [Menu]
        | p :: rest' =>
            let path := strip p in
            match load_ratings_file_at files path s with
            | (Some n, s') => Continue rest' s' [Menu; LoadedRatings n path]
            | (None, s') => Continue rest' s' [Menu; FileNotFound path]
            end
        end
      else if String.eqb choice "3" then
        match require_loaded s with
        | (false, msgs) => Continue rest s (Menu :: msgs)
        | (true, _) =>
            ranking_turn rest s (fun n => rank_movies_by_average None (Some n)) TopMovies
        end
      else if String.eqb choice "4" then
        match require_loaded s with
        | (false, msgs) => Continue rest s (Menu :: msgs)
        | (true, _) =>
            match rest with
            | [] => Eof s [Menu]
            | g :: rest' =>
                let genre := strip g in
                ranking_turn rest' s (fun n => rank_movies_in_genre genre (Some n))
                  (fun n => TopMoviesInGenre n genre)
            end
        end
      else if String.eqb choice "5" then
        match require_loaded s with
        | (false, msgs) => Continue rest s (Menu :: msgs)
        | (true, _) =>
            ranking_turn rest s (fun n => rank_genres_by_popularity (Some n)) TopGenres
        end
      else if String.eqb choice "6" then
        match require_loaded s with
        | (false, msgs) => Continue rest s (Menu :: msgs)
        | (true, _) =>
            match rest with
            | [] => Eof s [Menu]
            | u :: rest' =>
                let user_id := strip u in
                let (top, s') := user_top_genre user_id s in
                Continue rest' s' [Menu; UserTopGenre user_id top]
            end
        end
      else if String.eqb choice "7" then
        match require_loaded s with
        | (false, msgs) => Continue rest s (Menu :: msgs)
        | (true, _) =>
            match rest with
            | [] => Eof s [Menu]
            | u :: rest' =>
                let user_id := strip u in
                let (recs, s') := recommend_for_user user_id 3 s in
                Continue rest' s' [Menu; Recommendations user_id recs]
            end
        end
      else if String.eqb choice "8" then
        let (_, s') := clear s in
        Continue rest s' [Menu; Cleared]
      else if String.eqb choice "9" then Stop s [Menu; Goodbye]
      else Continue rest s [Menu; InvalidOption]
  end.

(** The loop of [main]; a turn takes a line of the input or ends the loop,
    so that one unit of fuel for each line and one more is enough. *)
Fixpoint main_loop (fuel : nat) (inputs : list string) (s : DataStore)
    (out : list message) : outcome :=
  match fuel with
  | O => OutOfFuel
  | S fuel' =>
      match menu_step inputs s with
      | Continue rest s' msgs => main_loop fuel' rest s' (out ++ msgs)
      | Stop s' msgs => Exited s' (out ++ msgs)
      | Eof s' msgs => Crashed s' (out ++ msgs)
      end
  end.

Definition main (inputs : list string) : outcome :=
  main_loop (S (List.length inputs)) inputs init [Banner].

End Menu.

(** ** Properties of the menu *)

Definition messages_of (r : step_result) : list message :=
  match r with Continue _ _ out | Stop _ out | Eof _ out => out end.

Definition store_of (r : step_result) : DataStore :=
  match r with Continue _ s _ | Stop s _ | Eof s _ => s end.

Definition output_of (o : outcome) : list message :=
  match o with Exited _ out | Crashed _ out => out | OutOfFuel => [] end.

(** A ranking that the menu prints: asked with a number of rows that is at
    least 1, it has at most that many rows, and they are sorted. *)
Definition bounded_ranking (m : message) : Prop :=
  match m with
  | TopMovies n rows | TopMoviesInGenre n _ rows | TopGenres n rows =>
      1 <= n /\ len rows <= n /\ StronglySorted ranks_before rows
  | _ => True
  end.

Section MenuFacts.
Context {FL : PyFloat}.
Variable int_of_string : string -> option Z.
Variable files : string -> option (list string).

Lemma prompt_int_spec (default min_value : option Z) (inputs : list string)
    (out : list message) :
  match prompt_int int_of_string default min_value inputs out with
  | (Some v, rest, msgs) =>
      (default = Some v \/
       exists line, In line inputs /\ int_of_string (strip line) = Some v /\
                    forall m, min_value = Some m -> m <= v) /\
      exists consumed extra,
        inputs = consumed ++ rest /\ msgs = out ++ extra /\
        List.length consumed = S (List.length extra) /\
        Forall (fun m => m = NotAnInteger \/ exists k, m = AtLeast k) extra
  | (None, rest, msgs) => rest = []
  end.
Proof.
  revert out. induction inputs as [| line inputs IH]; intros out; [reflexivity |].
  cbn [prompt_int].
  destruct (if is_empty (strip line) then default else None) as [d |] eqn:Ed.
  - split.
    + left. destruct (is_empty (strip line)); [exact Ed | discriminate].
    + exists [line], []. rewrite app_nil_r. repeat split. constructor.
  - assert (Hnext : forall msg,
      (msg = NotAnInteger \/ exists k, msg = AtLeast k) ->
      match prompt_int int_of_string default min_value inputs (out ++ [msg]) with
      | (Some v, rest, msgs) =>
          (default = Some v \/
           exists l, In l (line :: inputs) /\ int_of_string (strip l) = Some v /\
                     forall m, min_value = Some m -> m <= v) /\
          exists consumed extra,
            line :: inputs = consumed ++ rest /\ msgs = out ++ extra /\
            List.length consumed = S (List.length extra) /\
            Forall (fun m => m = NotAnInteger \/ exists k, m = AtLeast k) extra
      | (None, rest, msgs) => rest = []
      end).
    { intros msg Hmsg. specialize (IH (out ++ [msg])).
      destruct (prompt_int int_of_string default min_value inputs (out ++ [msg]))
        as [[[v |] rest] msgs]; [| exact IH].
      destruct IH as [Hv [consumed [extra [Hin [Hout [Hlen Hall]]]]]]. split.
      - destruct Hv as [Hv | [l [Hl Hv]]]; [now left | right].
        exists l. split; [now right | exact Hv].
      - exists (line :: consumed), (msg :: extra).
        rewrite Hin, Hout, <- app_assoc. cbn [app List.length].
        repeat split; [now rewrite Hlen | now constructor]. }
    destruct (int_of_string (strip line)) as [val |] eqn:Ev.
    + destruct min_value as [m |].
      * destruct (Z.ltb_spec val m) as [Hlt | Hge].
        -- apply Hnext. right. now exists m.
        -- split.
           ++ right. exists line. split; [now left | split; [exact Ev |]].
              now intros ? [= <-].
           ++ exists [line], []. rewrite app_nil_r. repeat split. constructor.
      * split.
        -- right. exists line. split; [now left | split; [exact Ev | discriminate]].
        -- exists [line], []. rewrite app_nil_r. repeat split. constructor.
    + apply Hnext. now left.
Qed.

(** X19: [prompt_int] returns either the default, for an empty line and
    without testing it against [min_value], or the integer read in a line,
    which is then at least [min_value]; it prints one message for each line
    that it rejects. *)
Theorem prompt_int_default_or_checked (default min_value : option Z)
    (inputs rest : list string) (out msgs : list message) (v : Z) :
  prompt_int int_of_string default min_value inputs out = (Some v, rest, msgs) ->
  (default = Some v \/
   exists line, In line inputs /\ int_of_string (strip line) = Some v /\
                forall m, min_value = Some m -> m <= v) /\
  (forall line d, strip line = "" ->
     prompt_int int_of_string (Some d) min_value (line :: inputs) out
     = (Some d, inputs, out)) /\
  exists consumed rejected,
    inputs = consumed ++ rest /\ msgs = out ++ rejected /\
    List.length consumed = S (List.length rejected).
Proof.
  intros H. pose proof (prompt_int_spec default min_value inputs out) as Hspec.
  rewrite H in Hspec. destruct Hspec as [Hv [consumed [extra [Hin [Hout [Hlen _]]]]]].
  split; [exact Hv | split].
  - intros line d E. cbn [prompt_int]. now rewrite E.
  - now exists consumed, extra.
Qed.

Lemma prompt_int_messages (default min_value : option Z) (inputs : list string)
    (out : list message) :
  Forall bounded_ranking out ->
  Forall bounded_ranking (snd (prompt_int int_of_string default min_value inputs out)).
Proof.
  revert out. induction inputs as [| line inputs IH]; intros out Hout; [exact Hout |].
  cbn [prompt_int].
  destruct (if is_empty (strip line) then default else None); [exact Hout |].
  destruct (int_of_string (strip line)) as [val |].
  - destruct min_value as [m |]; [| exact Hout].
    destruct (val <? m); [| exact Hout].
    apply IH, Forall_app. split; [exact Hout | now repeat constructor].
  - apply IH, Forall_app. split; [exact Hout | now repeat constructor].
Qed.

Lemma ranking_turn_spec (rest : list string) (s : DataStore)
    (query : Z -> St (list row)) (report : Z -> list row -> message) :
  (forall n, read_only (query n)) ->
  (forall n rows, 1 <= n -> len rows <= n -> StronglySorted ranks_before rows ->
     bounded_ranking (report n rows)) ->
  (forall n, 1 <= n ->
     len (eval (query n) s) <= n /\ StronglySorted ranks_before (eval (query n) s)) ->
  let r := ranking_turn int_of_string rest s query report in
  store_of r = s /\
  Forall bounded_ranking (messages_of r) /\
  match r with
  | Continue rest' _ _ =>
      exists consumed, rest = consumed ++ rest' /\ consumed <> []
  | Stop _ _ => False
  | Eof _ _ => True
  end.
Proof.
  intros Hro Hreport Hquery r. subst r. unfold ranking_turn.
  pose proof (prompt_int_spec (Some 10) (Some 1) rest []) as Hspec.
  pose proof (@prompt_int_messages (Some 10) (Some 1) rest [] (Forall_nil _)) as Hmsgs.
  destruct (prompt_int int_of_string (Some 10) (Some 1) rest []) as [[[n |] rest'] msgs];
    cbn [snd] in Hmsgs.
  - destruct Hspec as [Hn [consumed [extra [Hin [Hout [Hlen _]]]]]].
    assert (H1 : 1 <= n).
    { destruct Hn as [[= <-] | [l [_ [_ Hm]]]]; [lia | now apply Hm]. }
    rewrite (run_eval_exec (query n) s), (Hro n s). cbn [store_of messages_of].
    split; [reflexivity | split].
    + constructor; [exact I |]. apply Forall_app. split; [exact Hmsgs |].
      constructor; [| constructor].
      destruct (Hquery n H1). now apply Hreport.
    + exists consumed. split; [exact Hin |]. intros ->. discriminate.
  - cbn [store_of messages_of]. split; [reflexivity | split; [| exact I]].
    now constructor.
Qed.

Lemma require_loaded_spec (s : DataStore) :
  match require_loaded s with
  | (true, msgs) => msgs = [] /\ movies_by_name s <> [] /\ user_ratings s <> []
  | (false, msgs) =>
      (movies_by_name s = [] /\ msgs = [NeedMovies]) \/
      (movies_by_name s <> [] /\ user_ratings s = [] /\ msgs = [NeedRatings])
  end.
Proof.
  unfold require_loaded.
  destruct (movies_by_name s); [now left |].
  destruct (user_ratings s); [right | ]; repeat split; discriminate.
Qed.

Lemma limited_ranking_bounds (n : Z) (l : list row) :
  1 <= n ->
  len (limit (Some n) (sort_rows l)) <= n /\
  StronglySorted ranks_before (limit (Some n) (sort_rows l)).
Proof.
  intros Hn. split; [| apply ranking_sorted].
  cbn [limit]. apply slice_to_nonnegative. lia.
Qed.

(** What a turn of the menu does to the input, to the store and to the
    output. *)
Definition step_ok (inputs : list string) (s : DataStore) (r : step_result) : Prop :=
  Forall bounded_ranking (messages_of r) /\
  match r with
  | Continue rest _ _ => exists consumed, inputs = consumed ++ rest /\ consumed <> []
  | Stop _ _ => exists line rest, inputs = line :: rest /\ strip line = "9"
  | Eof _ _ => True
  end /\
  (store_of r = s \/ store_of r = init \/
   (exists path, store_of r = exec (load_movies_file_at files path) s) \/
   (exists path, store_of r = exec (load_ratings_file_at files path) s)) /\
  (forall line rest,
     inputs = line :: rest ->
     strip line <> "1" -> strip line <> "2" -> strip line <> "8" -> store_of r = s).

Lemma step_ok_same (inputs : list string) (s : DataStore) (r : step_result) :
  Forall bounded_ranking (messages_of r) ->
  match r with
  | Continue rest _ _ => exists consumed, inputs = consumed ++ rest /\ consumed <> []
  | Stop _ _ => exists line rest, inputs = line :: rest /\ strip line = "9"
  | Eof _ _ => True
  end ->
  store_of r = s ->
  step_ok inputs s r.
Proof. intros H1 H2 H3. repeat split; auto. Qed.

Lemma step_ok_turn (line : string) (rest asked : list string) (s : DataStore)
    (query : Z -> St (list row)) (report : Z -> list row -> message) :
  (exists consumed, line :: rest = consumed ++ asked /\ consumed <> []) ->
  (forall n, read_only (query n)) ->
  (forall n rows, 1 <= n -> len rows <= n -> StronglySorted ranks_before rows ->
     bounded_ranking (report n rows)) ->
  (forall n, 1 <= n ->
     len (eval (query n) s) <= n /\ StronglySorted ranks_before (eval (query n) s)) ->
  step_ok (line :: rest) s (ranking_turn int_of_string asked s query report).
Proof.
  intros [before [Hin Hne]] Hro Hreport Hquery.
  destruct (ranking_turn_spec asked s query report Hro Hreport Hquery) as [Hs [Hm Hr]].
  apply step_ok_same; auto.
  destruct (ranking_turn int_of_string asked s query report); auto; [| contradiction].
  destruct Hr as [consumed [Hc _]]. exists (before ++ consumed).
  rewrite Hin, Hc, app_assoc. split; [reflexivity |].
  intros E. apply app_eq_nil in E. now destruct E.
Qed.

Lemma menu_step_ok (inputs : list string) (s : DataStore) :
  step_ok inputs s (menu_step int_of_string files inputs s).
Proof.
  destruct inputs as [| line rest].
  { apply step_ok_same; simpl; auto. repeat constructor. }
  assert (Hone : exists consumed, line :: rest = consumed ++ rest /\ consumed <> []).
  { exists [line]. split; [reflexivity | discriminate]. }
  assert (Htwo : forall x rest', rest = x :: rest' ->
            exists consumed, line :: rest = consumed ++ rest' /\ consumed <> []).
  { intros x rest' ->. exists [line; x]. split; [reflexivity | discriminate]. }
  assert (Hrefused : forall msgs,
            (movies_by_name s = [] /\ msgs = [NeedMovies]) \/
            (movies_by_name s <> [] /\ user_ratings s = [] /\ msgs = [NeedRatings]) ->
            step_ok (line :: rest) s (Continue rest s (Menu :: msgs))).
  { intros msgs Hmsgs. apply step_ok_same; cbn; auto.
    destruct Hmsgs as [[_ ->] | [_ [_ ->]]]; repeat constructor. }
  pose proof (require_loaded_spec s) as Hreq.
  unfold menu_step.
  destruct (String.eqb_spec (strip line) "1") as [E1 | N1].
  { destruct rest as [| p rest']; [apply step_ok_same; simpl; auto; repeat constructor |].
    rewrite (run_eval_exec (load_movies_file_at files (strip p)) s).
    destruct (eval (load_movies_file_at files (strip p)) s).
    - split; [repeat constructor | split; [now apply (Htwo p) | split]].
      + right. right. left. now exists (strip p).
      + intros l r [= <- _] H. contradiction.
    - split; [repeat constructor | split; [now apply (Htwo p) | split]].
      + right. right. left. now exists (strip p).
      + intros l r [= <- _] H. contradiction. }
  destruct (String.eqb_spec (strip line) "2") as [E2 | N2].
  { destruct rest as [| p rest']; [apply step_ok_same; simpl; auto; repeat constructor |].
    rewrite (run_eval_exec (load_ratings_file_at files (strip p)) s).
    destruct (eval (load_ratings_file_at files (strip p)) s).
    - split; [repeat constructor | split; [now apply (Htwo p) | split]].
      + right. right. right. now exists (strip p).
      + intros l r [= <- _] _ H. contradiction.
    - split; [repeat constructor | split; [now apply (Htwo p) | split]].
      + right. right. right. now exists (strip p).
      + intros l r [= <- _] _ H. contradiction. }
  destruct (String.eqb_spec (strip line) "3") as [E3 | N3].
  { destruct (require_loaded s) as [[|] msgs]; [| now apply Hrefused].
    apply step_ok_turn; auto.
    - intros n. apply rank_movies_by_average_ro.
    - intros n rows. cbn. auto.
    - intros n Hn. rewrite rank_movies_by_average_eval. now apply limited_ranking_bounds. }
  destruct (String.eqb_spec (strip line) "4") as [E4 | N4].
  { destruct (require_loaded s) as [[|] msgs]; [| now apply Hrefused].
    destruct rest as [| g rest']; [apply step_ok_same; simpl; auto; repeat constructor |].
    apply step_ok_turn; auto.
    - now apply (Htwo g).
    - intros n. apply rank_movies_in_genre_ro.
    - intros n rows. cbn. auto.
    - intros n Hn. rewrite rank_movies_in_genre_eval. now apply limited_ranking_bounds. }
  destruct (String.eqb_spec (strip line) "5") as [E5 | N5].
  { destruct (require_loaded s) as [[|] msgs]; [| now apply Hrefused].
    apply step_ok_turn; auto.
    - intros n. apply rank_genres_by_popularity_ro.
    - intros n rows. cbn. auto.
    - intros n Hn. rewrite rank_genres_by_popularity_eval.
      now apply limited_ranking_bounds. }
  destruct (String.eqb_spec (strip line) "6") as [E6 | N6].
  { destruct (require_loaded s) as [[|] msgs]; [| now apply Hrefused].
    destruct rest as [| u rest']; [apply step_ok_same; simpl; auto; repeat constructor |].
    rewrite (run_eval_exec (user_top_genre (strip u)) s), user_top_genre_ro.
    apply step_ok_same; cbn; auto; [repeat constructor | now apply (Htwo u)]. }
  destruct (String.eqb_spec (strip line) "7") as [E7 | N7].
  { destruct (require_loaded s) as [[|] msgs]; [| now apply Hrefused].
    destruct rest as [| u rest']; [apply step_ok_same; simpl; auto; repeat constructor |].
    rewrite (run_eval_exec (recommend_for_user (strip u) 3) s), recommend_for_user_ro.
    apply step_ok_same; cbn; auto; [repeat constructor | now apply (Htwo u)]. }
  destruct (String.eqb_spec (strip line) "8") as [E8 | N8].
  { cbn. split; [repeat constructor | split; [exact Hone | split]].
    - right. now left.
    - intros l r [= <- _] _ _ H. contradiction. }
  destruct (String.eqb_spec (strip line) "9") as [E9 | N9].
  { apply step_ok_same; cbn; auto; [repeat constructor | now exists line, rest]. }
  apply step_ok_same; cbn; auto. repeat constructor.
Qed.

Lemma main_loop_spec (fuel : nat) (inputs : list string) (s : DataStore)
    (out : list message) :
  (List.length inputs < fuel)%nat ->
  Forall bounded_ranking out ->
  let o := main_loop int_of_string files fuel inputs s out in
  o <> OutOfFuel /\
  Forall bounded_ranking (output_of o) /\
  (forall s' out', o = Exited s' out' -> exists line, In line inputs /\ strip line = "9").
Proof.
  revert inputs s out. induction fuel as [| fuel IH]; intros inputs s out Hfuel Hout; [lia |].
  cbn [main_loop]. destruct (menu_step_ok inputs s) as [Hmsgs [Hinput _]].
  destruct (menu_step int_of_string files inputs s) as [rest s1 msgs | s1 msgs | s1 msgs];
    cbn [messages_of] in Hmsgs.
  - destruct Hinput as [consumed [Hin Hne]].
    assert (Hlen : (List.length rest < fuel)%nat).
    { rewrite Hin, length_app in Hfuel. destruct consumed; [contradiction | simpl in Hfuel; lia]. }
    destruct (IH rest s1 (out ++ msgs) Hlen) as [H1 [H2 H3]].
    { apply Forall_app. now split. }
    split; [exact H1 | split; [exact H2 |]].
    intros s' out' E. destruct (H3 _ _ E) as [line [Hl H9]]. exists line. split; [| exact H9].
    rewrite Hin. apply in_or_app. now right.
  - split; [discriminate | split].
    + cbn. apply Forall_app. now split.
    + intros _ _ _. destruct Hinput as [line [rest [-> H9]]]. exists line. split; [now left | exact H9].
  - split; [discriminate | split].
    + cbn. apply Forall_app. now split.
    + discriminate.
Qed.

Lemma main_loop_fuel (fuel fuel' : nat) (inputs : list string) (s : DataStore)
    (out : list message) :
  (List.length inputs < fuel)%nat -> (List.length inputs < fuel')%nat ->
  main_loop int_of_string files fuel inputs s out
  = main_loop int_of_string files fuel' inputs s out.
Proof.
  revert fuel' inputs s out.
  induction fuel as [| fuel IH]; intros [| fuel'] inputs s out H H'; try lia.
  cbn [main_loop]. destruct (menu_step_ok inputs s) as [_ [Hinput _]].
  destruct (menu_step int_of_string files inputs s) as [rest s1 msgs | s1 msgs | s1 msgs];
    try reflexivity.
  destruct Hinput as [consumed [Hin Hne]]. apply IH;
    rewrite Hin, length_app in *; destruct consumed; try contradiction; simpl in *; lia.
Qed.

(** X20: every ranking that the menu prints has been asked with a number of
    rows that is at least 1, has at most that many rows, and is sorted; in
    one turn and in a whole session. *)
Theorem menu_rankings_bounded (inputs : list string) (s : DataStore) :
  Forall bounded_ranking (messages_of (menu_step int_of_string files inputs s)) /\
  Forall bounded_ranking (output_of (main int_of_string files inputs)).
Proof.
  split; [apply menu_step_ok |].
  apply main_loop_spec; [lia | repeat constructor].
Qed.

(** X21: a turn of the menu changes the store only by a load or by a clear:
    the store after the turn is the store before it, the empty store, or the
    store that a load of movies or of ratings leaves; after a turn of any
    option but 1, 2 and 8 it is the store before it. *)
Theorem menu_changes_store_by_load_or_clear (inputs : list string) (s : DataStore) :
  let s' := store_of (menu_step int_of_string files inputs s) in
  (s' = s \/ s' = init \/
   (exists path, s' = exec (load_movies_file_at files path) s) \/
   (exists path, s' = exec (load_ratings_file_at files path) s)) /\
  (forall line rest,
     inputs = line :: rest ->
     strip line <> "1" -> strip line <> "2" -> strip line <> "8" -> s' = s).
Proof.
  intros s'. destruct (menu_step_ok inputs s) as [_ [_ [H1 H2]]]. now split.
Qed.

(** X22: while moviesByName or userRatings is empty, the options 3 to 7 run
    no query: the turn prints the request to load the movies, or the
    ratings, reads nothing more and leaves the store as it is. *)
Theorem queries_refused_until_loaded (line : string) (rest : list string)
    (s : DataStore) :
  In (strip line) ["3"; "4"; "5"; "6"; "7"] ->
  movies_by_name s = [] \/ user_ratings s = [] ->
  exists msg,
    (msg = NeedMovies \/ msg = NeedRatings) /\
    menu_step int_of_string files (line :: rest) s = Continue rest s [Menu; msg].
Proof.
  intros Hchoice Hempty.
  pose proof (require_loaded_spec s) as Hreq.
  assert (Hr : exists msg, (msg = NeedMovies \/ msg = NeedRatings) /\
                           require_loaded s = (false, [msg])).
  { destruct (require_loaded s) as [[|] msgs].
    - destruct Hreq as [_ [Hm Hu]]. destruct Hempty; contradiction.
    - destruct Hreq as [[_ ->] | [_ [_ ->]]];
        [exists NeedMovies | exists NeedRatings]; split; auto. }
  destruct Hr as [msg [Hmsg Hr]]. exists msg. split; [exact Hmsg |].
  unfold menu_step. cbn [In] in Hchoice.
  destruct Hchoice as [<- | [<- | [<- | [<- | [<- | []]]]]]; cbn [String.eqb Ascii.eqb Bool.eqb];
    now rewrite Hr.
Qed.

(** X23: the loop of [main] ends for every input, with one unit of fuel for
    each line and one more; more fuel changes nothing.  It ends by the
    [break] of option 9 only if a line of the input is a 9, and otherwise
    by the [EOFError] of an [input()]. *)
Theorem main_ends (inputs : list string) :
  main int_of_string files inputs <> OutOfFuel /\
  (forall fuel, (List.length inputs < fuel)%nat ->
     main_loop int_of_string files fuel inputs init [Banner]
     = main int_of_string files inputs) /\
  (forall s out,
     main int_of_string files inputs = Exited s out ->
     exists line, In line inputs /\ strip line = "9").
Proof.
  destruct (@main_loop_spec (S (List.length inputs)) inputs init [Banner])
    as [H1 [_ H3]]; [lia | repeat constructor |].
  split; [exact H1 | split; [| exact H3]].
  intros fuel Hfuel. apply main_loop_fuel; lia.
Qed.

End MenuFacts.

(** ** Loads that fail at the menu

    A loader empties its two indexes before it opens the file.  When the
    file is missing, [main] catches the [FileNotFoundError] and goes on with
    the store as the loader has left it. *)

Definition without_movies (s : DataStore) : DataStore :=
  {| movies_by_name := []; movies_by_genre := [];
     ratings_by_movie := ratings_by_movie s; user_ratings := user_ratings s |}.

Definition without_ratings (s : DataStore) : DataStore :=
  {| movies_by_name := movies_by_name s; movies_by_genre := movies_by_genre s;
     ratings_by_movie := []; user_ratings := [] |}.

Section FailedLoads.
Context {FL : PyFloat}.
Variable int_of_string : string -> option Z.
Variable files : string -> option (list string).

Lemma group_without_movies (pu : dict Q) (d : dict (list Q)) :
  fold_left (group_rating []) pu d = d.
Proof.
  revert d. induction pu as [| e pu IH]; intros d; [reflexivity | apply IH].
Qed.

Lemma no_movies_no_top_genre (s : DataStore) (user_id : string) :
  movies_by_name s = [] -> eval (user_top_genre user_id) s = None.
Proof.
  intros H. rewrite user_top_genre_eval, H.
  destruct (dict_get user_id (user_ratings s)) as [[| e pu] |]; try reflexivity.
  now rewrite group_without_movies.
Qed.

Lemma refused_when_empty (line : string) (rest : list string) (s : DataStore) :
  In (strip line) ["3"; "4"; "5"; "6"; "7"] ->
  movies_by_name s = [] \/ user_ratings s = [] ->
  menu_step int_of_string files (line :: rest) s
  = Continue rest s
      [Menu; match movies_by_name s with [] => NeedMovies | _ => NeedRatings end].
Proof.
  intros Hchoice Hempty.
  assert (Hr : require_loaded s
               = (false, [match movies_by_name s with
                           | [] => NeedMovies
                           | _ => NeedRatings
                           end])).
  { unfold require_loaded. destruct (movies_by_name s) as [| m ms]; [reflexivity |].
    destruct Hempty as [H | H]; [discriminate | now rewrite H]. }
  unfold menu_step. cbn [In] in Hchoice.
  destruct Hchoice as [<- | [<- | [<- | [<- | [<- | []]]]]];
    cbn [String.eqb Ascii.eqb Bool.eqb]; now rewrite Hr.
Qed.

(** X8: a load of a file that cannot be opened loses what an earlier load
    of the same kind has left.  For a movies file, the turn of option 1
    reports the file and leaves the store that a load of an empty file
    leaves: the ranking of all movies, which reads ratingsByMovie only, is
    as before, but no genre has a row, no user a preferred genre or a
    recommendation, and the menu refuses the options 3 to 7 with the request
    to load the movies.  For a ratings file, the turn of option 2 leaves no
    rating: every query answers with nothing, and the menu refuses the
    options 3 to 7. *)
Theorem failed_load_loses_data (p line : string) (rest : list string) (s : DataStore)
    (g user_id : string) (n : option Z) (k : Z) :
  files (strip p) = None ->
  In (strip line) ["3"; "4"; "5"; "6"; "7"] ->
  (let s' := without_movies s in
   menu_step int_of_string files ("1" :: p :: line :: rest) s
     = Continue (line :: rest) s' [Menu; FileNotFound (strip p)] /\
   s' = exec (load_movies_file []) s /\
   eval (rank_movies_by_average None n) s' = eval (rank_movies_by_average None n) s /\
   eval (rank_movies_in_genre g n) s' = [] /\
   eval (rank_genres_by_popularity n) s' = [] /\
   eval (user_top_genre user_id) s' = None /\
   eval (recommend_for_user user_id k) s' = [] /\
   menu_step int_of_string files (line :: rest) s' = Continue rest s' [Menu; NeedMovies]) /\
  (let s' := without_ratings s in
   menu_step int_of_string files ("2" :: p :: line :: rest) s
     = Continue (line :: rest) s' [Menu; FileNotFound (strip p)] /\
   eval (rank_movies_by_average None n) s' = [] /\
   eval (rank_movies_in_genre g n) s' = [] /\
   eval (rank_genres_by_popularity n) s' = [] /\
   eval (user_top_genre user_id) s' = None /\
   eval (recommend_for_user user_id k) s' = [] /\
   menu_step int_of_string files (line :: rest) s'
     = Continue rest s'
         [Menu; match movies_by_name s with [] => NeedMovies | _ => NeedRatings end]).
Proof.
  intros Hfile Hchoice. split.
  - intros s'.
    assert (Htop : eval (user_top_genre user_id) s' = None)
      by now apply no_movies_no_top_genre.
    split.
    { unfold menu_step. change (strip "1") with "1".
      cbn [String.eqb Ascii.eqb Bool.eqb]. unfold load_movies_file_at.
      now rewrite Hfile. }
    split; [reflexivity |].
    split; [now rewrite !rank_movies_by_average_eval |].
    split; [rewrite rank_movies_in_genre_eval; apply limit_nil |].
    split; [rewrite rank_genres_by_popularity_eval; apply limit_nil |].
    split; [exact Htop |].
    split; [now rewrite recommend_for_user_eval, Htop |].
    now rewrite (@refused_when_empty line rest s' Hchoice (or_introl eq_refl)).
  - intros s'.
    destruct (@no_ratings_no_rows _ s' None g user_id n k eq_refl) as [H1 [H2 [H3 H4]]].
    split.
    { unfold menu_step. change (strip "2") with "2".
      cbn [String.eqb Ascii.eqb Bool.eqb]. unfold load_ratings_file_at.
      now rewrite Hfile. }
    split; [exact H1 |]. split; [exact H2 |]. split; [exact H3 |].
    split; [now rewrite user_top_genre_eval |].
    split; [exact H4 |].
    exact (@refused_when_empty line rest s' Hchoice (or_intror eq_refl)).
Qed.

End FailedLoads.

(** ** A session at the menu

    A reader of plain integers ([12], [-3], [+7]) for [int], and two files. *)

Definition plain_int_of_string (s : string) : option Z :=
  match s with
  | String "-" t => if is_empty t then None else option_map Z.opp (digits_val t 0)
  | String "+" t => if is_empty t then None else digits_val t 0
  | _ => if is_empty s then None else digits_val s 0
  end.

Definition two_files (path : string) : option (list string) :=
  if String.eqb path "movies.txt" then Some movies_good
  else if String.eqb path "ratings.txt" then Some ratings_good
  else None.

Definition menu_session : list string :=
  [ "3"; "1"; "movies.txt"; "2"; "ratings.txt"; "3"; "0"; "many"; "2"; "7"; "u1"; "9"; "5" ].

Example menu_session_output :
  output_of (main plain_int_of_string two_files menu_session)
  = [ Banner; Menu; NeedMovies; Menu; LoadedMovies 6 "movies.txt"; Menu;
      LoadedRatings 11 "ratings.txt"; Menu; AtLeast 1; NotAnInteger;
      TopMovies 2 [ ("Alpha (2001)", (9 # 2)%Q, 2); ("Foxtrot (2007)", (9 # 2)%Q, 2) ];
      Menu; Recommendations "u1" [ (("Delta (2011)", (3 # 1)%Q, 1), "Drama") ];
      Menu; Goodbye ].
Proof. vm_compute. reflexivity. Qed.

Example menu_session_missing_file :
  output_of (main plain_int_of_string two_files
               [ "1"; "movies.txt"; "2"; "ratings.txt"; "1"; "gone.txt"; "5" ])
  = [ Banner; Menu; LoadedMovies 6 "movies.txt"; Menu; LoadedRatings 11 "ratings.txt";
      Menu; FileNotFound "gone.txt"; Menu; NeedMovies; Menu ].
Proof. vm_compute. reflexivity. Qed.

Lemma prompt_int_default_or_checked_witness :
  prompt_int plain_int_of_string (Some 10) (Some 1) ["0"; "many"; "2"; "9"] []
  = (Some 2, ["9"], [AtLeast 1; NotAnInteger]) /\
  (Some 10 = Some 2 \/
   exists line, In line ["0"; "many"; "2"; "9"] /\
                plain_int_of_string (strip line) = Some 2 /\
                forall m, Some 1 = Some m -> m <= 2).
Proof.
  split; [reflexivity |].
  apply (proj1 (@prompt_int_default_or_checked plain_int_of_string (Some 10) (Some 1)
                  ["0"; "many"; "2"; "9"] ["9"] [] [AtLeast 1; NotAnInteger] 2 eq_refl)).
Defined.

Lemma queries_refused_until_loaded_witness :
  In (strip " 3 ") ["3"; "4"; "5"; "6"; "7"] /\
  (movies_by_name init = [] \/ user_ratings init = []) /\
  exists msg,
    (msg = NeedMovies \/ msg = NeedRatings) /\
    menu_step plain_int_of_string two_files [" 3 "; "9"] init = Continue ["9"] init [Menu; msg].
Proof.
  assert (H1 : In (strip " 3 ") ["3"; "4"; "5"; "6"; "7"]) by (now left).
  assert (H2 : movies_by_name init = [] \/ user_ratings init = []) by (now left).
  split; [exact H1 | split; [exact H2 |]].
  apply (@queries_refused_until_loaded ExactFloat plain_int_of_string two_files
           " 3 " ["9"] init H1 H2).
Defined.

Lemma failed_load_loses_data_witness :
  two_files (strip " gone.txt ") = None /\
  In (strip "5") ["3"; "4"; "5"; "6"; "7"] /\
  menu_step plain_int_of_string two_files ["1"; " gone.txt "; "5"; "9"] store_drama
    = Continue ["5"; "9"] (without_movies store_drama) [Menu; FileNotFound "gone.txt"] /\
  eval (recommend_for_user "u1" 3) (without_movies store_drama) = [] /\
  menu_step plain_int_of_string two_files ["5"; "9"] (without_movies store_drama)
    = Continue ["9"] (without_movies store_drama) [Menu; NeedMovies].
Proof.
  assert (H1 : two_files (strip " gone.txt ") = None) by reflexivity.
  assert (H2 : In (strip "5") ["3"; "4"; "5"; "6"; "7"]) by (right; right; now left).
  split; [exact H1 | split; [exact H2 |]].
  destruct (@failed_load_loses_data ExactFloat plain_int_of_string two_files
              " gone.txt " "5" ["9"] store_drama "Drama" "u1" None 3 H1 H2)
    as [[Ha [_ [_ [_ [_ [_ [Hb Hc]]]]]]] _].
  split; [exact Ha | split; [exact Hb | exact Hc]].
Defined.

Lemma main_ends_witness :
  (List.length menu_session < 100)%nat /\
  main_loop plain_int_of_string two_files 100 menu_session init [Banner]
  = main plain_int_of_string two_files menu_session.
Proof.
  assert (H : (List.length menu_session < 100)%nat) by (vm_compute; lia).
  split; [exact H |].
  apply (proj1 (proj2 (@main_ends ExactFloat plain_int_of_string two_files menu_session))
           100%nat H).
Defined.

Lemma genre_ranking_rows_witness :
  In ("Comedy", (9 # 2)%Q, 1) (eval (rank_genres_by_popularity None) store_good) /\
  exists names,
    In (row_key ("Comedy", (9 # 2)%Q, 1), names) (movies_by_genre store_good) /\
    let rated := filter (has_ratings store_good) names in
    rated <> [] /\
    row_weight ("Comedy", (9 # 2)%Q, 1) = len rated /\
    row_score ("Comedy", (9 # 2)%Q, 1)
    = fmean (map (fun nm => fmean (dict_get_or nm [] (ratings_by_movie store_good))) rated).
Proof.
  assert (H : In ("Comedy", (9 # 2)%Q, 1) (eval (rank_genres_by_popularity None) store_good))
    by (vm_compute; now left).
  split; [exact H |].
  apply (@genre_ranking_rows ExactFloat store_good None ("Comedy", (9 # 2)%Q, 1) H).
Defined.

(** ** Means, counts and the index *)

(** The number of ratings that an index holds. *)
Definition ratings_indexed (d : dict (list Q)) : Z :=
  fold_right Z.add 0 (map (@len _) (dict_values d)).

(** The pairs of userRatings whose movie is not in [known]. *)
Definition unknown_pairs (known : dict Movie) (ur : dict (dict Q)) : list (string * Q) :=
  flat_map (fun e : string * dict Q =>
              filter (fun p => negb (dict_mem (fst p) known)) (snd e)) ur.

Lemma ratings_indexed_set (k : string) (v : list Q) (d : dict (list Q)) :
  ratings_indexed (dict_set k v d)
  = ratings_indexed d - len (dict_get_or k [] d) + len v.
Proof.
  unfold ratings_indexed, dict_values, dict_get_or.
  induction d as [| [k' v'] d IH]; simpl.
  - unfold len. simpl. lia.
  - destruct (String.eqb k' k); simpl; [lia | rewrite IH; lia].
Qed.

Section Counts.
Context {FL : PyFloat}.

(** X24: the score of a row of a ranking of movies is the mean that
    [movie_average_rating] gives for the movie of the row. *)
Theorem ranking_score_is_movie_average (s : DataStore)
    (movie_names : option (list string)) (g : string) (n : option Z) (t : row) :
  In t (eval (rank_movies_by_average movie_names n) s) \/
  In t (eval (rank_movies_in_genre g n) s) ->
  eval (movie_average_rating (row_key t)) s = Some (row_score t).
Proof.
  rewrite rank_movies_by_average_eval, rank_movies_in_genre_eval,
    movie_average_rating_eval.
  assert (H : forall l, In t (limit n (sort_rows (collect (movie_row s) l))) ->
                        average_of s (row_key t) = Some (row_score t)).
  { intros l Ht. apply In_limit in Ht. rewrite In_sort_rows in Ht.
    apply in_collect in Ht. destruct Ht as [x [_ Hrow]].
    rewrite (movie_row_key _ _ Hrow). unfold movie_row in Hrow. unfold average_of.
    destruct (dict_get_or x [] (ratings_by_movie s)); [discriminate |].
    now injection Hrow as <-. }
  intros [Ht | Ht]; eapply H; exact Ht.
Qed.

Lemma index_rating_total (known : dict Movie) (pu : dict Q) (d : dict (list Q)) :
  ratings_indexed (fold_left (index_rating known) pu d)
  + len (filter (fun p => negb (dict_mem (fst p) known)) pu)
  = ratings_indexed d + len pu.
Proof.
  revert d. induction pu as [| [m r] pu IH]; intros d.
  - unfold len. simpl. lia.
  - cbn [fold_left filter fst]. specialize (IH (index_rating known d (m, r))).
    cbn [index_rating] in *. unfold len in *.
    destruct (dict_mem m known); cbn [negb List.length] in *.
    + rewrite ratings_indexed_set in IH. unfold len in IH.
      rewrite length_app in IH. cbn [List.length] in IH. lia.
    + lia.
Qed.

Lemma index_user_total (known : dict Movie) (ur : dict (dict Q)) (d : dict (list Q)) :
  ratings_indexed (fold_left (index_user known) ur d) + len (unknown_pairs known ur)
  = ratings_indexed d + count_pairs ur.
Proof.
  revert d. induction ur as [| [u pu] ur IH]; intros d.
  - unfold len, count_pairs. simpl. lia.
  - cbn [fold_left]. specialize (IH (index_user known d (u, pu))).
    change (index_user known d (u, pu)) with (fold_left (index_rating known) pu d) in *.
    pose proof (index_rating_total known pu d) as Hpu.
    unfold unknown_pairs, count_pairs, dict_values, len in *.
    cbn [flat_map map snd fold_right]. rewrite length_app. lia.
Qed.

(** X25: after [load_ratings_file] the ratings held in ratingsByMovie and the
    pairs of userRatings whose movie is not in moviesByName add up to the
    count that the load returns: a rating is counted whether its movie is
    known or not, and indexed only if it is. *)
Theorem indexed_and_unknown_add_up (lines : list string) (s : DataStore) :
  let s' := exec (load_ratings_file lines) s in
  ratings_indexed (ratings_by_movie s')
  + len (unknown_pairs (movies_by_name s') (user_ratings s'))
  = eval (load_ratings_file lines) s.
Proof.
  intros s'. subst s'. unfold eval, exec. rewrite load_ratings_file_run.
  cbn [fst snd ratings_by_movie movies_by_name user_ratings].
  unfold build_ratings_by_movie. rewrite index_user_total. reflexivity.
Qed.

End Counts.

Lemma ranking_score_is_movie_average_witness :
  In ("Alpha (2001)", (9 # 2)%Q, 2) (eval (rank_movies_by_average None None) store_good) /\
  eval (movie_average_rating "Alpha (2001)") store_good = Some (9 # 2)%Q.
Proof.
  assert (H : In ("Alpha (2001)", (9 # 2)%Q, 2)
                 (eval (rank_movies_by_average None None) store_good))
    by (vm_compute; now left).
  split; [exact H |].
  apply (@ranking_score_is_movie_average ExactFloat store_good None "Action" None
           ("Alpha (2001)", (9 # 2)%Q, 2) (or_introl H)).
Defined.

(** ** Ratings rows with empty fields *)

(** A byte that is no white space and no byte of the encoding of a white
    space character, such as an ASCII letter or sign. *)
Definition not_in_space (c : ascii) : Prop :=
  is_space1 c = false /\
  (forall a, is_space2 a c = false) /\
  (forall a b, is_space3 a b c = false).

Lemma all_space_snoc (u : string) (c : ascii) :
  not_in_space c -> all_space (u ++ String c "")%string = false.
Proof.
  intros [H1 [H2 H3]]. induction u as [u IH] using string_length_ind.
  destruct u as [| a [| b [| c' t]]]; cbn [append all_space].
  - now rewrite H1.
  - destruct (is_space1 a).
    + apply (IH ""). simpl. lia.
    + now rewrite H2.
  - destruct (is_space1 a).
    + apply (IH (String b "")). simpl. lia.
    + destruct (is_space2 a b).
      * apply (IH ""). simpl. lia.
      * now rewrite H3.
  - destruct (is_space1 a).
    + apply (IH (String b (String c' t))). simpl. lia.
    + destruct (is_space2 a b).
      * apply (IH (String c' t)). simpl. lia.
      * destruct (is_space3 a b c'); [| reflexivity].
        apply (IH t). simpl. lia.
Qed.

Lemma rstrip_snoc (s : string) (c : ascii) :
  not_in_space c ->
  rstrip (s ++ String c "")%string = (s ++ String c "")%string.
Proof.
  intros Hc. induction s as [| c' s IH].
  - pose proof (@all_space_snoc "" c Hc) as H. cbn [append] in H.
    cbn [append rstrip]. now rewrite H.
  - pose proof (@all_space_snoc (String c' s) c Hc) as H. cbn [append] in H.
    cbn [append rstrip]. now rewrite H, IH.
Qed.

Lemma bar_not_in_space : not_in_space "|".
Proof.
  split; [reflexivity | split].
  - intros a. unfold is_space2. cbn. apply andb_false_r.
  - intros a b. unfold is_space3. cbn. now rewrite !andb_false_r.
Qed.

Lemma split_append (c : ascii) (r t : string) :
  contains c r = false -> split c (r ++ String c t)%string = r :: split c t.
Proof.
  induction r as [| c' r IH]; simpl.
  - intros _. now rewrite Ascii.eqb_refl.
  - destruct (Ascii.eqb c' c); simpl; [discriminate |].
    intros H. now rewrite (IH H).
Qed.

Section EmptyFields.
Context {FL : PyFloat}.

(** X26: the ratings loader does not ask for a movie name or a user id that
    is not empty: the row [|r|] is accepted, with the empty name and the
    empty user, when [r] reads as a number of [0, 5]. *)
Theorem rating_row_with_empty_fields (r : string) (q : Q) :
  contains "|" r = false ->
  contains "#" r = false ->
  float_of_string (strip r) = Some q ->
  in_range q ->
  parse_rating_line ("|" ++ r ++ "|")%string = Some ("", q, "").
Proof.
  intros Hbar Hhash Hfloat Hq. unfold parse_rating_line.
  assert (Hline : strip (_strip_inline_comment ("|" ++ r ++ "|")%string)
                  = ("|" ++ r ++ "|")%string).
  { unfold _strip_inline_comment.
    replace (contains "#" ("|" ++ r ++ "|")%string) with false.
    - unfold strip. cbn [append]. rewrite lstrip_id.
      + change (String "|" (r ++ "|")%string) with ((String "|" r) ++ String "|" "")%string.
        apply rstrip_snoc, bar_not_in_space.
      + destruct r as [| b [| c t]]; reflexivity.
    - cbn [append contains]. rewrite contains_app, Hhash. reflexivity. }
  rewrite Hline. cbn [append is_empty split].
  replace (Ascii.eqb "|" "|") with true by reflexivity.
  rewrite (split_append "|" r "" Hbar). cbn [split map len List.length Z.of_nat].
  replace (strip "") with "" by reflexivity.
  cbn. rewrite Hfloat. apply in_range_b_true in Hq. now rewrite Hq.
Qed.

End EmptyFields.

Lemma rating_row_with_empty_fields_witness :
  contains "|" " 4.5 " = false /\ contains "#" " 4.5 " = false /\
  float_of_string (strip " 4.5 ") = Some (9 # 2)%Q /\ in_range (9 # 2)%Q /\
  parse_rating_line "| 4.5 |" = Some ("", (9 # 2)%Q, "").
Proof.
  assert (Hq : in_range (9 # 2)%Q) by (split; discriminate).
  repeat (split; [first [reflexivity | exact Hq] |]).
  apply (@rating_row_with_empty_fields ExactFloat " 4.5 " (9 # 2)%Q
           eq_refl eq_refl eq_refl Hq).
Defined.
